(** * Lucas multi-agent system: orchestration engine, plugin registry and
      model access layer.

    A shallow embedding of the Python sources

      - [lucas/config/settings.py]   (module [Config])
      - [lucas/llm/providers.py], [lucas/llm/factory.py]   (module [LLM])
      - [lucas/plugins/base.py], [lucas/plugins/manager.py]   (module [Plugins])
      - [lucas/core/state.py], [lucas/core/orchestrator.py]   (module [Core])

    Python dictionaries are finite maps ([gmap]), Python sets are [gset],
    integers are [Z], and code that may raise lives in the [Outcome] monad.
    Calls that leave the repository (chat models, tool execution, plugin
    modules found on disk) are fields of explicit "world" records, so every
    theorem quantifies over all their possible behaviours. *)

From stdpp Require Import base option list strings pretty gmap.
From Stdlib Require Import ZArith Lia.

Local Open Scope Z_scope.
Local Open Scope string_scope.

(** ** Exceptions *)

(** A raised Python exception: the class name and [str(e)]. *)
Record Exn := mkExn { exn_kind : string; exn_msg : string }.

Inductive Outcome (A : Type) : Type :=
| Ok (a : A)
| Raise (e : Exn).
Arguments Ok {A} a.
Arguments Raise {A} e.

#[global] Instance Outcome_ret : MRet Outcome := fun A a => Ok a.
#[global] Instance Outcome_bind : MBind Outcome := fun A B f m =>
  match m with
  | Ok a => f a
  | Raise e => Raise e
  end.

Definition is_ok {A} (o : Outcome A) : bool :=
  match o with Ok _ => true | Raise _ => false end.

Definition str (e : Exn) : string := exn_msg e.

(** ** [lucas/config/settings.py] *)

Module Config.

Record Settings := mkSettings {
  default_llm_provider : string;
  openai_api_key : option string;
  anthropic_api_key : option string;
  google_api_key : option string;
  plugins_dir : string;
  max_hops : Z;
}.

(** The field defaults of the class. *)
Definition default_settings : Settings :=
  {| default_llm_provider := "openai";
     openai_api_key := None;
     anthropic_api_key := None;
     google_api_key := None;
     plugins_dir := "./plugins";
     max_hops := 10 |}.

(** [Field(default=10, ge=1, le=50)] together with
    [validate_llm_provider]: what an instance must satisfy to exist. *)
Definition validate_llm_provider (value : string) : bool :=
  bool_decide (value ∈ ["openai"; "anthropic"; "google"]).

Definition valid (s : Settings) : bool :=
  validate_llm_provider (default_llm_provider s)
  && (1 <=? max_hops s)%Z && (max_hops s <=? 50)%Z.

Definition get_api_key_for_provider (s : Settings) (provider : string)
  : option string :=
  if String.eqb provider "openai" then openai_api_key s
  else if String.eqb provider "anthropic" then anthropic_api_key s
  else if String.eqb provider "claude" then anthropic_api_key s
  else if String.eqb provider "google" then google_api_key s
  else if String.eqb provider "gemini" then google_api_key s
  else None.

End Config.

(** ** [lucas/llm/providers.py] and [lucas/llm/factory.py] *)

Module LLM.
Import Config.

(** A Python float, identified by its [repr], which is what an f-string
    prints and which determines the float. *)
Record PyFloat := mkFloat { float_repr : string }.

(** [ModelConfig] without [additional_params]: every configuration
    the repository builds leaves that dictionary empty. *)
Record ModelConfig := mkModelConfig {
  provider : string;
  model_name : string;
  temperature : PyFloat;
  max_tokens : Z;
  api_key : option string;
}.

(** Truthiness of an [Optional[str]]: [None] and the empty string are
    falsy. *)
Definition truthy_str (o : option string) : bool :=
  match o with
  | None => false
  | Some s => negb (String.eqb s "")
  end.

Inductive ProviderKind := OpenAIProvider | AnthropicProvider | GoogleGenAIProvider.

(** A constructed chat model. [handle_id] stands for the identity of the
    Python object: every construction allocates a new one. The other
    fields are the constructor arguments the provider passed on. *)
Record ModelHandle := mkHandle {
  handle_id : nat;
  handle_kind : ProviderKind;
  handle_model : string;
  handle_temperature : PyFloat;
  handle_max_tokens : Z;
  handle_api_key : option string;
}.

(** [HAS_OPENAI], [HAS_ANTHROPIC], [HAS_GOOGLE]: which optional packages
    could be imported. *)
Record Packages := mkPackages {
  HAS_OPENAI : bool;
  HAS_ANTHROPIC : bool;
  HAS_GOOGLE : bool;
}.

Definition has_package (p : Packages) (k : ProviderKind) : bool :=
  match k with
  | OpenAIProvider => HAS_OPENAI p
  | AnthropicProvider => HAS_ANTHROPIC p
  | GoogleGenAIProvider => HAS_GOOGLE p
  end.

Definition package_name (k : ProviderKind) : string :=
  match k with
  | OpenAIProvider => "langchain-openai"
  | AnthropicProvider => "langchain-anthropic"
  | GoogleGenAIProvider => "langchain-google-genai"
  end.

(** [LLMModelFactory] with its [ModelCacheManager._cache] and
    [ProviderRegistry._providers]; [constructed] counts the models built
    so far and supplies the next object identity. *)
Record LLMModelFactory := mkFactory {
  settings : Settings;
  packages : Packages;
  _cache : gmap string ModelHandle;
  _providers : gmap string ProviderKind;
  constructed : nat;
}.

Definition default_providers : gmap string ProviderKind :=
  <["gemini" := GoogleGenAIProvider]>
  (<["google" := GoogleGenAIProvider]>
  (<["claude" := AnthropicProvider]>
  (<["anthropic" := AnthropicProvider]>
  (<["openai" := OpenAIProvider]> ∅)))).

Definition new_factory (s : Settings) (p : Packages) : LLMModelFactory :=
  {| settings := s; packages := p; _cache := ∅;
     _providers := default_providers; constructed := 0 |}.

(** [ModelCacheManager.get_cache_key]:
    [f"{config.provider}:{config.model_name}:{config.temperature}"]. *)
Definition get_cache_key (config : ModelConfig) : string :=
  provider config ++ ":" ++ model_name config ++ ":"
    ++ float_repr (temperature config).

Definition get_cached_model (f : LLMModelFactory) (cache_key : string)
  : option ModelHandle := _cache f !! cache_key.

Definition cache_model (f : LLMModelFactory) (cache_key : string)
    (model : ModelHandle) : LLMModelFactory :=
  {| settings := settings f; packages := packages f;
     _cache := <[cache_key := model]> (_cache f);
     _providers := _providers f; constructed := constructed f |}.

Definition clear_cache (f : LLMModelFactory) : LLMModelFactory :=
  {| settings := settings f; packages := packages f; _cache := ∅;
     _providers := _providers f; constructed := constructed f |}.

Definition get_provider (f : LLMModelFactory) (provider_name : string)
  : option ProviderKind := _providers f !! provider_name.

(** [LLMModelFactory._ensure_api_key]: the configuration with its key
    resolved, or [ValueError]. *)
Definition _ensure_api_key (f : LLMModelFactory) (config : ModelConfig)
  : Outcome ModelConfig :=
  if truthy_str (api_key config) then Ok config
  else
    let key := get_api_key_for_provider (settings f) (provider config) in
    let config' :=
      {| provider := provider config; model_name := model_name config;
         temperature := temperature config; max_tokens := max_tokens config;
         api_key := key |} in
    if truthy_str key then Ok config'
    else Raise (mkExn "ValueError"
                  ("No API key found for provider: " ++ provider config)).

(** [BaseLLMProvider.create_model] of the three concrete providers. The
    constructor of the vendor's chat model is taken to accept the
    arguments it is given. *)
Definition create_model (f : LLMModelFactory) (k : ProviderKind)
    (config : ModelConfig) : Outcome ModelHandle :=
  if has_package (packages f) k then
    Ok {| handle_id := constructed f;
          handle_kind := k;
          handle_model := model_name config;
          handle_temperature := temperature config;
          handle_max_tokens := max_tokens config;
          handle_api_key := api_key config |}
  else Raise (mkExn "ImportError"
                (package_name k ++ " is not installed. Install with: pip install "
                   ++ package_name k)).

Definition count_construction (f : LLMModelFactory) : LLMModelFactory :=
  {| settings := settings f; packages := packages f; _cache := _cache f;
     _providers := _providers f; constructed := S (constructed f) |}.

(** [LLMModelFactory.create_base_model]. The factory is returned with
    the result because the call may fill the cache. *)
Definition create_base_model (f : LLMModelFactory) (config : ModelConfig)
  : Outcome ModelHandle * LLMModelFactory :=
  let cache_key := get_cache_key config in
  match get_cached_model f cache_key with
  | Some cached_model => (Ok cached_model, f)
  | None =>
      match get_provider f (provider config) with
      | None =>
          (Raise (mkExn "ValueError" ("Unknown provider: " ++ provider config)), f)
      | Some prov =>
          match _ensure_api_key f config with
          | Raise e => (Raise e, f)
          | Ok config' =>
              match create_model f prov config' with
              | Raise e => (Raise e, f)
              | Ok model =>
                  (Ok model, cache_model (count_construction f) cache_key model)
              end
          end
      end
  end.

(** The factory after a run of further [create_base_model] calls. *)
Definition after_calls (f : LLMModelFactory) (cs : list ModelConfig)
  : LLMModelFactory :=
  foldl (fun f c => snd (create_base_model f c)) f cs.

End LLM.

(** ** [lucas/plugins/base.py] and [lucas/plugins/manager.py] *)

Module Plugins.
Import Config LLM.

(** [metadata.llm_requirements]: a dictionary read at four keys, each of
    which may be missing. *)
Record LLMRequirements := mkReqs {
  req_provider : option string;
  req_model : option string;
  req_temperature : option PyFloat;
  req_max_tokens : option Z;
}.

Record PluginMetadata := mkMetadata {
  name : string;
  version : string;
  description : string;
  capabilities : list string;
  llm_requirements : LLMRequirements;
  agent_type : string;
  system_prompt : string;
}.

Record Tool := mkTool { tool_name : string; tool_description : string }.

(** The result of [model.bind_tools(tools)]. *)
Record BoundModel := mkBound {
  bound_base : ModelHandle;
  bound_tools : list Tool;
}.

(** A [BasePluginAgent] instance. The abstract methods are plugin code;
    what they return or raise is data of the instance, as is whether
    [bind_tools] of the chat model raises. *)
Record BasePluginAgent := mkAgent {
  agent_metadata : PluginMetadata;
  get_tools : Outcome (list Tool);
  get_system_prompt : Outcome string;
  bind_tools_fault : option Exn;
  initialize_fault : option Exn;
  _tools : option (list Tool);
  _bound_model : option BoundModel;
  _initialized : bool;
}.

Definition set_bound_model (a : BasePluginAgent) (b : BoundModel) : BasePluginAgent :=
  {| agent_metadata := agent_metadata a; get_tools := get_tools a;
     get_system_prompt := get_system_prompt a;
     bind_tools_fault := bind_tools_fault a;
     initialize_fault := initialize_fault a;
     _tools := _tools a; _bound_model := Some b;
     _initialized := _initialized a |}.

(** [BasePluginAgent.bind_model]. *)
Definition bind_model (a : BasePluginAgent) (model : ModelHandle)
  : Outcome (BoundModel * BasePluginAgent) :=
  tools ← get_tools a;
  match bind_tools_fault a with
  | Some e => Raise e
  | None =>
      let b := {| bound_base := model; bound_tools := tools |} in
      Ok (b, set_bound_model a b)
  end.

(** [BasePluginAgent.initialize] (a plugin may override it, and then it
    may raise on its own account: [initialize_fault]). *)
Definition initialize (a : BasePluginAgent) : Outcome BasePluginAgent :=
  match initialize_fault a with
  | Some e => Raise e
  | None =>
      tools ← get_tools a;
      Ok {| agent_metadata := agent_metadata a; get_tools := get_tools a;
            get_system_prompt := get_system_prompt a;
            bind_tools_fault := bind_tools_fault a;
            initialize_fault := initialize_fault a;
            _tools := Some tools; _bound_model := _bound_model a;
            _initialized := true |}
  end.

(** [PluginBundle]: four attributes, any of which Python allows to be
    [None]. *)
Record PluginBundle := mkBundle {
  metadata : option PluginMetadata;
  agent : option BasePluginAgent;
  bound_model : option BoundModel;
  tools : option (list Tool);
}.

(** What executing [plugin.py] yields. *)
Record PluginModule := mkModule {
  get_metadata : Outcome PluginMetadata;
  create_agent : Outcome BasePluginAgent;
}.

(** The ways [_load_plugin_module] can go for a directory. *)
Inductive ModuleLoad :=
| NoSpec                       (* spec_from_file_location gave no loader *)
| SpecRaises (e : Exn)         (* raised before the inner try *)
| ExecRaises (e : Exn)         (* exec_module raised *)
| MissingFunctions             (* no get_metadata or no create_agent *)
| Loaded (m : PluginModule).

(** A discovered plugin directory: its name, what
    [PluginValidator.validate_plugin_directory] returns for it (that
    method catches every exception itself and reports it as an error
    string), and how its module loads. *)
Record PluginSource := mkSource {
  dir_name : string;
  validation_errors : list string;
  module_load : ModuleLoad;
}.

Record PluginManager := mkManager {
  llm_factory : LLMModelFactory;
  plugin_bundles : gmap string PluginBundle;
  plugin_metadata : gmap string PluginMetadata;
  validator : bool;
  healthy_plugins : gset string;
  failed_plugins : gset string;
}.

Definition new_manager (f : LLMModelFactory) (has_validator : bool) : PluginManager :=
  {| llm_factory := f; plugin_bundles := ∅; plugin_metadata := ∅;
     validator := has_validator; healthy_plugins := ∅; failed_plugins := ∅ |}.

Definition with_factory (pm : PluginManager) (f : LLMModelFactory) : PluginManager :=
  {| llm_factory := f; plugin_bundles := plugin_bundles pm;
     plugin_metadata := plugin_metadata pm; validator := validator pm;
     healthy_plugins := healthy_plugins pm; failed_plugins := failed_plugins pm |}.

Definition with_health (pm : PluginManager) (h f : gset string) : PluginManager :=
  {| llm_factory := llm_factory pm; plugin_bundles := plugin_bundles pm;
     plugin_metadata := plugin_metadata pm; validator := validator pm;
     healthy_plugins := h; failed_plugins := f |}.

Definition register (pm : PluginManager) (md : PluginMetadata) (b : PluginBundle)
  : PluginManager :=
  {| llm_factory := llm_factory pm;
     plugin_bundles := <[name md := b]> (plugin_bundles pm);
     plugin_metadata := <[name md := md]> (plugin_metadata pm);
     validator := validator pm;
     healthy_plugins := healthy_plugins pm ∪ {[name md]};
     failed_plugins := failed_plugins pm |}.

(** [PluginManager._load_plugin_module]: the module, [None], or an
    exception that escapes. *)
Definition _load_plugin_module (src : PluginSource) : Outcome (option PluginModule) :=
  match module_load src with
  | NoSpec => Ok None
  | SpecRaises e => Raise e
  | ExecRaises _ => Ok None
  | MissingFunctions => Ok None
  | Loaded m => Ok (Some m)
  end.

(** [PluginManager._create_model_config]. *)
Definition _create_model_config (md : PluginMetadata) : ModelConfig :=
  let llm_reqs := llm_requirements md in
  {| provider := default "openai" (req_provider llm_reqs);
     model_name := default "gpt-4o" (req_model llm_reqs);
     temperature := default (mkFloat "0.0") (req_temperature llm_reqs);
     max_tokens := default 1000%Z (req_max_tokens llm_reqs);
     api_key := None |}.

(** The body of the [try] in [load_plugin_bundle]. The manager comes
    back with the outcome, raised or not, because the model cache may
    have been filled before a later step raised. Building the
    [ToolNode] and the agent closure of the bundle is taken not to
    raise. *)
Definition load_plugin_bundle_try (pm : PluginManager) (src : PluginSource)
  : Outcome bool * PluginManager :=
  if validator pm && negb (bool_decide (validation_errors src = [])) then
    (Ok false, pm)
  else
    match _load_plugin_module src with
    | Raise e => (Raise e, pm)
    | Ok None => (Ok false, pm)
    | Ok (Some plugin_module) =>
        match get_metadata plugin_module with
        | Raise e => (Raise e, pm)
        | Ok md =>
            match create_agent plugin_module with
            | Raise e => (Raise e, pm)
            | Ok ag =>
                let model_config := _create_model_config md in
                let '(r, f) := create_base_model (llm_factory pm) model_config in
                let pm := with_factory pm f in
                match r with
                | Raise e => (Raise e, pm)
                | Ok base_model =>
                    match get_tools ag with
                    | Raise e => (Raise e, pm)
                    | Ok ts =>
                        match bind_model ag base_model with
                        | Raise e => (Raise e, pm)
                        | Ok (bm, ag) =>
                            match initialize ag with
                            | Raise e => (Raise e, pm)
                            | Ok ag =>
                                let bundle :=
                                  {| metadata := Some md; agent := Some ag;
                                     bound_model := Some bm; tools := Some ts |} in
                                (Ok true, register pm md bundle)
                            end
                        end
                    end
                end
            end
        end
    end.

(** [PluginManager.load_plugin_bundle]: the [try] with its handler. *)
Definition load_plugin_bundle (pm : PluginManager) (src : PluginSource)
  : bool * PluginManager :=
  match load_plugin_bundle_try pm src with
  | (Ok b, pm) => (b, pm)
  | (Raise _, pm) =>
      (false, with_health pm (healthy_plugins pm) (failed_plugins pm ∪ {[dir_name src]}))
  end.

(** [PluginManager.load_all_plugin_bundles], over the directories that
    [discover_plugin_directories] returned; the count of successes is
    only logged by the source and is returned here. *)
Fixpoint load_all_plugin_bundles (pm : PluginManager) (plugin_paths : list PluginSource)
  : nat * PluginManager :=
  match plugin_paths with
  | [] => (0%nat, pm)
  | plugin_path :: rest =>
      let '(ok, pm) := load_plugin_bundle pm plugin_path in
      let '(loaded_count, pm) := load_all_plugin_bundles pm rest in
      ((if ok then S loaded_count else loaded_count), pm)
  end.

(** [get_available_plugins]: the keys of [plugin_bundles], each once,
    in the order of the finite map. *)
Definition get_available_plugins (pm : PluginManager) : list string :=
  (map_to_list (plugin_bundles pm)).*1.

(** The expression assigned to [is_healthy] in [perform_health_checks];
    [len(None)] raises. *)
Definition is_healthy (b : PluginBundle) : Outcome bool :=
  if bool_decide (agent b = None) then Ok false
  else if bool_decide (bound_model b = None) then Ok false
  else match tools b with
       | None => Raise (mkExn "TypeError" "object of type 'NoneType' has no len()")
       | Some ts =>
           if (0 <? length ts)%nat
           then Ok (negb (bool_decide (metadata b = None)))
           else Ok false
       end.

(** One iteration of the loop of [perform_health_checks]. *)
Definition health_check_step (acc : gmap string bool * (gset string * gset string))
    (item : string * PluginBundle) : gmap string bool * (gset string * gset string) :=
  let '(results, (healthy, failed)) := acc in
  let '(plugin_name, bundle) := item in
  match is_healthy bundle with
  | Ok true =>
      (<[plugin_name := true]> results,
       (healthy ∪ {[plugin_name]}, failed ∖ {[plugin_name]}))
  | Ok false =>
      (<[plugin_name := false]> results,
       (healthy ∖ {[plugin_name]}, failed ∪ {[plugin_name]}))
  | Raise _ =>
      (<[plugin_name := false]> results, (healthy, failed ∪ {[plugin_name]}))
  end.

(** [PluginManager.perform_health_checks]: the returned dictionary and
    the manager afterwards. *)
Definition perform_health_checks (pm : PluginManager)
  : gmap string bool * PluginManager :=
  let '(results, (healthy, failed)) :=
    foldl health_check_step (∅, (healthy_plugins pm, failed_plugins pm))
          (map_to_list (plugin_bundles pm)) in
  (results, with_health pm healthy failed).

(** The health criterion in the words of the specification: a non-null
    agent, a non-null bound model, at least one tool, non-null
    metadata. *)
Definition healthy_criterion (b : PluginBundle) : bool :=
  negb (bool_decide (agent b = None))
  && negb (bool_decide (bound_model b = None))
  && match tools b with Some ts => (0 <? length ts)%nat | None => false end
  && negb (bool_decide (metadata b = None)).

(** What one run of the loop does to a name: to its entry in the result
    and to its membership in the two sets. *)
Definition healthy_after (o : option PluginBundle) (before : Prop) : Prop :=
  match o with
  | Some b =>
      match is_healthy b with
      | Ok true => True
      | Ok false => False
      | Raise _ => before
      end
  | None => before
  end.

Definition failed_after (o : option PluginBundle) (before : Prop) : Prop :=
  match o with
  | Some b => match is_healthy b with Ok true => False | _ => True end
  | None => before
  end.

(** A directory every loading step of which succeeds for manager [pm]:
    it passes validation, its module loads and builds metadata [md]
    and an agent, the provider the metadata asks for is registered,
    installed and has a key in the settings, and tools, binding and
    initialization raise nothing. *)
Definition self_sufficient (pm : PluginManager) (src : PluginSource)
    (md : PluginMetadata) : Prop :=
  (validator pm = false \/ validation_errors src = [])
  /\ exists m ag ts k,
      module_load src = Loaded m
      /\ get_metadata m = Ok md
      /\ create_agent m = Ok ag
      /\ get_tools ag = Ok ts
      /\ bind_tools_fault ag = None
      /\ initialize_fault ag = None
      /\ _providers (llm_factory pm) !! provider (_create_model_config md) = Some k
      /\ has_package (packages (llm_factory pm)) k = true
      /\ truthy_str (get_api_key_for_provider (settings (llm_factory pm))
                       (provider (_create_model_config md))) = true.

(** The parts of a manager that loading never changes. *)
Definition same_environment (pm pm' : PluginManager) : Prop :=
  validator pm' = validator pm
  /\ settings (llm_factory pm') = settings (llm_factory pm)
  /\ packages (llm_factory pm') = packages (llm_factory pm)
  /\ _providers (llm_factory pm') = _providers (llm_factory pm).

(** Loading only adds: bundles, healthy names and failed names. *)
Definition grows (pm pm' : PluginManager) : Prop :=
  dom (plugin_bundles pm) ⊆ dom (plugin_bundles pm')
  /\ healthy_plugins pm ⊆ healthy_plugins pm'
  /\ failed_plugins pm ⊆ failed_plugins pm'.

(** A coordinator routing tool: its name, docstring and the token it
    returns. *)
Record RoutingTool := mkRoutingTool {
  rt_name : string;
  rt_doc : string;
  rt_returns : string;
}.

(** The tool [make_goto_tool] builds when [exec] accepts the source it
    generates (a name that continues an identifier, a description that
    does not end the docstring). *)
Definition make_goto_tool (nm desc : string) : RoutingTool :=
  {| rt_name := "goto_" ++ nm;
     rt_doc := "Route to " ++ nm ++ " plugin for " ++ desc;
     rt_returns := nm |}.

Definition finalize : RoutingTool :=
  {| rt_name := "finalize";
     rt_doc := "Signal that the task is complete and provide final response.";
     rt_returns := "final" |}.

(** [PluginManager.get_coordinator_tools]; [self.plugin_metadata[name]]
    raises [KeyError] for a name without metadata. The generated
    sources are taken to compile, see [make_goto_tool]. *)
Definition get_coordinator_tools (pm : PluginManager) : Outcome (list RoutingTool) :=
  goto ← mapM (fun plugin_name =>
                 match plugin_metadata pm !! plugin_name with
                 | Some md => Ok (make_goto_tool plugin_name (description md))
                 | None => Raise (mkExn "KeyError" plugin_name)
                 end) (get_available_plugins pm);
  Ok (goto ++ [finalize])%list.

(** [PluginManager.get_plugin_routing_info]. *)
Definition get_plugin_routing_info (pm : PluginManager)
  : Outcome (list (string * string)) :=
  mapM (fun '(nm, bundle) =>
          match metadata bundle with
          | Some md =>
              Ok (nm, description md ++ ". Capabilities only for: "
                        ++ String.concat ", " (capabilities md))
          | None => Raise (mkExn "AttributeError"
                             "'NoneType' object has no attribute 'description'")
          end) (map_to_list (plugin_bundles pm)).

End Plugins.

(** ** [lucas/core/state.py] and [lucas/core/orchestrator.py] *)

Module Core.
Import Config LLM Plugins.

Inductive MessageType := HumanMessage | AIMessage | ToolMessage | SystemMessage.

(** A LangChain message. [tool_calls] holds the names of the requested
    tools; only an [AIMessage] has the attribute. *)
Record BaseMessage := mkMessage {
  msg_type : MessageType;
  content : string;
  tool_calls : list string;
}.

(** [getattr(msg, "tool_calls", None)], as a list that is empty when the
    attribute is missing. *)
Definition get_tool_calls (m : BaseMessage) : list string :=
  match msg_type m with
  | AIMessage => tool_calls m
  | _ => []
  end.

Definition has_tool_calls (m : BaseMessage) : bool :=
  negb (bool_decide (get_tool_calls m = [])).

(** The two keys of [plugin_context] the engine writes; a key that is
    not in the dictionary is [None]. *)
Record PluginContext := mkContext {
  last_plugin : option string;
  routing_history : option (list string);
}.

(** [AgentState] is a [TypedDict] with [total=False]: a key may be
    missing ([None] here). [plugin_context] is [Optional], so a present
    key may hold Python's [None] ([Some None]). [error] is the extra key
    of the dictionary [ainvoke] returns on failure. *)
Record AgentState := mkState {
  messages : list BaseMessage;
  hops : option Z;
  current_agent : option string;
  session_id : option string;
  agents_used : option (list string);
  plugin_context : option (option PluginContext);
  error : option string;
}.

Definition MAX_HOPS : Z := 10.

(** [state.get("hops", 0)]. *)
Definition get_hops (state : AgentState) : Z := default 0%Z (hops state).

Definition _inc_hops (state : AgentState) : Z := (get_hops state + 1)%Z.

(** The dictionary a graph node returns. *)
Record Update := mkUpdate {
  u_messages : list BaseMessage;
  u_hops : option Z;
  u_current_agent : option string;
  u_agents_used : option (list string);
  u_plugin_context : option PluginContext;
}.

(** How LangGraph merges a node's return value into the state:
    [messages] through the [add_messages] reducer (appended), every
    other key that is present overwrites. *)
Definition apply_update (s : AgentState) (u : Update) : AgentState :=
  {| messages := (messages s ++ u_messages u)%list;
     hops := match u_hops u with Some h => Some h | None => hops s end;
     current_agent :=
       match u_current_agent u with Some a => Some a | None => current_agent s end;
     session_id := session_id s;
     agents_used :=
       match u_agents_used u with Some l => Some l | None => agents_used s end;
     plugin_context :=
       match u_plugin_context u with
       | Some c => Some (Some c)
       | None => plugin_context s
       end;
     error := error s |}.

Definition messages_only (ms : list BaseMessage) : Update :=
  {| u_messages := ms; u_hops := None; u_current_agent := None;
     u_agents_used := None; u_plugin_context := None |}.

(** Everything a turn calls outside the repository: the chat models,
    the two kinds of LangGraph [ToolNode], and LangGraph's bound on the
    number of node executions of one run. *)
Record Models := mkModels {
  coordinator_invoke : list BaseMessage -> Outcome BaseMessage;
  agent_invoke : string -> list BaseMessage -> Outcome BaseMessage;
  control_tools_node : list BaseMessage -> Outcome (list BaseMessage);
  plugin_tools_node : string -> list BaseMessage -> Outcome (list BaseMessage);
  recursion_limit : nat;
}.

(** Graph nodes. LangGraph names them by strings and refuses a graph
    with two nodes of one name, so in a graph that exists they are
    distinct and are kept apart by constructor here. *)
Inductive Node :=
| Coordinator
| ControlTools
| PluginAgent (plugin : string)
| PluginTools (plugin : string)
| Finalizer
| END.

(** What [_build_graph] fixes at construction: the agent behind each
    plugin node and the label table of the edge out of [control_tools]. *)
Record Graph := mkGraph {
  graph_agents : gmap string BasePluginAgent;
  route_mapping : gmap string Node;
}.

Record MultiAgentOrchestrator := mkOrchestrator {
  plugin_manager : PluginManager;
  settings : Settings;
  coordinator_model : BoundModel;
  graph : Graph;
}.

Definition coordinator_model_name (s : Settings) : string :=
  if String.eqb (default_llm_provider s) "openai" then "gpt-4.1"
  else "claude-3-opus-20240229".

(** [_create_coordinator_model]; the routing tools bound to the model
    are recorded by name and docstring. *)
Definition _create_coordinator_model (pm : PluginManager) (s : Settings)
  : Outcome BoundModel * PluginManager :=
  match get_coordinator_tools pm with
  | Raise e => (Raise e, pm)
  | Ok control_tools =>
      let config :=
        {| provider := default_llm_provider s;
           model_name := coordinator_model_name s;
           temperature := mkFloat "0.0";
           max_tokens := 1024;
           api_key := None |} in
      let '(r, f) := create_base_model (llm_factory pm) config in
      let pm := with_factory pm f in
      match r with
      | Raise e => (Raise e, pm)
      | Ok base_model =>
          (Ok {| bound_base := base_model;
                 bound_tools :=
                   (fun t => mkTool (rt_name t) (rt_doc t)) <$> control_tools |},
           pm)
      end
  end.

Definition build_route_mapping (plugins : list string) : gmap string Node :=
  foldl (fun route_mapping plugin_name =>
           <[plugin_name ++ "_agent" := PluginAgent plugin_name]> route_mapping)
        {["end" := Finalizer]} plugins.

(** [_build_graph]. A bundle without metadata or agent makes
    [get_graph_nodes] raise. LangGraph is taken to accept the node
    names (no plugin node is named like a node of the engine). *)
Definition _build_graph (pm : PluginManager) : Outcome Graph :=
  agents ← mapM (fun '(_, bundle) =>
                   match metadata bundle, agent bundle with
                   | Some md, Some ag => Ok (name md, ag)
                   | _, _ => Raise (mkExn "AttributeError"
                                      "'NoneType' object has no attribute")
                   end) (map_to_list (plugin_bundles pm));
  Ok {| graph_agents := list_to_map agents;
        route_mapping := build_route_mapping (get_available_plugins pm) |}.

(** [MultiAgentOrchestrator.__init__]; the application passes the
    manager's own factory as [llm_factory]. *)
Definition new_orchestrator (pm : PluginManager) (s : Settings)
  : Outcome MultiAgentOrchestrator :=
  let '(r, pm) := _create_coordinator_model pm s in
  cm ← r;
  g ← _build_graph pm;
  Ok {| plugin_manager := pm; settings := s; coordinator_model := cm; graph := g |}.

Definition newline : string := String (Ascii.ascii_of_nat 10) "".

Definition SystemMsg (text : string) : BaseMessage :=
  {| msg_type := SystemMessage; content := text; tool_calls := [] |}.

Definition coordinator_system_content (plugin_info : list (string * string)) : string :=
  let available_plugins :=
    (fun '(plugin_name, desc) => "- goto_" ++ plugin_name ++ ": " ++ desc)
      <$> plugin_info in
  let goto_options :=
    String.concat " | " ((fun '(nm, _) => "goto_" ++ nm) <$> plugin_info) in
  "You are the Coordinator for a multi-agent system. Your role is to analyze queries and route to appropriate agents."
  ++ newline ++ "**AVAILABLE ROUTING OPTIONS**"
  ++ newline ++ String.concat newline available_plugins
  ++ newline ++ "- finalize: Use ONLY when all necessary information has been gathered to answer the query"
  ++ newline
  ++ newline ++ "**IMPORTANT**"
  ++ newline ++ "- You can only call ONE tool at a time. The system will invoke you again after each agent completes."
  ++ newline ++ "**CURRENT DECISION**"
  ++ newline ++ "- Choose ONE of: " ++ goto_options ++ " | finalize".

(** [MultiAgentOrchestrator._coordinator_node]. *)
Definition _coordinator_node (o : MultiAgentOrchestrator) (w : Models)
    (state : AgentState) : Outcome Update :=
  if (MAX_HOPS <=? get_hops state)%Z then
    let final_msg := SystemMsg ("Max hops (" ++ pretty MAX_HOPS ++ ") reached. Finalize now.") in
    Ok {| u_messages := [final_msg]; u_hops := Some (_inc_hops state);
          u_current_agent := None; u_agents_used := None;
          u_plugin_context := None |}
  else
    plugin_info ← get_plugin_routing_info (plugin_manager o);
    let system := SystemMsg (coordinator_system_content plugin_info) in
    response ← coordinator_invoke w (system :: messages state);
    Ok {| u_messages := [response]; u_hops := Some (_inc_hops state);
          u_current_agent := None; u_agents_used := None;
          u_plugin_context := None |}.

Definition summary_prompt : BaseMessage :=
  SystemMsg ("You are creating the final response for a multi-agent conversation."
    ++ newline ++ "CRITICAL REQUIREMENTS:"
    ++ newline ++ "1. Be comprehensive but concise"
    ++ newline ++ "2. Maintain the language used in the original query"
    ++ newline ++ "3. Connect all the work done by different agents into a coherent answer").

(** [MultiAgentOrchestrator._finalizer_node]. *)
Definition _finalizer_node (w : Models) (state : AgentState) : Outcome Update :=
  final_response ← coordinator_invoke w (summary_prompt :: messages state);
  Ok {| u_messages := [final_response]; u_hops := Some (get_hops state);
        u_current_agent := None; u_agents_used := None;
        u_plugin_context := None |}.

(** [tool_result[5:]]. *)
Fixpoint string_drop (n : nat) (s : string) : string :=
  match n, s with
  | O, _ => s
  | S n', String _ s' => string_drop n' s'
  | S _, EmptyString => EmptyString
  end.

Definition loaded (o : MultiAgentOrchestrator) (plugin : string) : bool :=
  bool_decide (is_Some (plugin_bundles (plugin_manager o) !! plugin)).

(** [MultiAgentOrchestrator._route_after_control_tools]: the label of
    the next edge. A message object is always truthy and always has
    [content], so the first test fails only for an empty list. *)
Definition _route_after_control_tools (o : MultiAgentOrchestrator)
    (state : AgentState) : string :=
  match last (messages state) with
  | None => "end"
  | Some last_message =>
      let tool_result := content last_message in
      if String.eqb tool_result "final" then "end"
      else if loaded o tool_result then tool_result ++ "_agent"
      else if negb (String.eqb tool_result "") && String.prefix "goto_" tool_result
      then
        let plugin_name := string_drop 5 tool_result in
        if loaded o plugin_name then plugin_name ++ "_agent" else "end"
      else "end"
  end.

(** The routing-token table in the words of the specification, with
    the order of its rows made explicit: [final] first, then an exact
    plugin name, then [goto_<name>]; anything else, and a missing last
    message, go to the finalizer. *)
Definition strip_goto (token : string) : option string :=
  if String.prefix "goto_" token then Some (string_drop 5 token) else None.

Definition routing_token_destination (plugins : gset string)
    (token : option string) : Node :=
  match token with
  | None => Finalizer
  | Some t =>
      if decide (t = "final") then Finalizer
      else if decide (t ∈ plugins) then PluginAgent t
      else match strip_goto t with
           | Some n => if decide (n ∈ plugins) then PluginAgent n else Finalizer
           | None => Finalizer
           end
  end.

(** The condition of the edge out of [coordinator] in [_build_graph],
    with its mapping applied; [messages[-1]] of an empty list raises. *)
Definition coordinator_edge (state : AgentState) : Outcome Node :=
  match last (messages state) with
  | None => Raise (mkExn "IndexError" "list index out of range")
  | Some m => Ok (if has_tool_calls m then ControlTools else END)
  end.

(** The edge out of [control_tools]: a label that is not in the mapping
    is an error of LangGraph. *)
Definition control_tools_edge (o : MultiAgentOrchestrator) (state : AgentState)
  : Outcome Node :=
  let label := _route_after_control_tools o state in
  match route_mapping (graph o) !! label with
  | Some n => Ok n
  | None => Raise (mkExn "KeyError" label)
  end.

(** [BasePluginAgent.should_continue] with the mapping of
    [PluginBundle.get_graph_edges]. *)
Definition should_continue (state : AgentState) : string :=
  match last (messages state) with
  | None => "back"
  | Some last_msg => if has_tool_calls last_msg then "continue" else "back"
  end.

Definition agent_edge (plugin : string) (state : AgentState) : Node :=
  if String.eqb (should_continue state) "continue"
  then PluginTools plugin else Coordinator.

(** The list [agents_used] after an agent named [nm] has run. *)
Definition track_agent (used : list string) (nm : string) : list string :=
  if bool_decide (nm ∈ used) then used else (used ++ [nm])%list.

(** The closure [agent_node] of [BasePluginAgent.create_agent_node]. *)
Definition agent_node (self : BasePluginAgent) (w : Models) (state : AgentState)
  : Outcome Update :=
  let nm := name (agent_metadata self) in
  prompt ← get_system_prompt self;
  let system := SystemMsg prompt in
  match _bound_model self with
  | None => Raise (mkExn "AttributeError" "'NoneType' object has no attribute 'invoke'")
  | Some _ =>
      response ← agent_invoke w nm (system :: messages state);
      let agents_used := track_agent (default [] (agents_used state)) nm in
      match default (Some (mkContext None None)) (plugin_context state) with
      | None => Raise (mkExn "TypeError"
                         "'NoneType' object does not support item assignment")
      | Some ctx =>
          let history := default [] (routing_history ctx) in
          let ctx := {| last_plugin := Some nm;
                        routing_history := Some (history ++ [nm])%list |} in
          Ok {| u_messages := [response];
                u_hops := Some (get_hops state + 1)%Z;
                u_current_agent := Some nm;
                u_agents_used := Some agents_used;
                u_plugin_context := Some ctx |}
      end
  end.

(** One node execution followed by the edge leaving the node. *)
Definition step (o : MultiAgentOrchestrator) (w : Models) (n : Node)
    (state : AgentState) : Outcome (Node * AgentState) :=
  match n with
  | Coordinator =>
      u ← _coordinator_node o w state;
      let state := apply_update state u in
      next ← coordinator_edge state;
      Ok (next, state)
  | ControlTools =>
      ms ← control_tools_node w (messages state);
      let state := apply_update state (messages_only ms) in
      next ← control_tools_edge o state;
      Ok (next, state)
  | PluginAgent p =>
      match graph_agents (graph o) !! p with
      | None => Raise (mkExn "KeyError" (p ++ "_agent"))
      | Some self =>
          u ← agent_node self w state;
          let state := apply_update state u in
          Ok (agent_edge p state, state)
      end
  | PluginTools p =>
      ms ← plugin_tools_node w p (messages state);
      Ok (PluginAgent p, apply_update state (messages_only ms))
  | Finalizer =>
      u ← _finalizer_node w state;
      Ok (END, apply_update state u)
  | END => Ok (END, state)
  end.

(** The compiled graph run from node [n]: the nodes entered, in order,
    and the final state or the exception that ended the run. At most
    [fuel] nodes are executed; LangGraph raises when a run needs more. *)
Fixpoint run (o : MultiAgentOrchestrator) (w : Models) (fuel : nat) (n : Node)
    (state : AgentState) : list Node * Outcome AgentState :=
  match n with
  | END => ([], Ok state)
  | _ =>
      match fuel with
      | O => ([], Raise (mkExn "GraphRecursionError" "Recursion limit reached"))
      | S fuel =>
          match step o w n state with
          | Raise e => ([n], Raise e)
          | Ok (n', state') =>
              let '(visited, r) := run o w fuel n' state' in
              (n :: visited, r)
          end
      end
  end.

(** [self.graph.invoke(input_data)]: the entry point is [coordinator]. *)
Definition graph_invoke (o : MultiAgentOrchestrator) (w : Models)
    (input_data : AgentState) : list Node * Outcome AgentState :=
  run o w (recursion_limit w) Coordinator input_data.

Definition AIMsg (text : string) : BaseMessage :=
  {| msg_type := AIMessage; content := text; tool_calls := [] |}.

Definition apology : string := "I encountered an error processing your request.".

(** [MultiAgentOrchestrator.invoke]. *)
Definition invoke (o : MultiAgentOrchestrator) (w : Models)
    (input_data : AgentState) : AgentState :=
  match snd (graph_invoke o w input_data) with
  | Ok result => result
  | Raise e =>
      {| messages := [AIMsg apology];
         hops := Some (get_hops input_data + 1)%Z;
         current_agent := None; session_id := None; agents_used := None;
         plugin_context := None; error := None |}
  end.

(** [MultiAgentOrchestrator.ainvoke]. *)
Definition ainvoke (o : MultiAgentOrchestrator) (w : Models)
    (input_data : AgentState) : AgentState :=
  match snd (graph_invoke o w input_data) with
  | Ok result => result
  | Raise e =>
      {| messages := [AIMsg (apology ++ " Error: " ++ str e)];
         hops := Some (get_hops input_data + 1)%Z;
         current_agent := None; session_id := None; agents_used := None;
         plugin_context := None; error := Some (str e) |}
  end.

#[global] Instance Node_eq_dec : EqDecision Node.
Proof. solve_decision. Defined.

(** How often the coordinator node was entered in a run. *)
Definition count_coordinator (visited : list Node) : nat :=
  length (filter (fun n => n = Coordinator) visited).

(** The nodes that add one to [hops]: the coordinator and the plugin
    agents. *)
Definition counts_hop (n : Node) : bool :=
  match n with
  | Coordinator | PluginAgent _ => true
  | _ => false
  end.

Definition hop_steps (visited : list Node) : nat :=
  length (filter (fun n => counts_hop n = true) visited).

(** The names under which the plugin agents of a run report
    themselves, in the order of the agent steps. *)
Definition arrivals (g : Graph) (visited : list Node) : list string :=
  omap (fun n =>
          match n with
          | PluginAgent p => (fun a => name (agent_metadata a)) <$> graph_agents g !! p
          | _ => None
          end) visited.

(** A list of arrivals with every repeat of a name removed: each name
    once, at the place of its first arrival. *)
Fixpoint first_arrivals (l : list string) : list string :=
  match l with
  | [] => []
  | x :: l' => x :: filter (fun y => y <> x) (first_arrivals l')
  end.

(** [state.get("agents_used", [])] and
    [plugin_context.get("routing_history", [])]. *)
Definition used_agents (state : AgentState) : list string :=
  default [] (agents_used state).

Definition routing_history_of (state : AgentState) : list string :=
  match plugin_context state with
  | Some (Some ctx) => default [] (routing_history ctx)
  | _ => []
  end.

(** The two dictionaries the entry points return when the graph run
    raised [e]. *)
Definition apology_state (input_data : AgentState) : AgentState :=
  {| messages := [AIMsg apology];
     hops := Some (get_hops input_data + 1)%Z;
     current_agent := None; session_id := None; agents_used := None;
     plugin_context := None; error := None |}.

Definition apology_error_state (input_data : AgentState) (e : Exn) : AgentState :=
  {| messages := [AIMsg (apology ++ " Error: " ++ str e)];
     hops := Some (get_hops input_data + 1)%Z;
     current_agent := None; session_id := None; agents_used := None;
     plugin_context := None; error := Some (str e) |}.

(** The update of a coordinator step that finds the ceiling reached. *)
Definition hop_notice (state : AgentState) : Update :=
  {| u_messages := [SystemMsg ("Max hops (" ++ pretty MAX_HOPS ++ ") reached. Finalize now.")];
     u_hops := Some (get_hops state + 1)%Z;
     u_current_agent := None; u_agents_used := None;
     u_plugin_context := None |}.

(** Hops left below the ceiling, and from it twice the number of
    coordinator steps a run can still make from node [n]: between two
    coordinator steps lies at least one agent step, and both count. *)
Definition remaining_hops (state : AgentState) : nat :=
  Z.to_nat (MAX_HOPS - get_hops state).

Definition coordinator_budget (n : Node) (state : AgentState) : nat :=
  match n with
  | Coordinator => remaining_hops state + 3
  | ControlTools | PluginAgent _ | PluginTools _ => remaining_hops state + 2
  | Finalizer | END => 0
  end.

Definition with_settings (o : MultiAgentOrchestrator) (s : Settings)
  : MultiAgentOrchestrator :=
  {| plugin_manager := plugin_manager o; settings := s;
     coordinator_model := coordinator_model o; graph := graph o |}.

(** The engine after its plugin manager has loaded further plugins
    (the manager is shared and reloading mutates it); the graph is the
    one built at construction. *)
Definition with_plugin_manager (o : MultiAgentOrchestrator) (pm : PluginManager)
  : MultiAgentOrchestrator :=
  {| plugin_manager := pm; settings := settings o;
     coordinator_model := coordinator_model o; graph := graph o |}.

(** An engine whose stored settings carry another hop ceiling. *)
Definition with_max_hops (s : Settings) (h : Z) : Settings :=
  {| default_llm_provider := default_llm_provider s;
     openai_api_key := openai_api_key s;
     anthropic_api_key := anthropic_api_key s;
     google_api_key := google_api_key s;
     plugins_dir := plugins_dir s;
     max_hops := h |}.

End Core.

(** ** Concrete settings, plugins and models used in the examples *)

Module Samples.
Import Config LLM Plugins Core.

Definition keyed_settings (hop_ceiling : Z) : Settings :=
  {| default_llm_provider := "openai";
     openai_api_key := Some "sk-test";
     anthropic_api_key := None;
     google_api_key := None;
     plugins_dir := "./plugins";
     max_hops := hop_ceiling |}.

Definition all_packages : Packages :=
  {| HAS_OPENAI := true; HAS_ANTHROPIC := true; HAS_GOOGLE := true |}.

Definition gpt4o (limit : Z) (key : option string) : ModelConfig :=
  {| provider := "openai"; model_name := "gpt-4o";
     temperature := mkFloat "0.0"; max_tokens := limit; api_key := key |}.

Definition claude (limit : Z) : ModelConfig :=
  {| provider := "anthropic"; model_name := "claude-3-opus-20240229";
     temperature := mkFloat "0.8"; max_tokens := limit; api_key := Some "sk-ant" |}.

Definition keyed_factory : LLMModelFactory := new_factory (keyed_settings 10) all_packages.

(** A factory whose settings hold no credential at all. *)
Definition keyless_factory : LLMModelFactory := new_factory default_settings all_packages.

Definition sample_metadata (nm : string) : PluginMetadata :=
  {| name := nm; version := "1.0.0"; description := "Looks things up";
     capabilities := ["lookup"; "facts"];
     llm_requirements := mkReqs None None None None;
     agent_type := "specialized"; system_prompt := "" |}.

Definition sample_agent (nm : string) : BasePluginAgent :=
  {| agent_metadata := sample_metadata nm;
     get_tools := Ok [mkTool "lookup" "Look a fact up"];
     get_system_prompt := Ok "You answer with facts.";
     bind_tools_fault := None; initialize_fault := None;
     _tools := None; _bound_model := None; _initialized := false |}.

(** A plugin directory that loads. *)
Definition good_source (nm : string) : PluginSource :=
  {| dir_name := nm; validation_errors := [];
     module_load := Loaded {| get_metadata := Ok (sample_metadata nm);
                              create_agent := Ok (sample_agent nm) |} |}.

(** A directory [dir] whose plugin calls itself [nm] and offers the
    tools [ts]. *)
Definition named_source (dir nm : string) (ts : list Tool) : PluginSource :=
  {| dir_name := dir; validation_errors := [];
     module_load :=
       Loaded {| get_metadata := Ok (sample_metadata nm);
                 create_agent :=
                   Ok {| agent_metadata := sample_metadata nm;
                         get_tools := Ok ts;
                         get_system_prompt := Ok "You answer with facts.";
                         bind_tools_fault := None; initialize_fault := None;
                         _tools := None; _bound_model := None;
                         _initialized := false |} |} |}.

(** A directory whose [plugin.py] raises while it is executed. *)
Definition exec_raising_source : PluginSource :=
  {| dir_name := "broken_exec"; validation_errors := [];
     module_load := ExecRaises (mkExn "ImportError" "No module named 'requests'") |}.

(** A directory whose [get_metadata()] raises. *)
Definition metadata_raising_source : PluginSource :=
  {| dir_name := "broken_meta"; validation_errors := [];
     module_load :=
       Loaded {| get_metadata := Raise (mkExn "ValueError" "Plugin name cannot be empty");
                 create_agent := Ok (sample_agent "x") |} |}.

Definition fresh_manager : PluginManager := new_manager keyed_factory true.

(** A manager that has loaded the plugins [search] and [final]. *)
Definition two_plugin_manager : PluginManager :=
  (load_all_plugin_bundles fresh_manager [good_source "search"; good_source "final"]).2.

Definition tool_result (token : string) : BaseMessage :=
  {| msg_type := ToolMessage; content := token; tool_calls := [] |}.

Definition user_message (text : string) : BaseMessage :=
  {| msg_type := HumanMessage; content := text; tool_calls := [] |}.

Definition tool_request (tool : string) : BaseMessage :=
  {| msg_type := AIMessage; content := ""; tool_calls := [tool] |}.

(** The state the HTTP route builds for a turn, at a given hop count. *)
Definition turn_state (ms : list BaseMessage) (h : Z) : AgentState :=
  {| messages := ms; hops := Some h; current_agent := None;
     session_id := Some "session-1"; agents_used := None;
     plugin_context := Some (Some (mkContext None None)); error := None |}.

(** Models under which the coordinator always asks for [goto_search]
    and the [search] agent keeps calling its tool until the
    conversation holds 22 messages. *)
Definition looping_models : Models :=
  {| coordinator_invoke := fun _ => Ok (tool_request "goto_search");
     agent_invoke := fun _ ms =>
       Ok (if (length ms <? 22)%nat then tool_request "lookup"
           else AIMsg "Here is what I found.");
     control_tools_node := fun _ => Ok [tool_result "search"];
     plugin_tools_node := fun _ _ => Ok [tool_result "42"];
     recursion_limit := 25 |}.

(** Models whose coordinator raises. *)
Definition failing_models : Models :=
  {| coordinator_invoke := fun _ =>
       Raise (mkExn "RateLimitError" "Error code: 429 - quota exceeded for key sk-test");
     agent_invoke := fun _ _ => Ok (AIMsg "unused");
     control_tools_node := fun _ => Ok [];
     plugin_tools_node := fun _ _ => Ok [];
     recursion_limit := 25 |}.

Definition first_turn : AgentState := turn_state [user_message "What is the answer?"] 0.

End Samples.

(** ** More of [lucas/config/settings.py] and [lucas/llm/factory.py] *)

Module Factory.
Import Config LLM Plugins.

(** [str.isspace] on one character. The characters of a string are
    read as code points below 256; among those Python counts as white
    space the codes 9 to 13, 28 to 32, 133 and 160. *)
Definition py_isspace (c : Ascii.ascii) : bool :=
  let n := Ascii.nat_of_ascii c in
  ((9 <=? n) && (n <=? 13) || (28 <=? n) && (n <=? 32)
   || (n =? 133) || (n =? 160))%nat.

(** [not s.strip()]: stripping leaves nothing exactly when every
    character is white space. *)
Fixpoint blank (s : string) : bool :=
  match s with
  | EmptyString => true
  | String c s' => py_isspace c && blank s'
  end.

(** [Settings.validate_provider_credentials]. *)
Definition validate_provider_credentials (s : Settings) (provider : string) : bool :=
  match get_api_key_for_provider s provider with
  | None => false
  | Some api_key => negb (blank api_key)
  end.

(** [ModelCacheManager.get_cache_stats]: the value under
    ["cached_models"]. *)
Definition get_cache_stats (f : LLMModelFactory) : nat := size (_cache f).

(** [ProviderRegistry.register_provider], for an instance of one of the
    three provider classes of the repository. *)
Definition register_provider (f : LLMModelFactory) (nm : string) (p : ProviderKind)
  : LLMModelFactory :=
  {| settings := settings f; packages := packages f; _cache := _cache f;
     _providers := <[nm := p]> (_providers f); constructed := constructed f |}.

Definition is_provider_available (f : LLMModelFactory) (provider_name : string) : bool :=
  bool_decide (is_Some (_providers f !! provider_name)).

(** [LLMModelFactory._create_default_config]; [temperature] and
    [max_tokens] take the defaults of the dataclass. *)
Definition _create_default_config (f : LLMModelFactory) : ModelConfig :=
  let model_name :=
    if String.eqb (default_llm_provider (settings f)) "openai" then "gpt-4o"
    else "claude-3-opus-20240229" in
  {| provider := default_llm_provider (settings f);
     model_name := model_name;
     temperature := mkFloat "0.8";
     max_tokens := 1024;
     api_key := get_api_key_for_provider (settings f)
                  (default_llm_provider (settings f)) |}.

(** [LLMModelFactory.create_agent_model]. A configuration object is
    always truthy, so the default is taken exactly for [None];
    [bind_tools] of the three providers hands the tools to the model,
    which is taken to accept them. *)
Definition create_agent_model (f : LLMModelFactory) (agent_name : string)
    (tools : list Tool) (config : option ModelConfig)
  : Outcome BoundModel * LLMModelFactory :=
  let config := default (_create_default_config f) config in
  match create_base_model f config with
  | (Raise e, f) => (Raise e, f)
  | (Ok base_model, f) =>
      match get_provider f (provider config) with
      | None => (Raise (mkExn "ValueError" ("Provider not found: " ++ provider config)), f)
      | Some _ => (Ok {| bound_base := base_model; bound_tools := tools |}, f)
      end
  end.

(** What a caller can do to a factory, and a factory after a series of
    such calls. *)
Inductive FactoryCall :=
| CreateBaseModel (config : ModelConfig)
| ClearCache.

Definition factory_call (f : LLMModelFactory) (c : FactoryCall) : LLMModelFactory :=
  match c with
  | CreateBaseModel config => (create_base_model f config).2
  | ClearCache => clear_cache f
  end.

Definition after_factory_calls (f : LLMModelFactory) (cs : list FactoryCall)
  : LLMModelFactory := foldl factory_call f cs.

(** The separator of the cache key, and a string without it. *)
Definition colon : Ascii.ascii := Ascii.ascii_of_nat 58.

Fixpoint colon_free (s : string) : bool :=
  match s with
  | EmptyString => true
  | String c s' => negb (Ascii.eqb c colon) && colon_free s'
  end.

Definition plain_config (c : ModelConfig) : bool :=
  colon_free (provider c) && colon_free (model_name c).

Definition plain_call (c : FactoryCall) : bool :=
  match c with
  | CreateBaseModel config => plain_config config
  | ClearCache => true
  end.

End Factory.

(** ** More of [lucas/plugins/manager.py] *)

Module Registry.
Import Config LLM Plugins.

(** An entry of the plugins directory: whether it is a directory,
    whether it holds a [plugin.py], and how it loads when it is taken
    for a plugin. *)
Record DirEntry := mkEntry {
  is_dir : bool;
  has_plugin_py : bool;
  entry_source : PluginSource;
}.

(** The configured plugins directory: whether it exists and what
    [iterdir()] yields. *)
Record PluginsDir := mkPluginsDir {
  dir_exists : bool;
  iterdir : list DirEntry;
}.

(** [PluginManager.discover_plugin_directories]. *)
Definition discover_plugin_directories (d : PluginsDir) : list PluginSource :=
  if dir_exists d then
    entry_source <$> filter (fun e => is_dir e && has_plugin_py e = true) (iterdir d)
  else [].

(** [load_all_plugin_bundles] together with the discovery it starts
    with. *)
Definition load_all_from (pm : PluginManager) (d : PluginsDir) : nat * PluginManager :=
  load_all_plugin_bundles pm (discover_plugin_directories d).

(** [PluginManager.get_plugin_bundle]. *)
Definition get_plugin_bundle (pm : PluginManager) (nm : string) : option PluginBundle :=
  plugin_bundles pm !! nm.

(** [PluginManager.get_all_plugin_tools]; [bundle.tools] is kept as it
    is, [None] included. *)
Definition get_all_plugin_tools (pm : PluginManager) : gmap string (option (list Tool)) :=
  tools <$> plugin_bundles pm.

(** What the application does with a manager: it loads the discovered
    directories and runs health checks, at start and at every reload. *)
Inductive RegistryCall :=
| LoadAll (d : PluginsDir)
| HealthCheck.

Definition registry_call (pm : PluginManager) (c : RegistryCall) : PluginManager :=
  match c with
  | LoadAll d => (load_all_from pm d).2
  | HealthCheck => (perform_health_checks pm).2
  end.

Definition after_registry_calls (pm : PluginManager) (cs : list RegistryCall)
  : PluginManager := foldl registry_call pm cs.

(** A bundle as [load_plugin_bundle] registers it under key [k]: its
    metadata carries the name [k], its agent is initialized and holds
    the bound model of the bundle, and that model is bound to the
    tools of the bundle. *)
Definition well_formed_bundle (k : string) (b : PluginBundle) : Prop :=
  exists md ag bm ts,
    metadata b = Some md /\ name md = k
    /\ agent b = Some ag /\ _bound_model ag = Some bm /\ _initialized ag = true
    /\ bound_model b = Some bm /\ bound_tools bm = ts
    /\ tools b = Some ts /\ get_tools ag = Ok ts.

(** A registry all of whose bundles are well formed, with the metadata
    table holding the metadata of each bundle under the same key, and
    with healthy names only among the loaded ones. *)
Definition registry_consistent (pm : PluginManager) : Prop :=
  (forall k b, plugin_bundles pm !! k = Some b ->
     well_formed_bundle k b /\ Some <$> plugin_metadata pm !! k = Some (metadata b))
  /\ dom (plugin_metadata pm) = dom (plugin_bundles pm)
  /\ healthy_plugins pm ⊆ dom (plugin_bundles pm).

End Registry.

(** ** More of [lucas/core/state.py], [lucas/core/orchestrator.py] and
       [lucas/plugins/base.py] *)

Module Engine.
Import Config LLM Plugins Core Factory.

(** The loop of [_last_assistant_tool_call_name] over the messages,
    newest first: the first message with a non-empty [tool_calls]
    decides, by the name of its last call. *)
Fixpoint newest_tool_call (newest_first : list BaseMessage) : option string :=
  match newest_first with
  | [] => None
  | message :: older =>
      match get_tool_calls message with
      | [] => newest_tool_call older
      | calls => last calls
      end
  end.

(** [_last_assistant_tool_call_name]. *)
Definition _last_assistant_tool_call_name (state : AgentState) : option string :=
  newest_tool_call (reverse (messages state)).

(** The edges [_build_graph] and [PluginBundle.get_graph_edges] put
    into the graph. *)
Definition edge (n n' : Node) : bool :=
  match n, n' with
  | Coordinator, ControlTools => true
  | Coordinator, END => true
  | ControlTools, Finalizer => true
  | ControlTools, PluginAgent _ => true
  | PluginAgent p, PluginTools q => String.eqb p q
  | PluginAgent _, Coordinator => true
  | PluginTools p, PluginAgent q => String.eqb p q
  | Finalizer, END => true
  | _, _ => false
  end.

(** A list of nodes each of which is joined to the next by an edge. *)
Fixpoint is_path (l : list Node) : bool :=
  match l with
  | n :: ((n' :: _) as rest) => edge n n' && is_path rest
  | _ => true
  end.

(** [PluginMetadata.__post_init__]. *)
Definition __post_init__ (md : PluginMetadata) : Outcome unit :=
  if blank (name md) then
    Raise (mkExn "ValueError" "Plugin name cannot be empty")
  else if blank (version md) then
    Raise (mkExn "ValueError" "Plugin version cannot be empty")
  else if negb (bool_decide (agent_type md ∈ ["specialized"; "general"; "utility"])) then
    Raise (mkExn "ValueError" ("Invalid agent_type: " ++ agent_type md))
  else Ok tt.

Definition is_specialized_agent (md : PluginMetadata) : bool :=
  String.eqb (agent_type md) "specialized".
Definition is_general_agent (md : PluginMetadata) : bool :=
  String.eqb (agent_type md) "general".
Definition is_utility_agent (md : PluginMetadata) : bool :=
  String.eqb (agent_type md) "utility".

End Engine.

(** ** [lucas/api/routes.py] *)

Module Routes.
Import Config LLM Plugins Registry Core.

(** [SessionManager._sessions]. *)
Abbreviation SessionManager := (gmap string (list BaseMessage)).

Definition new_session_manager : SessionManager := ∅.

(** [SessionManager.get_or_create_session]; [uuid4] is the value of
    [str(uuid.uuid4())], used when no id is given. *)
Definition get_or_create_session (sm : SessionManager) (session_id : option string)
    (uuid4 : string) : (string * list BaseMessage) * SessionManager :=
  let session_id := default uuid4 session_id in
  match sm !! session_id with
  | Some history => ((session_id, history), sm)
  | None => ((session_id, []), <[session_id := []]> sm)
  end.

(** [SessionManager.clear_session]. *)
Definition clear_session (sm : SessionManager) (session_id : string)
  : bool * SessionManager :=
  match sm !! session_id with
  | Some _ => (true, delete session_id sm)
  | None => (false, sm)
  end.

(** [SessionManager.get_total_sessions]. *)
Definition get_total_sessions (sm : SessionManager) : nat := size sm.

(** [SessionManager.add_message_to_session]. *)
Definition add_message_to_session (sm : SessionManager) (session_id : string)
    (message : BaseMessage) : SessionManager :=
  match sm !! session_id with
  | Some history => <[session_id := (history ++ [message])%list]> sm
  | None => sm
  end.

Record ChatRequest := mkChatRequest {
  message : string;
  request_session_id : option string;
}.

(** The [metadata] dictionary of a [ChatResponse]; the keys [error] and
    [error_type] are present only in the response of the [except]
    branch of [chat]. *)
Record ChatMetadata := mkChatMetadata {
  message_count : nat;
  meta_routing_history : list string;
  multi_agent : bool;
  meta_error : option string;
  error_type : option string;
}.

Record ChatResponse := mkChatResponse {
  response : string;
  response_session_id : string;
  plugin_used : option string;
  response_agents_used : option (list string);
  response_hops : Z;
  metadata_of : ChatMetadata;
}.

Definition HumanMsg (text : string) : BaseMessage :=
  {| msg_type := HumanMessage; content := text; tool_calls := [] |}.

(** [isinstance(msg, AIMessage)]. *)
Definition is_AIMessage (msg : BaseMessage) : bool :=
  match msg_type msg with AIMessage => true | _ => false end.

(** The loop of [chat] that picks the response text, over the messages
    of the result, newest first. *)
Fixpoint find_response (newest_first : list BaseMessage) : string :=
  match newest_first with
  | [] => "No response generated"
  | msg :: older =>
      if negb (String.eqb (content msg) "")
         && negb (String.prefix "Tool" (content msg))
         && is_AIMessage msg
      then content msg
      else find_response older
  end.

(** The state [chat] hands to the engine. [session_messages] is the
    session's own list, which by then holds the user's message. *)
Definition chat_state (session_id : string) (session_messages : list BaseMessage)
  : AgentState :=
  {| messages := session_messages; hops := Some 0%Z; current_agent := None;
     session_id := Some session_id; agents_used := None;
     plugin_context := Some (Some (mkContext None None)); error := None |}.

(** The handler of [POST /chat]. The engine never writes the key
    [multi_agent_analysis], so the handler finds it missing. *)
Definition chat (orch : MultiAgentOrchestrator) (w : Models) (sm : SessionManager)
    (uuid4 : string) (request : ChatRequest) : ChatResponse * SessionManager :=
  let '((session_id, session_messages), sm) :=
    get_or_create_session sm (request_session_id request) uuid4 in
  let user_msg := HumanMsg (message request) in
  let sm := add_message_to_session sm session_id user_msg in
  let state := chat_state session_id (session_messages ++ [user_msg])%list in
  let result := ainvoke orch w state in
  let response_text := find_response (reverse (messages result)) in
  let sm := foldl (fun sm msg => add_message_to_session sm session_id msg)
                  sm (messages result) in
  match default (Some (mkContext None None)) (plugin_context result) with
  | None =>
      let e := mkExn "AttributeError" "'NoneType' object has no attribute 'get'" in
      ({| response := apology ++ " Error: " ++ str e;
          response_session_id := session_id;
          plugin_used := None; response_agents_used := None;
          response_hops := 1%Z;
          metadata_of :=
            {| message_count := 1; meta_routing_history := []; multi_agent := false;
               meta_error := Some (str e); error_type := Some (exn_kind e) |} |}, sm)
  | Some plugin_context =>
      let plugin_used := last_plugin plugin_context in
      let agents_used :=
        match plugin_used with
        | Some p => if String.eqb p "" then None else Some [p]
        | None => None
        end in
      ({| response := response_text;
          response_session_id := session_id;
          plugin_used := plugin_used;
          response_agents_used := agents_used;
          response_hops := default 0%Z (hops result);
          metadata_of :=
            {| message_count := length (messages result);
               meta_routing_history := default [] (routing_history plugin_context);
               multi_agent := false;
               meta_error := None; error_type := None |} |}, sm)
  end.

Record PluginInfo := mkPluginInfo {
  info_name : string;
  info_version : string;
  info_description : string;
  info_capabilities : list string;
  status : string;
}.

(** The body shared by [list_plugins] and [get_plugin]; a bundle
    without metadata makes [metadata.name] raise. *)
Definition plugin_info (pm : PluginManager) (plugin_name : string)
    (bundle : PluginBundle) : Outcome PluginInfo :=
  match metadata bundle with
  | None => Raise (mkExn "AttributeError" "'NoneType' object has no attribute 'name'")
  | Some md =>
      Ok {| info_name := name md; info_version := version md;
            info_description := description md;
            info_capabilities := capabilities md;
            status := if bool_decide (plugin_name ∈ healthy_plugins pm)
                      then "healthy" else "failed" |}
  end.

(** The handler of [GET /plugins]. *)
Definition list_plugins (pm : PluginManager) : Outcome (list PluginInfo) :=
  foldl (fun plugins plugin_name =>
           plugins ← plugins;
           match get_plugin_bundle pm plugin_name with
           | Some bundle =>
               info ← plugin_info pm plugin_name bundle;
               Ok (plugins ++ [info])%list
           | None => Ok plugins
           end) (Ok []) (get_available_plugins pm).

(** The handler of [GET /plugins/{plugin_name}]. *)
Definition get_plugin (pm : PluginManager) (plugin_name : string) : Outcome PluginInfo :=
  match get_plugin_bundle pm plugin_name with
  | None => Raise (mkExn "HTTPException" ("404: Plugin " ++ plugin_name ++ " not found"))
  | Some bundle => plugin_info pm plugin_name bundle
  end.

(** The handler of [DELETE /sessions/{session_id}]. *)
Definition clear_session_route (sm : SessionManager) (session_id : string)
  : Outcome string * SessionManager :=
  let '(cleared, sm) := clear_session sm session_id in
  (if cleared then Ok session_id
   else Raise (mkExn "HTTPException" ("404: Session " ++ session_id ++ " not found")),
   sm).

End Routes.

(** ** Further concrete values used in the examples *)

Module MoreSamples.
Import Config LLM Plugins Core Factory.

Definition google_settings : Settings :=
  {| default_llm_provider := "google";
     openai_api_key := None;
     anthropic_api_key := None;
     google_api_key := Some "g-key";
     plugins_dir := "./plugins";
     max_hops := 10 |}.

Definition google_factory : LLMModelFactory :=
  new_factory google_settings Samples.all_packages.

Definition lookup_tool : Tool := mkTool "lookup" "Look a fact up".
Definition fetch_tool : Tool := mkTool "fetch" "Fetch a page".

(** A plugin that loads but offers no tool. *)
Definition toolless_agent (nm : string) : BasePluginAgent :=
  {| agent_metadata := Samples.sample_metadata nm;
     get_tools := Ok [];
     get_system_prompt := Ok "You have no tools.";
     bind_tools_fault := None; initialize_fault := None;
     _tools := None; _bound_model := None; _initialized := false |}.

Definition toolless_source (nm : string) : PluginSource :=
  {| dir_name := nm; validation_errors := [];
     module_load := Loaded {| get_metadata := Ok (Samples.sample_metadata nm);
                              create_agent := Ok (toolless_agent nm) |} |}.

(** A plugins directory with two plugins, a stray file and a directory
    without [plugin.py]. *)
Definition sample_dir : Registry.PluginsDir :=
  {| Registry.dir_exists := true;
     Registry.iterdir :=
       [Registry.mkEntry true true (Samples.good_source "search");
        Registry.mkEntry false false Samples.exec_raising_source;
        Registry.mkEntry true false Samples.metadata_raising_source;
        Registry.mkEntry true true (toolless_source "idle")] |}.

(** Models whose coordinator answers at once. *)
Definition answering_models : Models :=
  {| coordinator_invoke := fun _ => Ok (AIMsg "The answer is 42.");
     agent_invoke := fun _ _ => Ok (AIMsg "unused");
     control_tools_node := fun _ => Ok [];
     plugin_tools_node := fun _ _ => Ok [];
     recursion_limit := 25 |}.

(** Models whose coordinator calls [finalize] when it sees a system
    prompt and one message, and writes the answer otherwise. *)
Definition finalizing_models : Models :=
  {| coordinator_invoke := fun ms =>
       Ok (if (length ms <? 3)%nat then Samples.tool_request "finalize"
           else AIMsg "The answer is 42.");
     agent_invoke := fun _ _ => Ok (AIMsg "unused");
     control_tools_node := fun _ => Ok [Samples.tool_result "final"];
     plugin_tools_node := fun _ _ => Ok [];
     recursion_limit := 25 |}.

Definition hello : Routes.ChatRequest :=
  {| Routes.message := "What is the answer?"; Routes.request_session_id := None |}.

End MoreSamples.

(** * Properties *)

(** ** Model access layer *)

Section FactoryFacts.
Import Config LLM.

(** The cache key reads three fields of the configuration and nothing
    else. *)
Lemma get_cache_key_agree (c1 c2 : ModelConfig) :
  provider c2 = provider c1 ->
  model_name c2 = model_name c1 ->
  temperature c2 = temperature c1 ->
  get_cache_key c2 = get_cache_key c1.
Proof. unfold get_cache_key. by intros -> -> ->. Qed.

(** A cached handle stays cached, under its key, through any later
    call: an entry is only written where there was none. *)
Lemma create_base_model_keeps_cache (f : LLMModelFactory) (c : ModelConfig)
    (k : string) (h : ModelHandle) :
  _cache f !! k = Some h ->
  _cache (snd (create_base_model f c)) !! k = Some h.
Proof.
  intros Hk. unfold create_base_model, get_cached_model.
  destruct (_cache f !! get_cache_key c) as [cached|] eqn:Hc; [done|].
  destruct (get_provider f (provider c)); [|done].
  destruct (_ensure_api_key f c); [|done].
  destruct (create_model f p a); [|done].
  cbn. rewrite lookup_insert_ne; [done|]. congruence.
Qed.

(** A call that returns a handle leaves that handle cached under the
    key of its configuration. *)
Lemma create_base_model_caches (f : LLMModelFactory) (c : ModelConfig)
    (h : ModelHandle) :
  fst (create_base_model f c) = Ok h ->
  _cache (snd (create_base_model f c)) !! get_cache_key c = Some h.
Proof.
  unfold create_base_model, get_cached_model.
  destruct (_cache f !! get_cache_key c) as [cached|] eqn:Hc.
  - cbn. congruence.
  - destruct (get_provider f (provider c)); [|done].
    destruct (_ensure_api_key f c); [|done].
    destruct (create_model f p a); [|done].
    cbn. intros [= ->]. by rewrite lookup_insert_eq.
Qed.

(** A hit answers from the cache and changes nothing. *)
Lemma create_base_model_hit (f : LLMModelFactory) (c : ModelConfig)
    (h : ModelHandle) :
  _cache f !! get_cache_key c = Some h ->
  create_base_model f c = (Ok h, f).
Proof. intros Hc. unfold create_base_model, get_cached_model. by rewrite Hc. Qed.

Lemma after_calls_keeps_cache (cs : list ModelConfig) (f : LLMModelFactory)
    (k : string) (h : ModelHandle) :
  _cache f !! k = Some h -> _cache (after_calls f cs) !! k = Some h.
Proof.
  revert f. induction cs as [|c cs IH]; intros f Hk; [done|].
  cbn. apply IH. by apply create_base_model_keeps_cache.
Qed.

(** A handle built on a miss carries the [max_tokens] of the
    configuration that caused the construction. *)
Lemma create_base_model_miss_max_tokens (f : LLMModelFactory) (c : ModelConfig)
    (h : ModelHandle) :
  get_cached_model f (get_cache_key c) = None ->
  fst (create_base_model f c) = Ok h ->
  handle_max_tokens h = max_tokens c /\ handle_id h = constructed f.
Proof.
  unfold create_base_model. intros ->.
  destruct (get_provider f (provider c)) as [p|]; [|done].
  unfold _ensure_api_key, create_model.
  destruct (truthy_str (api_key c)).
  - destruct (has_package (packages f) p); [|done]. cbn. by intros [= <-].
  - destruct (truthy_str (get_api_key_for_provider (settings f) (provider c))); [|done].
    destruct (has_package (packages f) p); [|done]. cbn. by intros [= <-].
Qed.

End FactoryFacts.

(** C9, as the claim states it, fails: after a first call that brought its
    own key, an agreeing call for which no key can be resolved (none in
    the configuration, none in the settings) is answered from the cache
    instead of failing. *)
Lemma cached_call_skips_credential_check :
  let c1 := Samples.gpt4o 1000 (Some "sk-own") in
  let c2 := Samples.gpt4o 1000 None in
  let f1 := snd (LLM.create_base_model Samples.keyless_factory c1) in
  LLM.truthy_str (LLM.api_key c2) = false
  /\ Config.get_api_key_for_provider (LLM.settings f1) (LLM.provider c2) = None
  /\ is_ok (fst (LLM.create_base_model f1 c2)) = true.
Proof. vm_compute. done. Qed.

Section FactoryClaims.
Import Config LLM.

(** C9 (amended): once a call has returned a handle, every later call
    whose configuration agrees on provider, model name and temperature
    returns that very handle and constructs nothing (the factory, with
    its construction counter, is unchanged), whatever calls came in
    between; and a call that misses the cache raises [ValueError] and
    leaves the factory unchanged when the provider is not registered
    or when neither the configuration nor the settings hold a key. *)
Theorem create_base_model_reuses_handle (f : LLMModelFactory)
    (c1 c2 : ModelConfig) (cs : list ModelConfig) (h : ModelHandle) :
  fst (create_base_model f c1) = Ok h ->
  provider c2 = provider c1 ->
  model_name c2 = model_name c1 ->
  temperature c2 = temperature c1 ->
  let f' := after_calls (snd (create_base_model f c1)) cs in
  create_base_model f' c2 = (Ok h, f')
  /\ (forall g c,
        get_cached_model g (get_cache_key c) = None ->
        (get_provider g (provider c) = None ->
         create_base_model g c
         = (Raise (mkExn "ValueError" ("Unknown provider: " ++ provider c)), g))
        /\ (truthy_str (api_key c) = false ->
            truthy_str (get_api_key_for_provider (settings g) (provider c)) = false ->
            exists msg, create_base_model g c = (Raise (mkExn "ValueError" msg), g))).
Proof.
  intros Hfirst Hp Hm Ht f'. split.
  - apply create_base_model_hit.
    rewrite (get_cache_key_agree c1 c2 Hp Hm Ht).
    apply after_calls_keeps_cache. by apply create_base_model_caches.
  - intros g c Hmiss. unfold create_base_model. rewrite Hmiss. split.
    + by intros ->.
    + intros Hk Hs. destruct (get_provider g (provider c)); [|by eexists].
      unfold _ensure_api_key. rewrite Hk, Hs. by eexists.
Qed.

Lemma create_base_model_reuses_handle_witness :
  let f := Samples.keyed_factory in
  let c1 := Samples.gpt4o 1000 None in
  let c2 := Samples.gpt4o 1000 (Some "sk-other") in
  let cs := [Samples.claude 256; Samples.gpt4o 64 None] in
  exists h,
    fst (create_base_model f c1) = Ok h
    /\ let f' := after_calls (snd (create_base_model f c1)) cs in
       create_base_model f' c2 = (Ok h, f').
Proof.
  eexists. split; [reflexivity|].
  exact (proj1 (create_base_model_reuses_handle Samples.keyed_factory
                  (Samples.gpt4o 1000 None) (Samples.gpt4o 1000 (Some "sk-other"))
                  [Samples.claude 256; Samples.gpt4o 64 None] _
                  eq_refl eq_refl eq_refl eq_refl)).
Defined.

(** C10: the cache key leaves [max_tokens] out. When a configuration is
    requested for the first time (a miss) and a handle is built, any
    later request that agrees on provider, model name and temperature
    but asks for another [max_tokens] gets the identical handle, and
    that handle carries the [max_tokens] of the first request, not of
    the later one. *)
Theorem max_tokens_of_first_request_wins (f : LLMModelFactory)
    (c1 c2 : ModelConfig) (cs : list ModelConfig) (h : ModelHandle) :
  get_cached_model f (get_cache_key c1) = None ->
  fst (create_base_model f c1) = Ok h ->
  provider c2 = provider c1 ->
  model_name c2 = model_name c1 ->
  temperature c2 = temperature c1 ->
  max_tokens c2 <> max_tokens c1 ->
  let f' := after_calls (snd (create_base_model f c1)) cs in
  fst (create_base_model f' c2) = Ok h
  /\ constructed (snd (create_base_model f' c2)) = constructed f'
  /\ handle_max_tokens h = max_tokens c1
  /\ handle_max_tokens h <> max_tokens c2.
Proof.
  intros Hmiss Hfirst Hp Hm Ht Hne f'.
  assert (create_base_model f' c2 = (Ok h, f')) as ->.
  { apply create_base_model_hit.
    rewrite (get_cache_key_agree c1 c2 Hp Hm Ht).
    apply after_calls_keeps_cache. by apply create_base_model_caches. }
  destruct (create_base_model_miss_max_tokens f c1 h Hmiss Hfirst) as [Hmt _].
  repeat split; [done|]. congruence.
Qed.

Lemma max_tokens_of_first_request_wins_witness :
  let f := Samples.keyed_factory in
  let c1 := Samples.gpt4o 1000 None in
  let c2 := Samples.gpt4o 4096 None in
  exists h,
    fst (create_base_model f c1) = Ok h
    /\ fst (create_base_model (after_calls (snd (create_base_model f c1)) []) c2) = Ok h
    /\ handle_max_tokens h = 1000%Z.
Proof.
  eexists. split; [reflexivity|].
  pose proof (max_tokens_of_first_request_wins Samples.keyed_factory
                (Samples.gpt4o 1000 None) (Samples.gpt4o 4096 None) [] _
                eq_refl eq_refl eq_refl eq_refl eq_refl) as H.
  cbv zeta in H. split; [apply H; discriminate|].
  apply H; discriminate.
Defined.

End FactoryClaims.

(** ** Plugin registry: health checks *)

Section HealthFacts.
Import Config LLM Plugins.

(** [is_healthy] computes the criterion, except that a missing tool
    list makes it raise. *)
Lemma is_healthy_criterion (b : PluginBundle) :
  match is_healthy b with
  | Ok r => r = healthy_criterion b
  | Raise _ => healthy_criterion b = false
  end.
Proof.
  unfold is_healthy, healthy_criterion.
  destruct (agent b), (bound_model b), (tools b) as [ts|], (metadata b); cbn;
    try done; by destruct (length ts).
Qed.

Lemma health_check_fold (l : list (string * PluginBundle)) :
  NoDup l.*1 ->
  forall (r : gmap string bool) (h f : gset string) (n : string),
    let out := foldl health_check_step (r, (h, f)) l in
    let o := (list_to_map l : gmap string PluginBundle) !! n in
    out.1 !! n = match o with Some b => Some (healthy_criterion b) | None => r !! n end
    /\ (n ∈ out.2.1 <-> healthy_after o (n ∈ h))
    /\ (n ∈ out.2.2 <-> failed_after o (n ∈ f)).
Proof.
  induction l as [|[k b0] l IH]; intros Hnd r h f n; [done|].
  cbn [fmap list_fmap fst] in Hnd. apply NoDup_cons in Hnd as [Hk Hnd].
  cbn [foldl list_to_map foldr uncurry fst snd].
  set (acc := health_check_step (r, (h, f)) (k, b0)).
  destruct acc as [r1 [h1 f1]] eqn:Hacc. subst acc.
  specialize (IH Hnd r1 h1 f1 n). cbn zeta in IH |- *.
  destruct IH as (IHr & IHh & IHf).
  destruct (decide (n = k)) as [->|Hne].
  - rewrite lookup_insert_eq.
    rewrite (not_elem_of_list_to_map_1 l k Hk) in IHr, IHh, IHf.
    rewrite IHr, IHh, IHf. cbn [healthy_after failed_after].
    pose proof (is_healthy_criterion b0) as Hc.
    unfold health_check_step in Hacc.
    clear IHr IHh IHf Hk Hnd.
    destruct (is_healthy b0) as [[|]|e]; cbn in Hc; injection Hacc as <- <- <-;
      rewrite lookup_insert_eq; (split; [congruence|]); set_solver.
  - rewrite lookup_insert_ne by done.
    assert (r1 !! n = r !! n /\ (n ∈ h1 <-> n ∈ h) /\ (n ∈ f1 <-> n ∈ f))
      as (Hr & Hh & Hf).
    { unfold health_check_step in Hacc. clear IHr IHh IHf Hk Hnd.
      destruct (is_healthy b0) as [[|]|e]; injection Hacc as <- <- <-;
        rewrite lookup_insert_ne by done; (split; [done|]); set_solver. }
    rewrite IHr, IHh, IHf, Hr.
    unfold healthy_after, failed_after.
    destruct (list_to_map l !! n) as [b|]; [|done].
    destruct (is_healthy b) as [[|]|]; done.
Qed.

Lemma perform_health_checks_bundles (pm : PluginManager) :
  plugin_bundles (perform_health_checks pm).2 = plugin_bundles pm.
Proof.
  unfold perform_health_checks.
  by destruct (foldl _ _ _) as [r [h f]].
Qed.

Lemma perform_health_checks_spec (pm : PluginManager) (n : string) :
  let out := perform_health_checks pm in
  let o := plugin_bundles pm !! n in
  out.1 !! n = healthy_criterion <$> o
  /\ (n ∈ healthy_plugins out.2 <-> healthy_after o (n ∈ healthy_plugins pm))
  /\ (n ∈ failed_plugins out.2 <-> failed_after o (n ∈ failed_plugins pm)).
Proof.
  cbn zeta. unfold perform_health_checks.
  pose proof (health_check_fold (map_to_list (plugin_bundles pm))
                (NoDup_fst_map_to_list _) ∅
                (healthy_plugins pm) (failed_plugins pm) n) as H.
  cbn zeta in H. rewrite list_to_map_to_list in H.
  destruct (foldl _ _ _) as [r [h f]]. cbn in *.
  destruct H as (Hr & Hh & Hf). rewrite Hr, Hh, Hf.
  destruct (plugin_bundles pm !! n); by rewrite ?lookup_empty.
Qed.

End HealthFacts.

Section HealthClaims.
Import Config LLM Plugins.

(** C8: a health check run directly after a health check returns the
    same per-plugin results and leaves the same healthy and failed
    sets; each result is [true] exactly when the bundle has an agent, a
    bound model, at least one tool and metadata; after a check a
    loaded name is in the failed set exactly when its bundle misses
    the criterion and, its tools being a list, in the healthy set
    exactly when its bundle meets it; names that are not loaded keep
    their place; and the loaded bundles are the same before and after
    each call. *)
Theorem perform_health_checks_idempotent (pm : PluginManager) :
  let first := perform_health_checks pm in
  let second := perform_health_checks first.2 in
  second.1 = first.1
  /\ healthy_plugins second.2 = healthy_plugins first.2
  /\ failed_plugins second.2 = failed_plugins first.2
  /\ first.1 = healthy_criterion <$> plugin_bundles pm
  /\ plugin_bundles first.2 = plugin_bundles pm
  /\ plugin_bundles second.2 = plugin_bundles pm
  /\ (forall n b, plugin_bundles pm !! n = Some b ->
        (n ∈ failed_plugins first.2 <-> healthy_criterion b = false)
        /\ (healthy_criterion b = true -> n ∈ healthy_plugins first.2)
        /\ (is_Some (tools b) ->
            (n ∈ healthy_plugins first.2 <-> healthy_criterion b = true)
            /\ (n ∈ healthy_plugins first.2 <-> n ∉ failed_plugins first.2)))
  /\ (forall n, plugin_bundles pm !! n = None ->
        (n ∈ healthy_plugins first.2 <-> n ∈ healthy_plugins pm)
        /\ (n ∈ failed_plugins first.2 <-> n ∈ failed_plugins pm)).
Proof.
  cbn zeta.
  pose proof (perform_health_checks_bundles pm) as Hb.
  assert (forall p, (perform_health_checks p).1 = healthy_criterion <$> plugin_bundles p)
    as Hres.
  { intros p. apply map_eq. intros n. rewrite lookup_fmap.
    apply (perform_health_checks_spec p n). }
  split; [by rewrite !Hres, Hb|]. split; [|split].
  - apply set_eq. intros n.
    destruct (perform_health_checks_spec (perform_health_checks pm).2 n) as (_ & H2 & _).
    destruct (perform_health_checks_spec pm n) as (_ & H1 & _).
    rewrite H2, Hb. unfold healthy_after in *.
    destruct (plugin_bundles pm !! n) as [b|]; [|done].
    destruct (is_healthy b) as [[|]|]; tauto.
  - apply set_eq. intros n.
    destruct (perform_health_checks_spec (perform_health_checks pm).2 n) as (_ & _ & H2).
    destruct (perform_health_checks_spec pm n) as (_ & _ & H1).
    rewrite H2, Hb. unfold failed_after in *.
    destruct (plugin_bundles pm !! n) as [b|]; [|done].
    destruct (is_healthy b) as [[|]|]; tauto.
  - split; [apply Hres|]. split; [done|].
    split; [by rewrite perform_health_checks_bundles|]. split.
    + intros n b Hn.
      destruct (perform_health_checks_spec pm n) as (_ & Hh & Hf).
      rewrite Hn in Hh, Hf. cbn [healthy_after failed_after] in Hh, Hf.
      pose proof (is_healthy_criterion b) as Hc.
      rewrite Hh, Hf.
      destruct (is_healthy b) as [[|]|e] eqn:Hok; cbn in Hc.
      * rewrite <- Hc. repeat split; try done; tauto.
      * rewrite <- Hc. repeat split; try done; tauto.
      * rewrite Hc. split; [done|]. split; [done|]. intros [ts Hts].
        unfold is_healthy in Hok. rewrite Hts in Hok.
        destruct (bool_decide (agent b = None)); [done|].
        destruct (bool_decide (bound_model b = None)); [done|].
        by destruct (0 <? length ts)%nat.
    + intros n Hn.
      destruct (perform_health_checks_spec pm n) as (_ & Hh & Hf).
      rewrite Hn in Hh, Hf. by split.
Qed.

Lemma perform_health_checks_idempotent_witness :
  let pm := (load_plugin_bundle Samples.fresh_manager
               (Samples.named_source "idle" "idle" [])).2 in
  "idle" ∈ healthy_plugins pm
  /\ "idle" ∈ failed_plugins (perform_health_checks pm).2
  /\ "idle" ∉ healthy_plugins (perform_health_checks pm).2.
Proof.
  cbn zeta. split; [vm_compute; set_solver|].
  destruct (proj1 (proj2 (proj2 (proj2 (proj2 (proj2 (proj2
              (perform_health_checks_idempotent
                 (load_plugin_bundle Samples.fresh_manager
                    (Samples.named_source "idle" "idle" [])).2)))))))
              "idle" _ eq_refl) as (Hfailed & _ & Hhealthy).
  split; [by apply Hfailed|].
  intros Hin. by apply (proj1 (Hhealthy ltac:(by eexists))) in Hin.
Defined.

End HealthClaims.

(** ** Plugin registry: loading *)

Section LoadFacts.
Import Config LLM Plugins.

Lemma create_base_model_environment (f : LLMModelFactory) (c : ModelConfig) :
  let f' := snd (create_base_model f c) in
  settings f' = settings f /\ packages f' = packages f
  /\ _providers f' = _providers f.
Proof.
  cbn zeta. unfold create_base_model.
  destruct (get_cached_model f (get_cache_key c)); [done|].
  destruct (get_provider f (provider c)); [|done].
  destruct (_ensure_api_key f c); [|done].
  by destruct (create_model f p a).
Qed.

(** With a registered, installed provider and a key in the settings, a
    configuration without a key of its own always yields a handle. *)
Lemma create_base_model_succeeds (f : LLMModelFactory) (c : ModelConfig)
    (k : ProviderKind) :
  api_key c = None ->
  _providers f !! provider c = Some k ->
  has_package (packages f) k = true ->
  truthy_str (get_api_key_for_provider (settings f) (provider c)) = true ->
  exists h, fst (create_base_model f c) = Ok h.
Proof.
  intros Hkey Hp Hpk Hs. unfold create_base_model.
  destruct (get_cached_model f (get_cache_key c)) as [h|]; [by exists h|].
  unfold get_provider. rewrite Hp. unfold _ensure_api_key.
  rewrite Hkey. cbn [truthy_str]. rewrite Hs.
  unfold create_model. rewrite Hpk. by eexists.
Qed.

(** The body of the [try] changes the manager only by filling the model
    cache, unless it registers the plugin. *)
Lemma load_plugin_bundle_try_cases (pm : PluginManager) (src : PluginSource) :
  let out := load_plugin_bundle_try pm src in
  (exists f, same_environment pm (with_factory pm f)
             /\ out.2 = with_factory pm f /\ out.1 <> Ok true)
  \/ (exists f md b, same_environment pm (with_factory pm f)
                     /\ out = (Ok true, register (with_factory pm f) md b)).
Proof.
  cbn zeta. unfold load_plugin_bundle_try.
  assert (pm = with_factory pm (llm_factory pm)) as Hid by by destruct pm.
  assert (forall r, r <> Ok true ->
            (exists f, same_environment pm (with_factory pm f)
               /\ (r, pm).2 = with_factory pm f /\ (r, pm).1 <> Ok true)
            \/ (exists f md b, same_environment pm (with_factory pm f)
                  /\ (r, pm) = (Ok true, register (with_factory pm f) md b)))
    as Hquiet.
  { intros r Hr. left. exists (llm_factory pm). by rewrite <- Hid. }
  destruct (validator pm && _); [by apply Hquiet|].
  destruct (_load_plugin_module src) as [[m|]|]; [|by apply Hquiet..].
  destruct (get_metadata m) as [md|]; [|by apply Hquiet].
  destruct (create_agent m) as [ag|]; [|by apply Hquiet].
  pose proof (create_base_model_environment (llm_factory pm) (_create_model_config md))
    as (Hs & Hp & Hr).
  destruct (create_base_model _ _) as [r f]. cbn [snd] in Hs, Hp, Hr.
  assert (same_environment pm (with_factory pm f)) as Henv by done.
  destruct r as [base|]; [|left; by exists f].
  destruct (get_tools ag) as [ts|]; [|left; by exists f].
  destruct (bind_model ag base) as [[bm ag1]|]; [|left; by exists f].
  destruct (initialize ag1) as [ag2|]; [|left; by exists f].
  right. by eexists f, md, _.
Qed.

Lemma load_plugin_bundle_grows (pm : PluginManager) (src : PluginSource) :
  let pm' := (load_plugin_bundle pm src).2 in
  same_environment pm pm' /\ grows pm pm'.
Proof.
  cbn zeta. unfold load_plugin_bundle.
  destruct (load_plugin_bundle_try_cases pm src)
    as [(f & Henv & Hpm & _)|(f & md & b & Henv & Hout)].
  - destruct (load_plugin_bundle_try pm src) as [[ok|e] pm1]; cbn [snd] in *;
      subst pm1; (split; [done|]); unfold grows; cbn; set_solver.
  - rewrite Hout. cbn [snd]. split; [done|].
    unfold grows. cbn. rewrite dom_insert_L. set_solver.
Qed.






(** A self-sufficient directory loads, whatever the manager holds. *)
Lemma load_plugin_bundle_self_sufficient (pm : PluginManager) (src : PluginSource)
    (md : PluginMetadata) :
  self_sufficient pm src md ->
  let out := load_plugin_bundle pm src in
  out.1 = true
  /\ is_Some (plugin_bundles out.2 !! name md)
  /\ name md ∈ healthy_plugins out.2.
Proof.
  intros (Hval & m & ag & ts & k & Hm & Hmd & Hag & Hts & Hb & Hi & Hp & Hpk & Hs).
  cbn zeta. unfold load_plugin_bundle, load_plugin_bundle_try.
  assert (validator pm && negb (bool_decide (validation_errors src = [])) = false) as ->.
  { destruct Hval as [->| ->]; [done|]. by rewrite andb_false_r. }
  unfold _load_plugin_module. rewrite Hm, Hmd, Hag.
  destruct (create_base_model_succeeds (llm_factory pm) (_create_model_config md) k
              eq_refl Hp Hpk Hs) as [h Hh].
  destruct (create_base_model _ _) as [r f]. cbn [fst] in Hh. subst r.
  rewrite Hts. unfold bind_model. rewrite Hts. cbn [mbind Outcome_bind].
  rewrite Hb. unfold initialize. cbn [initialize_fault set_bound_model get_tools].
  rewrite Hi, Hts. cbn [mbind Outcome_bind fst snd register plugin_bundles healthy_plugins].
  split; [done|]. split; [rewrite lookup_insert_eq; by eexists|].
  apply elem_of_union_r. by apply elem_of_singleton.
Qed.




End LoadFacts.


(** The two guards of [load_plugin_bundle] behave unlike its handler: a
    directory whose module raises while it is executed is rejected
    without its name being added to the failed set, whereas a directory
    whose [get_metadata] raises is added. *)
Lemma exec_exception_not_marked_failed :
  let src := Samples.exec_raising_source in
  let out := Plugins.load_plugin_bundle Samples.fresh_manager src in
  let sibling :=
    Plugins.load_plugin_bundle Samples.fresh_manager Samples.metadata_raising_source in
  (exists e, Plugins.module_load src = Plugins.ExecRaises e)
  /\ out.1 = false
  /\ (Plugins.dir_name src ∉ Plugins.failed_plugins out.2)
  /\ Plugins.plugin_bundles out.2 = ∅
  /\ sibling.1 = false
  /\ Plugins.dir_name Samples.metadata_raising_source ∈ Plugins.failed_plugins sibling.2.
Proof.
  cbn zeta. split; [by eexists|]. repeat split; cbn; set_solver.
Qed.

Section LoadClaims.
Import Config LLM Plugins.



End LoadClaims.

(** ** Orchestration engine: routing after the control tools *)

Section RouteFacts.
Import Config LLM Plugins Core.

Lemma string_app_length (s t : string) :
  String.length (s ++ t) = (String.length s + String.length t)%nat.
Proof. induction s as [|a s IH]; simpl; [done|]. by f_equal. Qed.

(** Appending one suffix to two strings keeps them apart. *)
Lemma string_app_inj_r (s t u : string) : s ++ u = t ++ u -> s = t.
Proof.
  revert t. induction s as [|a s IH]; intros [|b t] H.
  - done.
  - apply (f_equal String.length) in H.
    rewrite !string_app_length in H. cbn in H. lia.
  - apply (f_equal String.length) in H.
    rewrite !string_app_length in H. cbn in H. lia.
  - injection H as -> H. f_equal. by apply IH.
Qed.

Lemma agent_label_not_end (p : string) : p ++ "_agent" <> "end".
Proof.
  intros H. apply (f_equal String.length) in H.
  rewrite string_app_length in H. cbn in H. lia.
Qed.

Lemma string_app_cons (a : Ascii.ascii) (s t : string) :
  String a s ++ t = String a (s ++ t).
Proof. reflexivity. Qed.

Lemma prefix_drop (p t : string) :
  String.prefix p t = true -> t = p ++ string_drop (String.length p) t.
Proof.
  revert t. induction p as [|a p IH]; intros t; [by destruct t|].
  destruct t as [|b t]; simpl; [done|].
  destruct (Ascii.ascii_dec a b) as [->|]; [|done].
  intros H. rewrite string_app_cons. f_equal. by apply IH.
Qed.

Lemma prefix_app (p n : string) :
  String.prefix p (p ++ n) = true /\ string_drop (String.length p) (p ++ n) = n.
Proof.
  induction p as [|a p IH]; [by destruct n|].
  rewrite string_app_cons. simpl. by destruct (Ascii.ascii_dec a a).
Qed.

Lemma strip_goto_spec (t n : string) : strip_goto t = Some n <-> t = "goto_" ++ n.
Proof.
  unfold strip_goto. split.
  - destruct (String.prefix "goto_" t) eqn:Hp; [|done].
    intros [= <-]. by apply (prefix_drop "goto_").
  - intros ->. destruct (prefix_app "goto_" n) as [-> Hd].
    by f_equal.
Qed.

Lemma build_route_mapping_end (plugins : list string) :
  build_route_mapping plugins !! "end" = Some Finalizer.
Proof.
  unfold build_route_mapping.
  induction plugins as [|p plugins IH] using rev_ind; [done|].
  rewrite foldl_app. cbn [foldl].
  rewrite lookup_insert_ne; [done|]. apply agent_label_not_end.
Qed.

Lemma build_route_mapping_agent (plugins : list string) (p : string) :
  p ∈ plugins ->
  build_route_mapping plugins !! (p ++ "_agent") = Some (PluginAgent p).
Proof.
  unfold build_route_mapping.
  induction plugins as [|q plugins IH] using rev_ind; intros Hin.
  - by apply elem_of_nil in Hin.
  - rewrite foldl_app. cbn [foldl].
    destruct (decide (q = p)) as [->|Hne]; [by rewrite lookup_insert_eq|].
    rewrite lookup_insert_ne.
    + apply IH. apply elem_of_app in Hin as [Hin|Hin]; [done|].
      apply list_elem_of_singleton in Hin. congruence.
    + intros H. by apply string_app_inj_r in H.
Qed.

Lemma elem_of_get_available_plugins (pm : PluginManager) (p : string) :
  p ∈ get_available_plugins pm <-> p ∈ dom (plugin_bundles pm).
Proof.
  unfold get_available_plugins. rewrite elem_of_dom. split.
  - intros ((k & b) & -> & Hin)%list_elem_of_fmap.
    apply elem_of_map_to_list in Hin. by exists b.
  - intros [b Hb]. apply list_elem_of_fmap. exists (p, b).
    split; [done|]. by apply elem_of_map_to_list.
Qed.

(** What construction fixes: the bundles are those of the manager, the
    label table is built from their names, the settings are stored. *)
Lemma new_orchestrator_inv (pm : PluginManager) (st : Settings)
    (o : MultiAgentOrchestrator) :
  new_orchestrator pm st = Ok o ->
  plugin_bundles (plugin_manager o) = plugin_bundles pm
  /\ route_mapping (graph o) = build_route_mapping (get_available_plugins pm)
  /\ settings o = st.
Proof.
  unfold new_orchestrator, _create_coordinator_model.
  destruct (get_coordinator_tools pm) as [ts|e]; [|done].
  destruct (create_base_model _ _) as [[base|e] f]; [|done].
  cbn [mbind Outcome_bind]. unfold _build_graph.
  cbn [with_factory plugin_bundles].
  destruct (mapM _ _) as [agents|e]; [|done].
  cbn [mbind Outcome_bind]. by intros [= <-].
Qed.

Lemma loaded_dom (o : MultiAgentOrchestrator) (p : string) :
  loaded o p = bool_decide (p ∈ dom (plugin_bundles (plugin_manager o))).
Proof. unfold loaded. apply bool_decide_ext. by rewrite elem_of_dom. Qed.

(** The edge out of the control tools computes the routing-token table
    and never raises. *)
Lemma control_tools_edge_destination (pm : PluginManager) (st : Settings)
    (o : MultiAgentOrchestrator) (s : AgentState) :
  new_orchestrator pm st = Ok o ->
  control_tools_edge o s
  = Ok (routing_token_destination (dom (plugin_bundles pm))
          (content <$> last (messages s))).
Proof.
  intros (Hb & Hr & _)%new_orchestrator_inv.
  unfold control_tools_edge, _route_after_control_tools. rewrite Hr.
  destruct (last (messages s)) as [m|]; cbn [fmap option_fmap option_map];
    [|by rewrite build_route_mapping_end].
  unfold routing_token_destination. rewrite !loaded_dom, Hb.
  destruct (String.eqb_spec (content m) "final") as [Hf|Hf].
  { rewrite decide_True by done. by rewrite build_route_mapping_end. }
  rewrite decide_False by done.
  destruct (decide (content m ∈ dom (plugin_bundles pm))) as [Hin|Hin].
  { rewrite bool_decide_eq_true_2 by done.
    rewrite build_route_mapping_agent; [done|].
    by apply elem_of_get_available_plugins. }
  rewrite bool_decide_eq_false_2 by done.
  unfold strip_goto.
  destruct (String.prefix "goto_" (content m)) eqn:Hp.
  - assert (negb (content m =? "")%string = true) as ->.
    { destruct (content m); [done|]. done. }
    cbn [andb].
    destruct (decide (string_drop 5 (content m) ∈ dom (plugin_bundles pm))) as [Hg|Hg].
    + rewrite bool_decide_eq_true_2 by done.
      rewrite build_route_mapping_agent; [done|].
      by apply elem_of_get_available_plugins.
    + rewrite bool_decide_eq_false_2 by done. by rewrite build_route_mapping_end.
  - rewrite andb_false_r. by rewrite build_route_mapping_end.
Qed.

End RouteFacts.

(** C3, as the claim states it, fails: with a plugin named [final]
    loaded, its own name is an exact loaded-plugin name, and it is the
    token its [goto_final] tool returns, yet the route leads to the
    finalizer and not to the plugin's agent. *)
Lemma plugin_named_final_is_unreachable :
  exists o tools,
    Core.new_orchestrator Samples.two_plugin_manager (Samples.keyed_settings 10) = Ok o
    /\ Plugins.get_coordinator_tools Samples.two_plugin_manager = Ok tools
    /\ Plugins.make_goto_tool "final" "Looks things up" ∈ tools
    /\ Plugins.rt_returns (Plugins.make_goto_tool "final" "Looks things up") = "final"
    /\ Core.loaded o "final" = true
    /\ Core.control_tools_edge o
         (Samples.turn_state [Samples.user_message "hi"; Samples.tool_request "goto_final";
                              Samples.tool_result "final"] 1)
       = Ok Core.Finalizer.
Proof.
  eexists _, _. split; [vm_compute; reflexivity|].
  split; [vm_compute; reflexivity|].
  split; [apply list_elem_of_lookup; by exists 1%nat|].
  by vm_compute.
Qed.

(** The table holds for the plugin set the engine was built with. When
    the shared manager loads a plugin afterwards, the token of the new
    plugin yields a label the edge table of the graph does not have. *)
Lemma route_label_of_later_plugin_is_missing :
  exists o,
    Core.new_orchestrator Samples.two_plugin_manager (Samples.keyed_settings 10) = Ok o
    /\ Core.control_tools_edge
         (Core.with_plugin_manager o
            (Plugins.load_plugin_bundle (Core.plugin_manager o) (Samples.good_source "news")).2)
         (Samples.turn_state [Samples.user_message "hi"; Samples.tool_result "news"] 1)
       = Raise (mkExn "KeyError" "news_agent").
Proof.
  eexists. split; [vm_compute; reflexivity|]. by vm_compute.
Qed.

Section RouteClaims.
Import Config LLM Plugins Core.

(** C3 (amended): in an engine whose plugin manager holds the plugins
    it was built with, the node after the control-tools step is a
    function of the content of the last message and of the set of
    loaded plugin names alone, and it is never an error. The tests are made in this order: no last message
    leads to the finalizer; the token [final] leads to the finalizer
    (also when a plugin of that name is loaded); otherwise a token that
    is a loaded plugin name leads to that plugin's agent; otherwise a
    token [goto_<name>] with [<name>] loaded leads to the agent of
    [<name>]; every other token leads to the finalizer. *)
Theorem route_after_control_tools_table (pm : PluginManager) (st : Settings)
    (o : MultiAgentOrchestrator) (s : AgentState) :
  new_orchestrator pm st = Ok o ->
  let plugins := dom (plugin_bundles pm) in
  let next := control_tools_edge o s in
  next = Ok (routing_token_destination plugins (content <$> last (messages s)))
  /\ (last (messages s) = None -> next = Ok Finalizer)
  /\ (forall m, last (messages s) = Some m ->
        (content m = "final" -> next = Ok Finalizer)
        /\ (content m <> "final" -> content m ∈ plugins ->
            next = Ok (PluginAgent (content m)))
        /\ (forall n, content m = "goto_" ++ n -> content m ∉ plugins -> n ∈ plugins ->
            next = Ok (PluginAgent n))
        /\ (content m <> "final" -> content m ∉ plugins ->
            (forall n, content m = "goto_" ++ n -> n ∉ plugins) ->
            next = Ok Finalizer)).
Proof.
  intros Hnew. cbn zeta.
  rewrite (control_tools_edge_destination pm st o s Hnew).
  split; [done|]. split; [by intros ->|].
  intros m ->. cbn [fmap option_fmap option_map routing_token_destination].
  repeat split.
  - intros ->. by rewrite decide_True.
  - intros Hf Hin. by rewrite decide_False, decide_True.
  - intros n Hn Hout Hin.
    rewrite decide_False by (rewrite Hn; discriminate).
    rewrite decide_False by done.
    apply strip_goto_spec in Hn as ->. by rewrite decide_True.
  - intros Hf Hout Hgoto. rewrite !decide_False by done.
    destruct (strip_goto (content m)) as [n|] eqn:Hs; [|done].
    apply strip_goto_spec in Hs. by rewrite decide_False by by apply Hgoto.
Qed.

Lemma route_after_control_tools_table_witness :
  exists o,
    new_orchestrator Samples.two_plugin_manager (Samples.keyed_settings 10) = Ok o
    /\ control_tools_edge o
         (Samples.turn_state [Samples.user_message "hi"; Samples.tool_result "goto_search"] 1)
       = Ok (PluginAgent "search").
Proof.
  destruct (new_orchestrator Samples.two_plugin_manager (Samples.keyed_settings 10))
    as [o|e] eqn:Hnew; [|by vm_compute in Hnew].
  exists o. split; [reflexivity|].
  pose proof (route_after_control_tools_table _ _ o
                (Samples.turn_state [Samples.user_message "hi";
                                     Samples.tool_result "goto_search"] 1)
                Hnew) as (H & _).
  rewrite H. by vm_compute.
Defined.

End RouteClaims.

(** ** Orchestration engine: one step and a whole run *)

Section RunFacts.
Import Config LLM Plugins Core.

Variables (o : MultiAgentOrchestrator) (w : Models).

(** What a successful step does to the hop counter and which node can
    follow. *)
Lemma step_hops (n n' : Node) (s s' : AgentState) :
  step o w n s = Ok (n', s') ->
  get_hops s' = (get_hops s + if counts_hop n then 1 else 0)%Z.
Proof.
  destruct n; cbn [step counts_hop].
  - unfold _coordinator_node.
    destruct (MAX_HOPS <=? get_hops s)%Z.
    + cbn [mbind Outcome_bind]. destruct (coordinator_edge _); [|done].
      cbn [mbind Outcome_bind]. intros [= _ <-]. reflexivity.
    + destruct (get_plugin_routing_info _); [|done]. cbn [mbind Outcome_bind].
      destruct (coordinator_invoke w _); [|done]. cbn [mbind Outcome_bind].
      destruct (coordinator_edge _); [|done].
      cbn [mbind Outcome_bind]. intros [= _ <-]. reflexivity.
  - destruct (control_tools_node w _); [|done]. cbn [mbind Outcome_bind].
    destruct (control_tools_edge _ _); [|done]. cbn [mbind Outcome_bind].
    intros [= _ <-]. unfold get_hops. cbn. lia.
  - destruct (graph_agents (graph o) !! plugin) as [a|]; [|done].
    unfold agent_node. destruct (get_system_prompt a); [|done].
    cbn [mbind Outcome_bind]. destruct (_bound_model a); [|done].
    destruct (agent_invoke w _ _); [|done]. cbn [mbind Outcome_bind].
    destruct (default _ (plugin_context s)); [|done].
    cbn [mbind Outcome_bind]. intros [= _ <-]. reflexivity.
  - destruct (plugin_tools_node w _ _); [|done]. cbn [mbind Outcome_bind].
    intros [= _ <-]. unfold get_hops. cbn. lia.
  - unfold _finalizer_node. destruct (coordinator_invoke w _); [|done].
    cbn [mbind Outcome_bind]. intros [= _ <-]. unfold get_hops. cbn. lia.
  - intros [= _ <-]. lia.
Qed.

(** What a successful step does to [agents_used] and to the routing
    history: only a plugin agent touches them, and it records its own
    name in both. *)
Lemma step_tracking (n n' : Node) (s s' : AgentState) :
  step o w n s = Ok (n', s') ->
  used_agents s' = foldl track_agent (used_agents s) (arrivals (graph o) [n])
  /\ routing_history_of s' = (routing_history_of s ++ arrivals (graph o) [n])%list.
Proof.
  destruct n; cbn [step arrivals omap foldl].
  - destruct (_coordinator_node o w s) as [u|] eqn:Hu; [|done].
    cbn [mbind Outcome_bind]. destruct (coordinator_edge _); [|done].
    cbn [mbind Outcome_bind]. intros [= _ <-].
    assert (u_agents_used u = None /\ u_plugin_context u = None) as [Ha Hc].
    { unfold _coordinator_node in Hu. destruct (MAX_HOPS <=? get_hops s)%Z.
      - by injection Hu as <-.
      - destruct (get_plugin_routing_info _); [|done]. cbn [mbind Outcome_bind] in Hu.
        destruct (coordinator_invoke w _); [|done]. by injection Hu as <-. }
    unfold used_agents, routing_history_of. cbn. rewrite Ha, Hc.
    by rewrite app_nil_r.
  - destruct (control_tools_node w _); [|done]. cbn [mbind Outcome_bind].
    destruct (control_tools_edge _ _); [|done]. cbn [mbind Outcome_bind].
    intros [= _ <-]. unfold used_agents, routing_history_of. cbn.
    by rewrite app_nil_r.
  - destruct (graph_agents (graph o) !! plugin) as [a|] eqn:Hg; [|done].
    unfold arrivals. cbn [omap list_omap]. rewrite Hg.
    cbn [fmap option_fmap option_map foldl app].
    unfold agent_node. destruct (get_system_prompt a); [|done].
    cbn [mbind Outcome_bind]. destruct (_bound_model a); [|done].
    destruct (agent_invoke w _ _); [|done]. cbn [mbind Outcome_bind].
    unfold used_agents, routing_history_of.
    destruct (plugin_context s) as [[ctx|]|]; cbn; try done;
      intros [= _ <-]; split; reflexivity.
  - destruct (plugin_tools_node w _ _); [|done]. cbn [mbind Outcome_bind].
    intros [= _ <-]. unfold used_agents, routing_history_of. cbn.
    by rewrite app_nil_r.
  - unfold _finalizer_node. destruct (coordinator_invoke w _); [|done].
    cbn [mbind Outcome_bind]. intros [= _ <-].
    unfold used_agents, routing_history_of. cbn. by rewrite app_nil_r.
  - intros [= _ <-]. by rewrite app_nil_r.
Qed.

Lemma run_END (fuel : nat) (s : AgentState) : run o w fuel END s = ([], Ok s).
Proof. by destruct fuel. Qed.

(** Unfolding of one executed node. *)
Lemma run_step (fuel : nat) (n : Node) (s : AgentState) :
  n <> END ->
  run o w (S fuel) n s
  = match step o w n s with
    | Raise e => ([n], Raise e)
    | Ok (n', s') => (n :: (run o w fuel n' s').1, (run o w fuel n' s').2)
    end.
Proof.
  intros Hn. destruct n; try done; cbn [run];
    (destruct (step o w _ s) as [[n' s']|]; [|done]);
    by destruct (run o w fuel n' s').
Qed.

Lemma hop_steps_cons (n : Node) (l : list Node) :
  hop_steps (n :: l) = ((if counts_hop n then 1 else 0) + hop_steps l)%nat.
Proof.
  unfold hop_steps. rewrite filter_cons.
  destruct (counts_hop n); by case_decide.
Qed.

(** A run that returns a state has added one hop per coordinator step
    and per agent step, and nothing else. *)
Lemma run_hops (fuel : nat) (n : Node) (s s' : AgentState) (visited : list Node) :
  run o w fuel n s = (visited, Ok s') ->
  get_hops s' = (get_hops s + Z.of_nat (hop_steps visited))%Z.
Proof.
  revert n s visited. induction fuel as [|fuel IH]; intros n s visited.
  - destruct n; try done. intros [= <- <-]. cbn. lia.
  - destruct (decide (n = END)) as [->|Hn].
    { rewrite run_END. intros [= <- <-]. cbn. lia. }
    rewrite run_step by done.
    destruct (step o w n s) as [[n' s1]|] eqn:Hstep; [|done].
    intros [= <- Hrun]. rewrite hop_steps_cons.
    apply step_hops in Hstep.
    specialize (IH n' s1 (run o w fuel n' s1).1).
    rewrite IH by (rewrite <- Hrun; by destruct (run o w fuel n' s1)).
    rewrite Hstep. destruct (counts_hop n); lia.
Qed.

Lemma run_length (fuel : nat) (n : Node) (s : AgentState) :
  (length (run o w fuel n s).1 <= fuel)%nat.
Proof.
  revert n s. induction fuel as [|fuel IH]; intros n s.
  - by destruct n.
  - destruct (decide (n = END)) as [->|Hn]; [rewrite run_END; cbn; lia|].
    rewrite run_step by done.
    destruct (step o w n s) as [[n' s1]|]; cbn; [|lia].
    specialize (IH n' s1). lia.
Qed.

Lemma arrivals_cons (g : Graph) (n : Node) (l : list Node) :
  arrivals g (n :: l) = (arrivals g [n] ++ arrivals g l)%list.
Proof. unfold arrivals. cbn. by destruct n; try destruct (_ <$> _). Qed.

Lemma run_tracking (fuel : nat) (n : Node) (s s' : AgentState) (visited : list Node) :
  run o w fuel n s = (visited, Ok s') ->
  used_agents s' = foldl track_agent (used_agents s) (arrivals (graph o) visited)
  /\ routing_history_of s' = (routing_history_of s ++ arrivals (graph o) visited)%list.
Proof.
  revert n s visited. induction fuel as [|fuel IH]; intros n s visited.
  - destruct n; try done. intros [= <- <-]. cbn. by rewrite app_nil_r.
  - destruct (decide (n = END)) as [->|Hn].
    { rewrite run_END. intros [= <- <-]. cbn. by rewrite app_nil_r. }
    rewrite run_step by done.
    destruct (step o w n s) as [[n' s1]|] eqn:Hstep; [|done].
    intros [= <- Hrun].
    apply step_tracking in Hstep as [Hu Hh].
    destruct (IH n' s1 (run o w fuel n' s1).1) as [IHu IHh].
    { rewrite <- Hrun. by destruct (run o w fuel n' s1). }
    rewrite arrivals_cons, foldl_app, IHu, IHh, Hu, Hh.
    by rewrite app_assoc.
Qed.

End RunFacts.

(** ** Orchestration engine: [agents_used] and the routing history *)

Section TrackingFacts.
Import Config LLM Plugins Core.

Lemma filter_keeps_all (P : string -> Prop) `{!forall x, Decision (P x)}
    (l : list string) :
  (forall x, x ∈ l -> P x) -> filter P l = l.
Proof.
  induction l as [|x l IH]; intros Hall; [done|].
  rewrite filter_cons_True by (apply Hall; left).
  f_equal. apply IH. intros y Hy. apply Hall. by right.
Qed.

Lemma elem_of_first_arrivals (l : list string) (x : string) :
  x ∈ first_arrivals l <-> x ∈ l.
Proof.
  induction l as [|y l IH]; [done|]. cbn [first_arrivals].
  rewrite !elem_of_cons, list_elem_of_filter, IH.
  destruct (decide (x = y)); naive_solver.
Qed.

Lemma NoDup_first_arrivals (l : list string) : NoDup (first_arrivals l).
Proof.
  induction l as [|y l IH]; cbn [first_arrivals]; [constructor|].
  apply NoDup_cons. split; [|by apply NoDup_filter].
  rewrite list_elem_of_filter. naive_solver.
Qed.

(** The loop of [agent_node] over a run of arrivals: the names already
    there stay in place, and each new name is appended where it first
    arrives. *)
Lemma foldl_track_agent (l used : list string) :
  foldl track_agent used l
  = (used ++ filter (fun y => y ∉ used) (first_arrivals l))%list.
Proof.
  revert used. induction l as [|x l IH]; intros used.
  - cbn. by rewrite app_nil_r.
  - cbn [foldl first_arrivals]. rewrite IH. unfold track_agent.
    rewrite filter_cons. case_bool_decide as Hx.
    + rewrite decide_False by naive_solver. f_equal.
      rewrite list_filter_filter. apply list_filter_iff.
      intros y. naive_solver.
    + rewrite decide_True by done. rewrite <- app_assoc. cbn [app]. do 2 f_equal.
      rewrite list_filter_filter. apply list_filter_iff.
      intros y. rewrite elem_of_app, list_elem_of_singleton. naive_solver.
Qed.

Lemma NoDup_foldl_track_agent (l used : list string) :
  NoDup used -> NoDup (foldl track_agent used l).
Proof.
  intros Hnd. rewrite foldl_track_agent. apply NoDup_app.
  split; [done|]. split.
  - intros x Hx Hf. apply list_elem_of_filter in Hf. naive_solver.
  - apply NoDup_filter, NoDup_first_arrivals.
Qed.

End TrackingFacts.

Section TrackingClaims.
Import Config LLM Plugins Core.

(** C6: over any run of the graph that returns a state, [agents_used]
    ends as the list it started with followed by the names of the
    plugin agents that ran and were not yet in it, each once, in the
    order of their first arrival (so it has no duplicate when it
    started without one, and from an empty or missing list it is
    exactly the first arrivals); and [routing_history] ends as what it
    started with followed by one entry per agent step, repeats
    included, in the order of the steps. *)
Theorem agents_used_and_routing_history (o : MultiAgentOrchestrator) (w : Models)
    (fuel : nat) (n : Node) (s s' : AgentState) (visited : list Node) :
  run o w fuel n s = (visited, Ok s') ->
  let names := arrivals (graph o) visited in
  used_agents s'
  = (used_agents s ++ filter (fun y => y ∉ used_agents s) (first_arrivals names))%list
  /\ (NoDup (used_agents s) -> NoDup (used_agents s'))
  /\ (used_agents s = [] ->
      used_agents s' = first_arrivals names
      /\ NoDup (used_agents s')
      /\ forall x, x ∈ used_agents s' <-> x ∈ names)
  /\ routing_history_of s' = (routing_history_of s ++ names)%list
  /\ length (routing_history_of s') = (length (routing_history_of s) + length names)%nat.
Proof.
  intros Hrun. cbn zeta.
  destruct (run_tracking o w fuel n s s' visited Hrun) as [Hu Hh].
  split; [by rewrite Hu, foldl_track_agent|].
  split; [intros Hnd; rewrite Hu; by apply NoDup_foldl_track_agent|].
  split.
  - intros Hnil. rewrite Hu, Hnil, foldl_track_agent. cbn [app].
    assert (filter (fun y : string => y ∉ []) (first_arrivals (arrivals (graph o) visited))
            = first_arrivals (arrivals (graph o) visited)) as ->.
    { apply filter_keeps_all. intros x _. apply not_elem_of_nil. }
    split; [done|]. split; [apply NoDup_first_arrivals|].
    intros x. apply elem_of_first_arrivals.
  - split; [done|]. by rewrite Hh, length_app.
Qed.

Lemma agents_used_and_routing_history_witness :
  exists o visited s',
    new_orchestrator Samples.two_plugin_manager (Samples.keyed_settings 10) = Ok o
    /\ run o Samples.looping_models 25 Coordinator Samples.first_turn = (visited, Ok s')
    /\ used_agents s'
       = (used_agents Samples.first_turn
          ++ filter (fun y => y ∉ used_agents Samples.first_turn)
               (first_arrivals (arrivals (graph o) visited)))%list.
Proof.
  eexists _, _, _. split; [vm_compute; reflexivity|].
  match goal with |- ?R /\ _ => assert R as Hrun by (vm_compute; reflexivity) end.
  split; [exact Hrun|].
  exact (proj1 (agents_used_and_routing_history _ _ _ _ _ _ _ Hrun)).
Defined.

End TrackingClaims.

(** ** Orchestration engine: the hop guard *)

Section HopFacts.
Import Config LLM Plugins Core.

Lemma build_route_mapping_targets (plugins : list string) (label : string) (n : Node) :
  build_route_mapping plugins !! label = Some n ->
  n = Finalizer \/ exists p, n = PluginAgent p.
Proof.
  unfold build_route_mapping.
  induction plugins as [|q plugins IH] using rev_ind.
  - cbn. intros [_ <-]%lookup_singleton_Some. by left.
  - rewrite foldl_app. cbn [foldl].
    intros [[_ <-]|[_ H]]%lookup_insert_Some; [right; by eexists | by apply IH].
Qed.

(** With the ceiling reached the coordinator returns the notice,
    whatever the models would answer, and the edge leads to [END]. *)
Lemma coordinator_at_ceiling (o : MultiAgentOrchestrator) (w : Models) (s : AgentState) :
  (MAX_HOPS <= get_hops s)%Z ->
  _coordinator_node o w s = Ok (hop_notice s)
  /\ step o w Coordinator s = Ok (END, apply_update s (hop_notice s)).
Proof.
  intros Hh. assert (_coordinator_node o w s = Ok (hop_notice s)) as Hc.
  { unfold _coordinator_node. by rewrite (proj2 (Z.leb_le _ _) Hh). }
  split; [done|]. cbn [step]. rewrite Hc. cbn [mbind Outcome_bind].
  unfold coordinator_edge. cbn [apply_update messages hop_notice u_messages].
  by rewrite last_snoc.
Qed.

(** The nodes that can follow a node in an engine that was built by
    its constructor. *)
Lemma step_next (pm : PluginManager) (st : Settings) (o : MultiAgentOrchestrator)
    (w : Models) (n n' : Node) (s s' : AgentState) :
  new_orchestrator pm st = Ok o ->
  step o w n s = Ok (n', s') ->
  match n with
  | Coordinator => n' = ControlTools \/ n' = END
  | ControlTools => n' = Finalizer \/ exists p, n' = PluginAgent p
  | PluginAgent p => n' = PluginTools p \/ n' = Coordinator
  | PluginTools p => n' = PluginAgent p
  | Finalizer | END => n' = END
  end.
Proof.
  intros (_ & Hr & _)%new_orchestrator_inv. destruct n; cbn [step].
  - destruct (_coordinator_node o w s); [|done]. cbn [mbind Outcome_bind].
    unfold coordinator_edge. destruct (last _) as [m|]; [|done].
    cbn [mbind Outcome_bind]. intros [= <- _]. destruct (has_tool_calls m); auto.
  - destruct (control_tools_node w _); [|done]. cbn [mbind Outcome_bind].
    unfold control_tools_edge. rewrite Hr.
    destruct (build_route_mapping _ !! _) as [t|] eqn:Ht; [|done].
    cbn [mbind Outcome_bind]. intros [= <- _].
    by eapply build_route_mapping_targets.
  - destruct (graph_agents (graph o) !! plugin); [|done].
    destruct (agent_node _ w s); [|done]. cbn [mbind Outcome_bind].
    intros [= <- _]. unfold agent_edge. destruct (String.eqb _ _); auto.
  - destruct (plugin_tools_node w _ _); [|done]. cbn [mbind Outcome_bind].
    by intros [= <- _].
  - destruct (_finalizer_node w s); [|done]. cbn [mbind Outcome_bind].
    by intros [= <- _].
  - by intros [= <- _].
Qed.

Lemma count_coordinator_cons (n : Node) (l : list Node) :
  count_coordinator (n :: l)
  = ((if decide (n = Coordinator) then 1 else 0) + count_coordinator l)%nat.
Proof. unfold count_coordinator. rewrite filter_cons. by case_decide. Qed.

(** Twice the number of coordinator steps of a run stays within the
    budget of its first node. *)
Lemma run_coordinator_budget (pm : PluginManager) (st : Settings)
    (o : MultiAgentOrchestrator) (w : Models) (fuel : nat) (n : Node) (s : AgentState) :
  new_orchestrator pm st = Ok o ->
  (2 * count_coordinator (run o w fuel n s).1 <= coordinator_budget n s)%nat.
Proof.
  intros Hnew. revert n s. induction fuel as [|fuel IH]; intros n s.
  - destruct n; cbn; lia.
  - destruct (decide (n = END)) as [->|Hn]; [rewrite run_END; cbn; lia|].
    rewrite run_step by done.
    destruct (step o w n s) as [[n' s1]|e] eqn:Hstep.
    + cbn [fst]. rewrite count_coordinator_cons.
      pose proof (step_next pm st o w n n' s s1 Hnew Hstep) as Hnext.
      pose proof (step_hops o w n n' s s1 Hstep) as Hhops.
      specialize (IH n' s1). revert IH.
      generalize (count_coordinator (run o w fuel n' s1).1). intros c IH.
      unfold coordinator_budget, remaining_hops in *.
      destruct n; cbn [counts_hop] in Hhops; try done.
      * rewrite decide_True by done.
        destruct (decide (MAX_HOPS <= get_hops s)%Z) as [Hc|Hc].
        { destruct (coordinator_at_ceiling o w s Hc) as [_ Hend].
          rewrite Hend in Hstep. injection Hstep as <- <-.
          destruct fuel; cbn in IH; lia. }
        destruct Hnext as [-> | ->]; lia.
      * rewrite decide_False by done. destruct Hnext as [-> | [p ->]]; lia.
      * rewrite decide_False by done. destruct Hnext as [-> | ->]; lia.
      * rewrite decide_False by done. subst n'. lia.
      * rewrite decide_False by done. subst n'. lia.
    + cbn [fst]. rewrite count_coordinator_cons. cbn.
      destruct n; try done; case_decide; try done; cbn; lia.
Qed.

End HopFacts.

(** C1, as the claim states it, fails: a coordinator step that starts
    with the ceiling reached is followed by [END]; the finalizer node is
    not entered and the turn ends on the injected notice. *)
Lemma hop_guard_skips_finalizer :
  exists o s',
    Core.new_orchestrator Samples.two_plugin_manager (Samples.keyed_settings 10) = Ok o
    /\ Core.graph_invoke o Samples.looping_models
         (Samples.turn_state [Samples.user_message "What is the answer?"] 10)
       = ([Core.Coordinator], Ok s')
    /\ (Core.Finalizer ∉ [Core.Coordinator])
    /\ last (Core.messages s')
       = Some (Core.SystemMsg "Max hops (10) reached. Finalize now.").
Proof.
  eexists _, _. split; [vm_compute; reflexivity|].
  split; [vm_compute; reflexivity|].
  split; [|reflexivity]. by intros ?%list_elem_of_singleton.
Qed.

(** C2, as the claim states it, fails: a turn that starts at zero hops
    can return more than [MAX_HOPS + 1] hops, because the steps of a
    plugin agent that keeps calling its tools are counted and not
    checked against the ceiling. *)
Lemma hops_exceed_ceiling_plus_one :
  exists o,
    Core.new_orchestrator Samples.two_plugin_manager (Samples.keyed_settings 10) = Ok o
    /\ Core.get_hops Samples.first_turn = 0%Z
    /\ Core.get_hops (Core.invoke o Samples.looping_models Samples.first_turn) = 12%Z
    /\ ~ (Core.get_hops (Core.invoke o Samples.looping_models Samples.first_turn)
          <= Core.MAX_HOPS + 1)%Z.
Proof.
  eexists. split; [vm_compute; reflexivity|].
  split; [reflexivity|]. split; [by vm_compute|]. by vm_compute.
Qed.

(** C5, as the claim states it, fails: the suspending entry point writes
    the text of the exception into the content of the message it
    returns. *)
Lemma ainvoke_shows_exception_text :
  exists o,
    Core.new_orchestrator Samples.two_plugin_manager (Samples.keyed_settings 10) = Ok o
    /\ Core.messages (Core.ainvoke o Samples.failing_models Samples.first_turn)
       = [Core.AIMsg "I encountered an error processing your request. Error: Error code: 429 - quota exceeded for key sk-test"]
    /\ Core.messages (Core.ainvoke o Samples.failing_models Samples.first_turn)
       <> [Core.AIMsg Core.apology].
Proof.
  eexists. split; [vm_compute; reflexivity|].
  split; [by vm_compute|]. by vm_compute.
Qed.

Section EngineClaims.
Import Config LLM Plugins Core.

(** C1 (amended): when a coordinator step starts with
    [hops >= MAX_HOPS] (the module constant 10), the coordinator
    returns a system notice and [hops + 1] without consulting any
    model, the edge out of the coordinator leads to [END], and the run
    from there consists of that one step (the finalizer is not
    entered); and in a turn that starts with [hops >= 0] the
    coordinator node is entered at most [MAX_HOPS] times, whatever the
    models answer. *)
Theorem hop_guard_ends_turn (pm : PluginManager) (st : Settings)
    (o : MultiAgentOrchestrator) (w : Models) (s : AgentState) :
  new_orchestrator pm st = Ok o ->
  ((MAX_HOPS <= get_hops s)%Z ->
     _coordinator_node o w s = Ok (hop_notice s)
     /\ step o w Coordinator s = Ok (END, apply_update s (hop_notice s))
     /\ (forall fuel, run o w (S fuel) Coordinator s
                      = ([Coordinator], Ok (apply_update s (hop_notice s))))
     /\ get_hops (apply_update s (hop_notice s)) = (get_hops s + 1)%Z)
  /\ ((0 <= get_hops s)%Z ->
      (count_coordinator (graph_invoke o w s).1 <= Z.to_nat MAX_HOPS)%nat).
Proof.
  intros Hnew. split.
  - intros Hc. destruct (coordinator_at_ceiling o w s Hc) as [Hnode Hstep].
    split; [done|]. split; [done|]. split; [|done].
    intros fuel. rewrite run_step by done. rewrite Hstep. by rewrite run_END.
  - intros H0. unfold graph_invoke.
    pose proof (run_coordinator_budget pm st o w (recursion_limit w) Coordinator s Hnew)
      as Hb.
    unfold coordinator_budget, remaining_hops, MAX_HOPS in *. lia.
Qed.

Lemma hop_guard_ends_turn_witness :
  exists o,
    new_orchestrator Samples.two_plugin_manager (Samples.keyed_settings 10) = Ok o
    /\ step o Samples.looping_models Coordinator
         (Samples.turn_state [Samples.user_message "What is the answer?"] 10)
       = Ok (END, apply_update
                    (Samples.turn_state [Samples.user_message "What is the answer?"] 10)
                    (hop_notice
                       (Samples.turn_state [Samples.user_message "What is the answer?"] 10)))
    /\ (count_coordinator (graph_invoke o Samples.looping_models Samples.first_turn).1
        <= Z.to_nat MAX_HOPS)%nat.
Proof.
  destruct (new_orchestrator Samples.two_plugin_manager (Samples.keyed_settings 10))
    as [o|e] eqn:Hnew; [|by vm_compute in Hnew].
  exists o. split; [reflexivity|].
  pose proof (hop_guard_ends_turn _ _ o Samples.looping_models
                (Samples.turn_state [Samples.user_message "What is the answer?"] 10)
                Hnew) as [Hguard _].
  pose proof (hop_guard_ends_turn _ _ o Samples.looping_models Samples.first_turn Hnew)
    as [_ Hcount].
  split; [apply Hguard; by vm_compute | apply Hcount; by vm_compute].
Defined.

(** C2 (amended): the state either entry point returns has a hop
    counter at least one above that of the input; a coordinator step
    and a plugin agent step each return exactly the input counter plus
    one; when the run returns, the counter has grown by exactly the
    number of coordinator and agent steps made, which is at least one.
    (No bound by [MAX_HOPS + 1] holds: agent steps are not checked
    against the ceiling.) *)
Theorem hops_after_turn (o : MultiAgentOrchestrator) (w : Models) (s : AgentState) :
  (get_hops s + 1 <= get_hops (invoke o w s))%Z
  /\ (get_hops s + 1 <= get_hops (ainvoke o w s))%Z
  /\ (forall u, _coordinator_node o w s = Ok u -> u_hops u = Some (get_hops s + 1)%Z)
  /\ (forall a u, agent_node a w s = Ok u -> u_hops u = Some (get_hops s + 1)%Z)
  /\ (forall visited s',
        graph_invoke o w s = (visited, Ok s') ->
        invoke o w s = s' /\ ainvoke o w s = s'
        /\ get_hops s' = (get_hops s + Z.of_nat (hop_steps visited))%Z
        /\ (1 <= hop_steps visited)%nat).
Proof.
  assert (forall visited s',
            graph_invoke o w s = (visited, Ok s') ->
            get_hops s' = (get_hops s + Z.of_nat (hop_steps visited))%Z
            /\ (1 <= hop_steps visited)%nat) as Hok.
  { intros visited s' Hrun. split; [by eapply run_hops|].
    unfold graph_invoke in Hrun.
    destruct (recursion_limit w) as [|fuel]; [done|].
    rewrite run_step in Hrun by done.
    destruct (step o w Coordinator s) as [[n' s1]|]; [|done].
    injection Hrun as <- _. rewrite hop_steps_cons. cbn. lia. }
  repeat split.
  - unfold invoke. destruct (graph_invoke o w s) as [visited [s'|e]] eqn:Hrun; cbn [snd].
    + destruct (Hok _ _ eq_refl) as [-> ?]. lia.
    + unfold get_hops at 2. cbn. lia.
  - unfold ainvoke. destruct (graph_invoke o w s) as [visited [s'|e]] eqn:Hrun; cbn [snd].
    + destruct (Hok _ _ eq_refl) as [-> ?]. lia.
    + unfold get_hops at 2. cbn. lia.
  - intros u. unfold _coordinator_node. destruct (MAX_HOPS <=? get_hops s)%Z.
    + by intros [= <-].
    + destruct (get_plugin_routing_info _); [|done]. cbn [mbind Outcome_bind].
      destruct (coordinator_invoke w _); [|done]. by intros [= <-].
  - intros a u. unfold agent_node. destruct (get_system_prompt a); [|done].
    cbn [mbind Outcome_bind]. destruct (_bound_model a); [|done].
    destruct (agent_invoke w _ _); [|done]. cbn [mbind Outcome_bind].
    destruct (default _ (plugin_context s)); [|done]. by intros [= <-].
  - unfold invoke. by rewrite H.
  - unfold ainvoke. by rewrite H.
  - by apply Hok.
  - by apply (Hok visited s').
Qed.

Lemma hops_after_turn_witness :
  exists o,
    new_orchestrator Samples.two_plugin_manager (Samples.keyed_settings 10) = Ok o
    /\ (get_hops Samples.first_turn + 1
        <= get_hops (invoke o Samples.looping_models Samples.first_turn))%Z.
Proof.
  destruct (new_orchestrator Samples.two_plugin_manager (Samples.keyed_settings 10))
    as [o|e] eqn:Hnew; [|by vm_compute in Hnew].
  exists o. split; [reflexivity|].
  exact (proj1 (hops_after_turn o Samples.looping_models Samples.first_turn)).
Defined.

(** C5 (amended): neither entry point raises. When the graph run
    returns a state, both return it. When it raises [e], both return a
    state with one assistant message and the input hop counter plus
    one; the blocking one returns the fixed apology text and no
    diagnostic at all; the suspending one returns the apology text
    followed by the text of the exception, and that text once more in
    the [error] field (the kind of the exception is returned nowhere).
    The run raises, for one, when the coordinator's model call of the
    first step does, and when the recursion limit is zero. *)
Theorem entry_points_degrade (o : MultiAgentOrchestrator) (w : Models) (s : AgentState) :
  match (graph_invoke o w s).2 with
  | Ok result => invoke o w s = result /\ ainvoke o w s = result
  | Raise e =>
      invoke o w s = apology_state s
      /\ ainvoke o w s = apology_error_state s e
      /\ messages (invoke o w s) = [AIMsg apology]
      /\ error (invoke o w s) = None
      /\ get_hops (invoke o w s) = (get_hops s + 1)%Z
      /\ messages (ainvoke o w s) = [AIMsg (apology ++ " Error: " ++ exn_msg e)]
      /\ error (ainvoke o w s) = Some (exn_msg e)
      /\ get_hops (ainvoke o w s) = (get_hops s + 1)%Z
  end
  /\ (forall info e,
        (0 < recursion_limit w)%nat ->
        (get_hops s < MAX_HOPS)%Z ->
        get_plugin_routing_info (plugin_manager o) = Ok info ->
        coordinator_invoke w (SystemMsg (coordinator_system_content info) :: messages s)
        = Raise e ->
        (graph_invoke o w s).2 = Raise e)
  /\ (recursion_limit w = 0%nat -> is_ok (graph_invoke o w s).2 = false).
Proof.
  split; [|split].
  - unfold invoke, ainvoke.
    destruct (graph_invoke o w s).2 as [result|e]; [done|].
    repeat split.
  - intros info e Hfuel Hh Hinfo Hraise. unfold graph_invoke.
    destruct (recursion_limit w) as [|fuel]; [lia|].
    rewrite run_step by done. cbn [step]. unfold _coordinator_node.
    rewrite (proj2 (Z.leb_gt _ _) Hh). rewrite Hinfo. cbn [mbind Outcome_bind].
    by rewrite Hraise.
  - intros Hz. unfold graph_invoke. by rewrite Hz.
Qed.

Lemma entry_points_degrade_witness :
  exists o,
    new_orchestrator Samples.two_plugin_manager (Samples.keyed_settings 10) = Ok o
    /\ invoke o Samples.failing_models Samples.first_turn
       = apology_state Samples.first_turn.
Proof.
  destruct (new_orchestrator Samples.two_plugin_manager (Samples.keyed_settings 10))
    as [o|e] eqn:Hnew; [|by vm_compute in Hnew].
  exists o. split; [reflexivity|].
  pose proof (entry_points_degrade o Samples.failing_models Samples.first_turn)
    as [Hcases [Hfault _]].
  destruct (get_plugin_routing_info (plugin_manager o)) as [info|e] eqn:Hinfo;
    [|vm_compute in Hnew; injection Hnew as <-; by vm_compute in Hinfo].
  rewrite (Hfault info _ ltac:(cbn; lia) ltac:(by vm_compute) eq_refl eq_refl) in Hcases.
  apply Hcases.
Defined.

End EngineClaims.

(** ** Orchestration engine: the configured hop ceiling *)

Section CeilingFacts.
Import Config LLM Plugins Core.

(** The constructor reads the default provider from the settings and
    stores them; another [max_hops] gives the same engine up to the
    stored settings. *)
Lemma new_orchestrator_with_max_hops (pm : PluginManager) (st : Settings) (h : Z) :
  new_orchestrator pm (with_max_hops st h)
  = match new_orchestrator pm st with
    | Ok o => Ok (with_settings o (with_max_hops st h))
    | Raise e => Raise e
    end.
Proof.
  unfold new_orchestrator, _create_coordinator_model, coordinator_model_name.
  cbn [with_max_hops default_llm_provider].
  destruct (get_coordinator_tools pm); [|done].
  destruct (create_base_model _ _) as [[base|e] f]; [|done].
  cbn [mbind Outcome_bind]. by destruct (_build_graph _).
Qed.

(** No node and no edge reads the stored settings. *)
Lemma run_with_settings (o : MultiAgentOrchestrator) (st : Settings) (w : Models)
    (fuel : nat) (n : Node) (s : AgentState) :
  run (with_settings o st) w fuel n s = run o w fuel n s.
Proof.
  revert n s. induction fuel as [|fuel IH]; intros n s; [by destruct n|].
  destruct (decide (n = END)) as [->|Hn]; [done|].
  rewrite !run_step by done.
  assert (step (with_settings o st) w n s = step o w n s) as -> by by destruct n.
  destruct (step o w n s) as [[n' s']|]; [|done]. by rewrite IH.
Qed.

(** Two engines built over one manager from settings that differ in
    [max_hops] run every turn alike. *)
Lemma hop_ceiling_ignores_settings (pm : PluginManager) (st : Settings) (h : Z)
    (o1 o2 : MultiAgentOrchestrator) (w : Models) (s : AgentState) :
  new_orchestrator pm st = Ok o1 ->
  new_orchestrator pm (with_max_hops st h) = Ok o2 ->
  max_hops (settings o2) = h
  /\ graph_invoke o2 w s = graph_invoke o1 w s
  /\ invoke o2 w s = invoke o1 w s.
Proof.
  intros H1 H2. rewrite new_orchestrator_with_max_hops, H1 in H2.
  injection H2 as <-. split; [done|].
  assert (graph_invoke (with_settings o1 (with_max_hops st h)) w s = graph_invoke o1 w s)
    as Hg by apply run_with_settings.
  split; [done|]. unfold invoke. by rewrite Hg.
Qed.

End CeilingFacts.

(** C4: the settings accept [max_hops = 3] (it lies within 1 to 50), the
    engine built from them stores it, and still a coordinator step that
    starts at 3 hops calls the model and the turn runs on to 12 hops:
    the guard compares with the constant [MAX_HOPS = 10]. *)
Theorem configured_hop_ceiling_not_enforced :
  exists o,
    Core.new_orchestrator Samples.two_plugin_manager (Samples.keyed_settings 3) = Ok o
    /\ Config.valid (Samples.keyed_settings 3) = true
    /\ Config.max_hops (Core.settings o) = 3%Z
    /\ Core._coordinator_node o Samples.looping_models
         (Samples.turn_state [Samples.user_message "What is the answer?"] 3)
       = Ok {| Core.u_messages := [Samples.tool_request "goto_search"];
               Core.u_hops := Some 4%Z;
               Core.u_current_agent := None; Core.u_agents_used := None;
               Core.u_plugin_context := None |}
    /\ Core.get_hops (Core.invoke o Samples.looping_models Samples.first_turn) = 12%Z.
Proof.
  eexists. split; [vm_compute; reflexivity|].
  split; [by vm_compute|]. split; [by vm_compute|].
  split; by vm_compute.
Qed.

(** ** Model access layer: further properties *)

Section FactoryMoreFacts.
Import Config LLM Plugins Factory.

(** X1: a call to [create_base_model] can return a model only when
    the key is cached (and then it returns the cached model and
    leaves the factory as it is, whatever else holds), or when the
    provider is registered, its package is installed and a key is
    found in the configuration or in the settings; and a call that
    raises leaves the factory as it was. *)
Theorem create_base_model_success_conditions (f : LLMModelFactory) (c : ModelConfig) :
  (forall h, (create_base_model f c).1 = Ok h ->
     get_cached_model f (get_cache_key c) = Some h
     \/ (get_cached_model f (get_cache_key c) = None
         /\ exists k, get_provider f (provider c) = Some k
                      /\ has_package (packages f) k = true
                      /\ (truthy_str (api_key c) = true
                          \/ truthy_str
                               (get_api_key_for_provider (settings f) (provider c))
                             = true)))
  /\ (forall h, get_cached_model f (get_cache_key c) = Some h ->
        create_base_model f c = (Ok h, f))
  /\ (forall e, (create_base_model f c).1 = Raise e -> (create_base_model f c).2 = f).
Proof.
  unfold create_base_model.
  destruct (get_cached_model f (get_cache_key c)) as [h0|]; cbn [fst snd].
  { split; [|split]; [|by intros h [= ->]|done]. intros h [= ->]. by left. }
  split; [|split; [done|]].
  - intros h Hok. right. split; [done|].
    destruct (get_provider f (provider c)) as [k|]; [|done]. exists k.
    split; [done|]. unfold _ensure_api_key, create_model in Hok.
    destruct (truthy_str (api_key c)) eqn:Hc.
    + destruct (has_package (packages f) k); [|done]. split; [done|]. by left.
    + destruct (truthy_str (get_api_key_for_provider (settings f) (provider c)))
        eqn:Hs; [|done].
      destruct (has_package (packages f) k); [|done]. split; [done|]. by right.
  - intros e. destruct (get_provider f (provider c)) as [k|]; [|done].
    destruct (_ensure_api_key f c) as [c'|]; [|done].
    unfold create_model. by destruct (has_package (packages f) k).
Qed.

Lemma string_colon (r : string) : ":" ++ r = String colon r.
Proof. reflexivity. Qed.

(** A string without a colon, followed by a colon, can be read back
    from the front of a longer string. *)
Lemma split_at_colon (a b r r' : string) :
  colon_free a = true -> colon_free b = true ->
  a ++ ":" ++ r = b ++ ":" ++ r' -> a = b /\ r = r'.
Proof.
  revert b. induction a as [|x a IH]; intros [|y b] Ha Hb H.
  - rewrite !string_colon in H. cbn in H. by injection H.
  - rewrite string_colon in H. cbn in H. injection H as <- _.
    cbn in Hb. by rewrite ?Ascii.eqb_refl in Hb.
  - rewrite string_colon in H. cbn in H. injection H as -> _.
    cbn in Ha. by rewrite ?Ascii.eqb_refl in Ha.
  - cbn in Ha, Hb. apply andb_true_iff in Ha as [_ Ha], Hb as [_ Hb].
    rewrite !string_app_cons in H. injection H as -> H.
    destruct (IH b Ha Hb H) as [-> ->]. done.
Qed.

(** X2: for provider and model names without a colon the cache key
    determines provider, model name and temperature: such
    configurations share a key, and with it a cached handle, only when
    they agree on all three. *)
Theorem get_cache_key_inj (c1 c2 : ModelConfig) :
  plain_config c1 = true -> plain_config c2 = true ->
  get_cache_key c1 = get_cache_key c2 ->
  provider c1 = provider c2 /\ model_name c1 = model_name c2
  /\ temperature c1 = temperature c2.
Proof.
  unfold plain_config, get_cache_key.
  intros [Hp1 Hm1]%andb_true_iff [Hp2 Hm2]%andb_true_iff H.
  apply split_at_colon in H as [Hp H]; [|done..].
  apply split_at_colon in H as [Hm H]; [|done..].
  repeat split; [done..|].
  destruct (temperature c1), (temperature c2). cbn in H. by subst.
Qed.

Lemma get_cache_key_inj_witness :
  provider (Samples.gpt4o 10 None) = provider (Samples.gpt4o 20 (Some "k")).
Proof.
  exact (proj1 (get_cache_key_inj (Samples.gpt4o 10 None) (Samples.gpt4o 20 (Some "k"))
                  eq_refl eq_refl eq_refl)).
Defined.

(** What every call keeps of the cache, whatever the names in the
    configurations: a cached handle has an identity below the
    construction counter, two keys never hold one identity, and there
    are at most as many entries as constructions. *)
Lemma factory_call_ids (f : LLMModelFactory) (call : FactoryCall) :
  let good f :=
    (forall k h, _cache f !! k = Some h -> (handle_id h < constructed f)%nat)
    /\ (forall k1 k2 h1 h2, _cache f !! k1 = Some h1 -> _cache f !! k2 = Some h2 ->
          handle_id h1 = handle_id h2 -> k1 = k2)
    /\ (size (_cache f) <= constructed f)%nat in
  good f -> good (factory_call f call).
Proof.
  intros good (Hlt & Hinj & Hsize). subst good.
  destruct call as [c|]; cbn [factory_call] in *.
  2:{ cbn. rewrite map_size_empty.
      repeat split; try (intros *; by rewrite lookup_empty). lia. }
  unfold create_base_model.
  destruct (get_cached_model f (get_cache_key c)) as [h0|] eqn:Hc; [done|].
  destruct (get_provider f (provider c)) as [k|] eqn:Hk; [|done].
  destruct (_ensure_api_key f c) as [c'|] eqn:He; [|done].
  unfold create_model. destruct (has_package (packages f) k); [|done].
  cbn [snd cache_model count_construction _cache constructed _providers].
  unfold get_cached_model in Hc. repeat split.
  - intros k0 h [[_ <-]|[_ H]]%lookup_insert_Some; cbn; [lia|].
    apply Hlt in H. lia.
  - intros k1 k2 h1 h2 [[<- <-]|[Hn1 H1]]%lookup_insert_Some
      [[<- <-]|[Hn2 H2]]%lookup_insert_Some Hid; cbn in Hid; try done.
    + apply Hlt in H2. lia.
    + apply Hlt in H1. lia.
    + by eapply Hinj.
  - rewrite map_size_insert_None by done. lia.
Qed.

Lemma after_factory_calls_ids (cs : list FactoryCall) (s : Settings) (p : Packages) :
  let f := after_factory_calls (new_factory s p) cs in
  (forall k h, _cache f !! k = Some h -> (handle_id h < constructed f)%nat)
  /\ (forall k1 k2 h1 h2, _cache f !! k1 = Some h1 -> _cache f !! k2 = Some h2 ->
        handle_id h1 = handle_id h2 -> k1 = k2)
  /\ (size (_cache f) <= constructed f)%nat.
Proof.
  induction cs as [|call cs IH] using rev_ind.
  - cbn. repeat split; try (intros *; by rewrite lookup_empty). done.
  - unfold after_factory_calls in *. rewrite foldl_app. cbn [foldl].
    by apply factory_call_ids.
Qed.

(** What holds of the cache of a factory, kept by every call: a cached
    handle has an identity below the construction counter, two keys
    never hold one identity, there are at most as many entries as
    constructions, and every entry was built from a plain
    configuration with that key by the provider registered for it. *)
Lemma factory_call_keeps (f : LLMModelFactory) (call : FactoryCall) :
  plain_call call = true ->
  let good f :=
    (forall k h, _cache f !! k = Some h -> (handle_id h < constructed f)%nat)
    /\ (forall k1 k2 h1 h2, _cache f !! k1 = Some h1 -> _cache f !! k2 = Some h2 ->
          handle_id h1 = handle_id h2 -> k1 = k2)
    /\ (size (_cache f) <= constructed f)%nat
    /\ (forall k h, _cache f !! k = Some h ->
          exists c, plain_config c = true /\ k = get_cache_key c
                    /\ handle_model h = model_name c
                    /\ handle_temperature h = temperature c
                    /\ _providers f !! provider c = Some (handle_kind h)) in
  good f -> good (factory_call f call) /\ _providers (factory_call f call) = _providers f.
Proof.
  intros Hplain good (Hlt & Hinj & Hsize & Hbuilt). subst good.
  destruct call as [c|]; cbn [factory_call plain_call] in *.
  2:{ split; [|done]. cbn. rewrite map_size_empty.
      repeat split; try (intros *; by rewrite lookup_empty). lia. }
  unfold create_base_model.
  destruct (get_cached_model f (get_cache_key c)) as [h0|] eqn:Hc; [done|].
  destruct (get_provider f (provider c)) as [k|] eqn:Hk; [|done].
  destruct (_ensure_api_key f c) as [c'|] eqn:He; [|done].
  assert (model_name c' = model_name c /\ temperature c' = temperature c) as [Hm Ht].
  { unfold _ensure_api_key in He. destruct (truthy_str (api_key c)); [by injection He as <-|].
    destruct (truthy_str _); [|done]. by injection He as <-. }
  unfold create_model. destruct (has_package (packages f) k); [|done].
  cbn [snd cache_model count_construction _cache constructed _providers].
  split; [|done]. unfold get_cached_model in Hc. repeat split.
  - intros k0 h [[_ <-]|[_ H]]%lookup_insert_Some; cbn; [lia|].
    apply Hlt in H. lia.
  - intros k1 k2 h1 h2 [[<- <-]|[Hn1 H1]]%lookup_insert_Some
      [[<- <-]|[Hn2 H2]]%lookup_insert_Some Hid; cbn in Hid; try done.
    + apply Hlt in H2. lia.
    + apply Hlt in H1. lia.
    + by eapply Hinj.
  - rewrite map_size_insert_None by done. lia.
  - intros k0 h [[<- <-]|[_ H]]%lookup_insert_Some; [|by apply Hbuilt].
    exists c. cbn. by rewrite Hm, Ht.
Qed.

Lemma after_factory_calls_keeps (cs : list FactoryCall) (s : Settings) (p : Packages) :
  forallb plain_call cs = true ->
  let f := after_factory_calls (new_factory s p) cs in
  (forall k h, _cache f !! k = Some h -> (handle_id h < constructed f)%nat)
  /\ (forall k1 k2 h1 h2, _cache f !! k1 = Some h1 -> _cache f !! k2 = Some h2 ->
        handle_id h1 = handle_id h2 -> k1 = k2)
  /\ (size (_cache f) <= constructed f)%nat
  /\ (forall k h, _cache f !! k = Some h ->
        exists c, plain_config c = true /\ k = get_cache_key c
                  /\ handle_model h = model_name c
                  /\ handle_temperature h = temperature c
                  /\ _providers f !! provider c = Some (handle_kind h))
  /\ _providers f = default_providers.
Proof.
  induction cs as [|call cs IH] using rev_ind; intros Hplain.
  - cbn. repeat split; try (intros *; by rewrite lookup_empty). done.
  - rewrite forallb_app in Hplain. apply andb_true_iff in Hplain as [Hcs Hcall].
    cbn in Hcall. rewrite andb_true_r in Hcall.
    destruct (IH Hcs) as (H1 & H2 & H3 & H4 & H5).
    destruct (factory_call_keeps _ call Hcall (conj H1 (conj H2 (conj H3 H4))))
      as [(G1 & G2 & G3 & G4) G5].
    unfold after_factory_calls in *. rewrite foldl_app. cbn [foldl].
    split; [exact G1|]. split; [exact G2|]. split; [exact G3|].
    split; [exact G4|]. by rewrite G5.
Qed.

End FactoryMoreFacts.

Section FactoryMoreClaims.
Import Config LLM Plugins Factory.

Lemma create_base_model_success_conditions_witness :
  (create_base_model Samples.keyless_factory (Samples.gpt4o 64 None)).2
  = Samples.keyless_factory.
Proof.
  exact (proj2 (proj2 (create_base_model_success_conditions Samples.keyless_factory
                         (Samples.gpt4o 64 None)))
           (mkExn "ValueError" "No API key found for provider: openai") eq_refl).
Defined.

(** X3: in a factory that has served any series of requests and cache
    clearings for configurations whose provider and model names hold
    no colon, the handle returned for such a configuration is a model
    of the requested name and temperature, built by the provider
    registered under the requested provider name. *)
Theorem returned_handle_matches_request (s : Settings) (p : Packages)
    (cs : list FactoryCall) (c : ModelConfig) (h : ModelHandle) :
  forallb plain_call cs = true ->
  plain_config c = true ->
  (create_base_model (after_factory_calls (new_factory s p) cs) c).1 = Ok h ->
  handle_model h = model_name c
  /\ handle_temperature h = temperature c
  /\ default_providers !! provider c = Some (handle_kind h).
Proof.
  intros Hcs Hc.
  destruct (after_factory_calls_keeps cs s p Hcs) as (_ & _ & _ & Hbuilt & Hprov).
  set (f := after_factory_calls (new_factory s p) cs) in *.
  unfold create_base_model, get_cached_model.
  destruct (_cache f !! get_cache_key c) as [h0|] eqn:Hhit; cbn [fst].
  - intros [= ->]. destruct (Hbuilt _ _ Hhit) as (c0 & Hp0 & Hk & Hm & Ht & Hkind).
    unfold plain_config in Hc, Hp0. unfold get_cache_key in Hk.
    apply andb_true_iff in Hc as [Hc1 Hc2], Hp0 as [Hp1 Hp2].
    apply split_at_colon in Hk as [Hprovider Hk]; [|done..].
    apply split_at_colon in Hk as [Hmodel Hk]; [|done..].
    rewrite Hm, Ht, Hprovider, Hmodel, <- Hprov. split; [done|]. split; [|done].
    destruct (temperature c), (temperature c0). cbn in Hk. by subst.
  - unfold get_provider. rewrite Hprov.
    destruct (default_providers !! provider c) as [k|]; [|done].
    unfold _ensure_api_key, create_model.
    destruct (truthy_str (api_key c)).
    + destruct (has_package (packages f) k); [|done]. cbn. by intros [= <-].
    + destruct (truthy_str _); [|done].
      destruct (has_package (packages f) k); [|done]. cbn. by intros [= <-].
Qed.

Lemma returned_handle_matches_request_witness :
  exists h,
    (create_base_model
       (after_factory_calls Samples.keyed_factory
          [CreateBaseModel (Samples.gpt4o 64 None); ClearCache;
           CreateBaseModel (Samples.claude 256)])
       (Samples.gpt4o 1000 None)).1 = Ok h
    /\ handle_model h = "gpt-4o".
Proof.
  eexists. split; [vm_compute; reflexivity|].
  exact (proj1 (returned_handle_matches_request (Samples.keyed_settings 10)
                  Samples.all_packages
                  [CreateBaseModel (Samples.gpt4o 64 None); ClearCache;
                   CreateBaseModel (Samples.claude 256)]
                  (Samples.gpt4o 1000 None) _ eq_refl eq_refl eq_refl)).
Defined.

(** X4: whatever a factory has served, the cache never holds more
    entries than models were constructed and no handle is cached under
    two keys; clearing the cache empties it, and the handle the next
    request gets is a new model, different from every handle that was
    cached before the clearing. *)
Theorem clear_cache_forces_new_model (s : Settings) (p : Packages)
    (cs : list FactoryCall) (c : ModelConfig) (h : ModelHandle) :
  let f := after_factory_calls (new_factory s p) cs in
  (get_cache_stats f <= constructed f)%nat
  /\ (forall k1 k2 h1 h2, _cache f !! k1 = Some h1 -> _cache f !! k2 = Some h2 ->
        handle_id h1 = handle_id h2 -> k1 = k2)
  /\ get_cache_stats (clear_cache f) = 0%nat
  /\ ((create_base_model (clear_cache f) c).1 = Ok h ->
      constructed (create_base_model (clear_cache f) c).2 = S (constructed f)
      /\ forall k h0, _cache f !! k = Some h0 -> handle_id h0 <> handle_id h).
Proof.
  intros f.
  destruct (after_factory_calls_ids cs s p) as (Hlt & Hinj & Hsize).
  fold f in Hlt, Hinj, Hsize.
  split; [exact Hsize|]. split; [exact Hinj|].
  split; [unfold get_cache_stats; cbn; by rewrite map_size_empty|].
  intros Hok.
  assert (get_cached_model (clear_cache f) (get_cache_key c) = None) as Hmiss
    by (unfold get_cached_model; cbn; by rewrite lookup_empty).
  destruct (create_base_model_miss_max_tokens _ _ _ Hmiss Hok) as [_ Hid].
  split.
  - revert Hok. unfold create_base_model. rewrite Hmiss.
    destruct (get_provider _ _) as [k|]; [|done].
    destruct (_ensure_api_key _ c); [|done].
    by destruct (create_model _ k _).
  - intros k h0 Hk%Hlt. rewrite Hid. cbn. lia.
Qed.

Lemma clear_cache_forces_new_model_witness :
  exists h,
    (create_base_model
       (clear_cache (after_factory_calls Samples.keyed_factory
                       [CreateBaseModel (Samples.gpt4o 64 None)]))
       (Samples.gpt4o 64 None)).1 = Ok h
    /\ constructed
         (create_base_model
            (clear_cache (after_factory_calls Samples.keyed_factory
                            [CreateBaseModel (Samples.gpt4o 64 None)]))
            (Samples.gpt4o 64 None)).2
       = 2%nat.
Proof.
  eexists.
  match goal with |- ?R /\ _ => assert R as Hok by (vm_compute; reflexivity) end.
  split; [exact Hok|].
  exact (proj1 (proj2 (proj2 (proj2
           (clear_cache_forces_new_model (Samples.keyed_settings 10)
              Samples.all_packages [CreateBaseModel (Samples.gpt4o 64 None)]
              (Samples.gpt4o 64 None) _))) Hok)).
Defined.

(** X5: when [create_agent_model] has bound tools for one agent, a
    later call with the same configuration (or again with none) binds
    the other agent's tools to the very same base handle, constructs
    nothing, and each bound model carries exactly the tools of its own
    call. *)
Theorem create_agent_model_shares_base (f : LLMModelFactory) (n1 n2 : string)
    (t1 t2 : list Tool) (config : option ModelConfig) (b1 : BoundModel) :
  (create_agent_model f n1 t1 config).1 = Ok b1 ->
  let f1 := (create_agent_model f n1 t1 config).2 in
  bound_tools b1 = t1
  /\ create_agent_model f1 n2 t2 config
     = (Ok {| bound_base := bound_base b1; bound_tools := t2 |}, f1).
Proof.
  unfold create_agent_model.
  assert (_create_default_config (create_base_model f
            (default (_create_default_config f) config)).2
          = _create_default_config f) as Hdef.
  { assert (forall g g', settings g' = settings g ->
              _create_default_config g' = _create_default_config g) as Hsame
      by (intros g g' Hs; unfold _create_default_config; by rewrite Hs).
    apply Hsame. apply create_base_model_environment. }
  set (c := default (_create_default_config f) config) in *.
  pose proof (create_base_model_caches f c) as Hcached.
  pose proof (create_base_model_environment f c) as (_ & _ & Hprov).
  destruct (create_base_model f c) as [[base|e] f1] eqn:Hcreate; [|done].
  cbn [fst snd] in *. unfold get_provider. rewrite Hprov.
  destruct (_providers f !! provider c) as [k|] eqn:Hk; [|done].
  cbn [fst snd]. intros [= <-]. split; [done|].
  assert (default (_create_default_config f1) config = c) as ->.
  { subst c. destruct config; [done|]. cbn. exact Hdef. }
  rewrite (create_base_model_hit f1 c base (Hcached _ eq_refl)).
  by rewrite Hprov, Hk.
Qed.

Lemma create_agent_model_shares_base_witness :
  exists b1,
    (create_agent_model Samples.keyed_factory "search" [MoreSamples.lookup_tool] None).1
    = Ok b1
    /\ bound_tools b1 = [MoreSamples.lookup_tool].
Proof.
  eexists. split; [vm_compute; reflexivity|].
  exact (proj1 (create_agent_model_shares_base Samples.keyed_factory "search" "news"
                  [MoreSamples.lookup_tool] [MoreSamples.fetch_tool] None _ eq_refl)).
Defined.

(** X6: the default configuration picks its model name by asking
    whether the default provider is [openai]; for every other provider
    it names a Claude model. A new factory whose default provider is
    [google] therefore asks the Google provider for
    [claude-3-opus-20240229] when an agent model is created without a
    configuration. *)
Theorem default_config_for_google (s : Settings) (p : Packages) (nm : string)
    (ts : list Tool) (b : BoundModel) :
  default_llm_provider s = "google" ->
  (create_agent_model (new_factory s p) nm ts None).1 = Ok b ->
  handle_kind (bound_base b) = GoogleGenAIProvider
  /\ handle_model (bound_base b) = "claude-3-opus-20240229"
  /\ handle_api_key (bound_base b) = google_api_key s.
Proof.
  intros Hg.
  assert (_create_default_config (new_factory s p)
          = {| provider := "google"; model_name := "claude-3-opus-20240229";
               temperature := mkFloat "0.8"; max_tokens := 1024;
               api_key := google_api_key s |}) as Hcfg.
  { unfold _create_default_config. cbn [settings new_factory]. by rewrite Hg. }
  unfold create_agent_model. cbn [default]. rewrite Hcfg.
  unfold create_base_model, get_cached_model. cbn [_cache new_factory].
  rewrite lookup_empty. unfold get_provider. cbn [_providers new_factory provider].
  assert (default_providers !! "google" = Some GoogleGenAIProvider) as -> by done.
  unfold _ensure_api_key, create_model.
  cbn [api_key settings new_factory provider model_name packages].
  destruct (truthy_str (google_api_key s)) eqn:Hkey.
  - destruct (has_package p GoogleGenAIProvider); [|done].
    cbn. by intros [= <-].
  - change (get_api_key_for_provider s "google") with (google_api_key s).
    by rewrite Hkey.
Qed.

Lemma default_config_for_google_witness :
  exists b,
    (create_agent_model MoreSamples.google_factory "search"
       [MoreSamples.lookup_tool] None).1 = Ok b
    /\ handle_model (bound_base b) = "claude-3-opus-20240229".
Proof.
  eexists. split; [vm_compute; reflexivity|].
  exact (proj1 (proj2 (default_config_for_google MoreSamples.google_settings
                         Samples.all_packages "search" [MoreSamples.lookup_tool] _
                         eq_refl eq_refl))).
Defined.

Lemma blank_truthy (k : string) : blank k = false -> truthy_str (Some k) = true.
Proof. by destruct k. Qed.

(** X7: credentials that [validate_provider_credentials] accepts are
    enough for the factory: the provider is one of the five names the
    registry starts with, and [_ensure_api_key] finds a key for every
    configuration of that provider. *)
Theorem validated_credentials_suffice (f : LLMModelFactory) (c : ModelConfig) :
  validate_provider_credentials (settings f) (provider c) = true ->
  is_Some (default_providers !! provider c)
  /\ is_ok (_ensure_api_key f c) = true.
Proof.
  unfold validate_provider_credentials, _ensure_api_key.
  destruct (get_api_key_for_provider (settings f) (provider c)) as [k|] eqn:Hk; [|done].
  intros Hb%negb_true_iff. split.
  - unfold get_api_key_for_provider in Hk.
    destruct (String.eqb_spec (provider c) "openai") as [->|_]; [by eexists|].
    destruct (String.eqb_spec (provider c) "anthropic") as [->|_]; [by eexists|].
    destruct (String.eqb_spec (provider c) "claude") as [->|_]; [by eexists|].
    destruct (String.eqb_spec (provider c) "google") as [->|_]; [by eexists|].
    destruct (String.eqb_spec (provider c) "gemini") as [->|_]; [by eexists|].
    done.
  - destruct (truthy_str (api_key c)); [done|]. by rewrite blank_truthy.
Qed.

Lemma validated_credentials_suffice_witness :
  is_ok (_ensure_api_key Samples.keyed_factory (Samples.gpt4o 64 None)) = true.
Proof.
  exact (proj2 (validated_credentials_suffice Samples.keyed_factory
                  (Samples.gpt4o 64 None) eq_refl)).
Defined.

End FactoryMoreClaims.

(** ** Plugin registry: further properties *)

Section RegistryMoreFacts.
Import Config LLM Plugins Registry.

Lemma mapM_Ok {A B : Type} (f : A -> Outcome B) (g : A -> B) (l : list A) :
  (forall x, x ∈ l -> f x = Ok (g x)) -> mapM f l = Ok (g <$> l).
Proof.
  induction l as [|x l IH]; intros H; [done|].
  cbn [mapM]. rewrite (H x) by left. cbn [mbind Outcome_bind].
  rewrite IH by (intros y Hy; apply H; by right). done.
Qed.

Lemma mapM_is_ok {A B : Type} (f : A -> Outcome B) (l : list A) :
  (forall x, x ∈ l -> is_ok (f x) = true) -> is_ok (mapM f l) = true.
Proof.
  induction l as [|x l IH]; intros H; [done|].
  cbn [mapM]. pose proof (H x ltac:(left)) as Hx.
  destruct (f x); [|done]. cbn [mbind Outcome_bind].
  specialize (IH (fun y Hy => H y ltac:(by right))).
  by destruct (mapM f l).
Qed.

Lemma registry_consistent_register (pm : PluginManager) (f : LLMModelFactory)
    (md : PluginMetadata) (b : PluginBundle) :
  registry_consistent pm -> well_formed_bundle (name md) b -> metadata b = Some md ->
  registry_consistent (register (with_factory pm f) md b).
Proof.
  intros (Hb & Hd & Hh) Hwf Hmd. split; [|split].
  - intros k b0. cbn [register plugin_bundles plugin_metadata with_factory].
    intros [[<- <-]|[Hne Hk]]%lookup_insert_Some.
    + split; [done|]. rewrite lookup_insert_eq. cbn. by rewrite Hmd.
    + rewrite lookup_insert_ne by done. by apply Hb.
  - cbn. by rewrite !dom_insert_L, Hd.
  - cbn. rewrite dom_insert_L. set_solver.
Qed.

Lemma registry_consistent_quiet (pm : PluginManager) (f : LLMModelFactory)
    (h fl : gset string) :
  registry_consistent pm -> h = healthy_plugins pm ->
  registry_consistent (with_health (with_factory pm f) h fl)
  /\ registry_consistent (with_factory pm f).
Proof. intros (Hb & Hd & Hh) ->. by split. Qed.

Lemma registry_consistent_load (pm : PluginManager) (src : PluginSource) :
  registry_consistent pm -> registry_consistent (load_plugin_bundle pm src).2.
Proof.
  intros Hc.
  assert (registry_consistent
            (with_health pm (healthy_plugins pm) (failed_plugins pm ∪ {[dir_name src]})))
    as Hfail.
  { destruct Hc as (Hb & Hd & Hh). by split. }
  unfold load_plugin_bundle, load_plugin_bundle_try.
  destruct (validator pm && _); [done|].
  destruct (_load_plugin_module src) as [[m|]|]; [|done|exact Hfail].
  destruct (get_metadata m) as [md|]; [|exact Hfail].
  destruct (create_agent m) as [ag|]; [|exact Hfail].
  destruct (create_base_model _ _) as [[base|] f].
  2:{ by apply (registry_consistent_quiet pm f). }
  destruct (get_tools ag) as [ts|] eqn:Hts.
  2:{ by apply (registry_consistent_quiet pm f). }
  unfold bind_model. rewrite Hts. cbn [mbind Outcome_bind].
  destruct (bind_tools_fault ag).
  { by apply (registry_consistent_quiet pm f). }
  unfold initialize. cbn [initialize_fault set_bound_model get_tools].
  destruct (initialize_fault ag).
  { by apply (registry_consistent_quiet pm f). }
  rewrite Hts. cbn [mbind Outcome_bind snd].
  apply registry_consistent_register; [done| |done].
  by eexists md, _, _, ts.
Qed.

Lemma registry_consistent_load_all (srcs : list PluginSource) (pm : PluginManager) :
  registry_consistent pm -> registry_consistent (load_all_plugin_bundles pm srcs).2.
Proof.
  revert pm. induction srcs as [|src srcs IH]; intros pm Hc; [done|].
  cbn [load_all_plugin_bundles].
  pose proof (registry_consistent_load pm src Hc) as Hc1.
  destruct (load_plugin_bundle pm src) as [ok pm1]. cbn [snd] in Hc1.
  specialize (IH pm1 Hc1). by destruct (load_all_plugin_bundles pm1 srcs).
Qed.

Lemma registry_consistent_health (pm : PluginManager) :
  registry_consistent pm -> registry_consistent (perform_health_checks pm).2.
Proof.
  intros (Hb & Hd & Hh).
  pose proof (perform_health_checks_bundles pm) as Hsame.
  assert (plugin_metadata (perform_health_checks pm).2 = plugin_metadata pm) as Hmeta.
  { unfold perform_health_checks. by destruct (foldl _ _ _) as [r [h f]]. }
  split; [|split].
  - intros k b. rewrite Hsame, Hmeta. apply Hb.
  - by rewrite Hsame, Hmeta.
  - intros n Hn. rewrite Hsame.
    destruct (perform_health_checks_spec pm n) as (_ & Hhealthy & _).
    apply Hhealthy in Hn. unfold healthy_after in Hn.
    destruct (plugin_bundles pm !! n) as [b|] eqn:Hk; [by apply elem_of_dom|].
    by apply Hh.
Qed.

Lemma mapM_Forall2 {A B : Type} (f : A -> Outcome B) (l : list A) (r : list B) :
  mapM f l = Ok r -> Forall2 (fun x y => f x = Ok y) l r.
Proof.
  revert r. induction l as [|x l IH]; intros r; cbn [mapM].
  - intros [= <-]. constructor.
  - destruct (f x) as [y|] eqn:Hx; [|done]. cbn [mbind Outcome_bind].
    destruct (mapM f l) as [r'|]; [|done]. cbn [mbind Outcome_bind].
    intros [= <-]. constructor; [done|]. by apply IH.
Qed.

(** In the graph of a consistent registry every loaded plugin has its
    agent, with a model bound. *)
Lemma build_graph_agents (pm : PluginManager) (g : Core.Graph) (p : string) :
  registry_consistent pm -> Core._build_graph pm = Ok g ->
  is_Some (plugin_bundles pm !! p) ->
  exists ag, Core.graph_agents g !! p = Some ag /\ is_Some (_bound_model ag).
Proof.
  intros (Hb & _ & _). unfold Core._build_graph.
  destruct (mapM _ _) as [agents|] eqn:Hm; [|done]. cbn [mbind Outcome_bind].
  intros [= <-] [b Hp]. cbn [Core.graph_agents].
  apply mapM_Forall2 in Hm.
  assert (agents.*1 = (map_to_list (plugin_bundles pm)).*1
          /\ forall k b, (k, b) ∈ map_to_list (plugin_bundles pm) ->
               exists ag, agent b = Some ag /\ (k, ag) ∈ agents) as [Hkeys Hin].
  { assert (forall kb, kb ∈ map_to_list (plugin_bundles pm) ->
              well_formed_bundle kb.1 kb.2) as Hwf.
    { intros [k b0] Hk%elem_of_map_to_list. by apply Hb. }
    induction Hm as [|[k b0] [k' ag'] l r Hx Hm IH]; [split; [done|]; by intros ? ? ?%elem_of_nil|].
    destruct (Hwf (k, b0) ltac:(left)) as (md & ag & ? & ? & Hmd & Hname & Hag & _).
    cbn in Hmd, Hname, Hag. rewrite Hmd, Hag in Hx. injection Hx as <- <-.
    destruct IH as [IH1 IH2]; [intros kb Hkb; apply Hwf; by right|].
    split; [cbn; by rewrite IH1, Hname|].
    intros k1 b1 [[= -> ->]|Hr]%elem_of_cons.
    - exists ag. split; [done|]. rewrite Hname. left.
    - destruct (IH2 _ _ Hr) as (ag1 & ? & ?). exists ag1. split; [done|]. by right. }
  destruct (Hin p b) as (ag & Hag & Hmem); [by apply elem_of_map_to_list|].
  exists ag. split.
  - apply elem_of_list_to_map_1; [|done]. rewrite Hkeys. apply NoDup_fst_map_to_list.
  - destruct (Hb _ _ Hp) as [(md & ag0 & bm & ? & _ & _ & Hag0 & Hbm & _) _].
    rewrite Hag in Hag0. injection Hag0 as ->. by eexists.
Qed.

Lemma new_manager_consistent (f : LLMModelFactory) (has_validator : bool) :
  registry_consistent (new_manager f has_validator).
Proof.
  split; [|split]; cbn; [intros k b; by rewrite lookup_empty | done | done].
Qed.

End RegistryMoreFacts.

Section RegistryMoreClaims.
Import Config LLM Plugins Registry Core.

(** X8: whatever series of loads and health checks a new manager has
    gone through, its registry is consistent: every bundle is stored
    under the name of its own metadata, the metadata table holds that
    metadata under the same name, the agent of the bundle is
    initialized and holds the bound model of the bundle, and every
    healthy name is the name of a loaded bundle. *)
Theorem registry_stays_consistent (f : LLMModelFactory) (has_validator : bool)
    (cs : list RegistryCall) :
  registry_consistent (after_registry_calls (new_manager f has_validator) cs).
Proof.
  induction cs as [|c cs IH] using rev_ind.
  - apply new_manager_consistent.
  - unfold after_registry_calls in *. rewrite foldl_app. cbn [foldl].
    destruct c as [d|]; cbn [registry_call].
    + by apply registry_consistent_load_all.
    + by apply registry_consistent_health.
Qed.

(** X9: for a consistent registry the routing descriptions can
    always be built. Whenever the coordinator's routing tools can be
    built, they are one [goto_<name>] tool per loaded plugin,
    returning the plugin's name, in the order of
    [get_available_plugins], followed by the [finalize] tool returning
    [final]. Whenever the engine's graph can be built, it holds the
    agent of every loaded plugin, with a model bound. *)
Theorem coordinator_tools_of_registry (pm : PluginManager) :
  registry_consistent pm ->
  is_ok (get_plugin_routing_info pm) = true
  /\ (forall tools, get_coordinator_tools pm = Ok tools ->
        exists gotos,
          tools = (gotos ++ [finalize])%list
          /\ rt_name <$> gotos = (fun p => "goto_" ++ p) <$> get_available_plugins pm
          /\ rt_returns <$> gotos = get_available_plugins pm
          /\ length tools = S (size (plugin_bundles pm)))
  /\ (forall g p, _build_graph pm = Ok g -> is_Some (plugin_bundles pm !! p) ->
        exists ag, graph_agents g !! p = Some ag /\ is_Some (_bound_model ag)).
Proof.
  intros Hc. pose proof Hc as (Hb & Hd & _).
  split; [|split].
  - unfold get_plugin_routing_info. apply mapM_is_ok.
    intros [k b] Hk%elem_of_map_to_list.
    destruct (Hb _ _ Hk) as [(md & ? & ? & ? & -> & _) _]. done.
  - intros tools. unfold get_coordinator_tools.
    destruct (mapM _ (get_available_plugins pm)) as [gotos|] eqn:Hm; [|done].
    cbn [mbind Outcome_bind]. intros [= <-]. exists gotos. split; [done|].
    apply mapM_Forall2 in Hm.
    assert (Forall2 (fun p t => rt_name t = "goto_" ++ p /\ rt_returns t = p)
              (get_available_plugins pm) gotos) as Hshape.
    { eapply Forall2_impl; [exact Hm|]. intros p t. cbn.
      destruct (plugin_metadata pm !! p); [|done]. by intros [= <-]. }
    assert (length gotos = length (get_available_plugins pm)) as Hlen
      by (symmetry; by eapply Forall2_length).
    split; [|split].
    + clear Hlen Hm. induction Hshape as [|p t ps ts [Hn _] _ IH]; [done|].
      cbn. by rewrite Hn, IH.
    + clear Hlen Hm. induction Hshape as [|p t ps ts [_ Hr] _ IH]; [done|].
      cbn. by rewrite Hr, IH.
    + rewrite length_app, Hlen. unfold get_available_plugins.
      rewrite length_fmap, length_map_to_list. cbn. lia.
  - intros g p Hg Hp. by apply (build_graph_agents pm g p).
Qed.

Lemma coordinator_tools_of_registry_witness :
  is_ok (get_plugin_routing_info Samples.two_plugin_manager) = true.
Proof.
  exact (proj1 (coordinator_tools_of_registry Samples.two_plugin_manager
    (registry_consistent_load_all
       [Samples.good_source "search"; Samples.good_source "final"] _
       (new_manager_consistent Samples.keyed_factory true)))).
Defined.

(** X10: in an engine built over a consistent registry, the token
    returned by the [goto] tool of a loaded plugin (its name, when the
    name is not [final]) leads to the agent node of that plugin, that
    node exists in the graph and its agent has a model bound; the token
    of the [finalize] tool leads to the finalizer. *)
Theorem goto_token_reaches_agent (pm : PluginManager) (st : Settings)
    (o : MultiAgentOrchestrator) (p description : string) (s : AgentState)
    (m : BaseMessage) :
  registry_consistent pm ->
  new_orchestrator pm st = Ok o ->
  is_Some (plugin_bundles pm !! p) ->
  last (messages s) = Some m ->
  (content m = rt_returns (make_goto_tool p description) -> p <> "final" ->
     control_tools_edge o s = Ok (PluginAgent p)
     /\ exists ag, graph_agents (graph o) !! p = Some ag /\ is_Some (_bound_model ag))
  /\ (content m = rt_returns finalize -> control_tools_edge o s = Ok Finalizer).
Proof.
  intros Hc Hnew Hp Hlast.
  rewrite (control_tools_edge_destination pm st o s Hnew), Hlast.
  cbn [fmap option_fmap option_map routing_token_destination rt_returns
         make_goto_tool finalize].
  split.
  - intros -> Hne. rewrite decide_False by done.
    rewrite decide_True by by apply elem_of_dom. split; [done|].
    revert Hnew. unfold new_orchestrator, _create_coordinator_model.
    destruct (get_coordinator_tools pm); [|done].
    destruct (create_base_model _ _) as [[base|] f]; [|done].
    cbn [mbind Outcome_bind].
    destruct (_build_graph (with_factory pm f)) as [g|] eqn:Hg; [|done].
    cbn [mbind Outcome_bind]. intros [= <-]. cbn [graph].
    apply (build_graph_agents (with_factory pm f) g p); [|done|done].
    destruct Hc as (? & ? & ?). by split.
  - intros ->. by rewrite decide_True.
Qed.

Lemma goto_token_reaches_agent_witness :
  exists o,
    new_orchestrator Samples.two_plugin_manager (Samples.keyed_settings 10) = Ok o
    /\ control_tools_edge o
         (Samples.turn_state [Samples.user_message "hi"; Samples.tool_result "search"] 1)
       = Ok (PluginAgent "search").
Proof.
  eexists. split; [vm_compute; reflexivity|].
  refine (proj1 (proj1 (goto_token_reaches_agent Samples.two_plugin_manager
            (Samples.keyed_settings 10) _ "search" "Looks things up"
            (Samples.turn_state [Samples.user_message "hi"; Samples.tool_result "search"] 1)
            (Samples.tool_result "search")
            (registry_consistent_load_all
               [Samples.good_source "search"; Samples.good_source "final"] _
               (new_manager_consistent Samples.keyed_factory true))
            _ _ eq_refl) eq_refl _)).
  - vm_compute. reflexivity.
  - vm_compute. by eexists.
  - discriminate.
Defined.

(** X11: a plugin that has just been loaded is in the healthy set
    whatever tools it has; the health check that follows keeps it
    there exactly when its tool list is not empty, and otherwise moves
    it to the failed set. The bundle stays loaded either way. *)
Theorem health_after_load (pm : PluginManager) (src : PluginSource)
    (md : PluginMetadata) (m : PluginModule) (ag : BasePluginAgent) (ts : list Tool) :
  self_sufficient pm src md ->
  module_load src = Loaded m -> create_agent m = Ok ag -> get_tools ag = Ok ts ->
  let loaded := (load_plugin_bundle pm src).2 in
  let checked := perform_health_checks loaded in
  name md ∈ healthy_plugins loaded
  /\ checked.1 !! name md = Some (negb (bool_decide (ts = [])))
  /\ (name md ∈ healthy_plugins checked.2 <-> ts <> [])
  /\ (name md ∈ failed_plugins checked.2 <-> ts = [])
  /\ is_Some (plugin_bundles checked.2 !! name md).
Proof.
  intros Hself Hm Hag Hts. cbn zeta.
  destruct (load_plugin_bundle_self_sufficient pm src md Hself) as (_ & Hreg & Hhealthy).
  split; [done|].
  assert (exists b, plugin_bundles (load_plugin_bundle pm src).2 !! name md = Some b
                    /\ is_healthy b = Ok (negb (bool_decide (ts = [])))) as (b & Hb & Hok).
  { destruct Hself as (Hval & m' & ag' & ts' & k & Hm' & Hmd & Hag' & Hts' & Hbf & Hif & Hp & Hpk & Hs).
    rewrite Hm in Hm'. injection Hm' as <-. rewrite Hag in Hag'. injection Hag' as <-.
    rewrite Hts in Hts'. injection Hts' as <-.
    unfold load_plugin_bundle, load_plugin_bundle_try.
    assert (validator pm && negb (bool_decide (validation_errors src = [])) = false) as ->.
    { destruct Hval as [->| ->]; [done|]. by rewrite andb_false_r. }
    unfold _load_plugin_module. rewrite Hm, Hmd, Hag.
    destruct (create_base_model_succeeds (llm_factory pm) (_create_model_config md) k
                eq_refl Hp Hpk Hs) as [h Hh].
    destruct (create_base_model _ _) as [r f]. cbn [fst] in Hh. subst r.
    rewrite Hts. unfold bind_model. rewrite Hts. cbn [mbind Outcome_bind].
    rewrite Hbf. unfold initialize. cbn [initialize_fault set_bound_model get_tools].
    rewrite Hif, Hts. cbn [mbind Outcome_bind snd register plugin_bundles].
    eexists. split; [by rewrite lookup_insert_eq|].
    unfold is_healthy. cbn. by destruct ts. }
  destruct (perform_health_checks_spec (load_plugin_bundle pm src).2 (name md))
    as (Hr & Hh & Hf).
  rewrite Hb in Hr, Hh, Hf. cbn [healthy_after failed_after] in Hh, Hf.
  rewrite Hok in Hh, Hf.
  pose proof (is_healthy_criterion b) as Hcrit. rewrite Hok in Hcrit.
  split; [rewrite Hr; cbn; by rewrite <- Hcrit|].
  rewrite Hh, Hf, perform_health_checks_bundles.
  split; [|split; [|by eexists]].
  - destruct ts; cbn; [|done]. split; [done|]. intros Hne. by destruct Hne.
  - destruct ts; cbn; done.
Qed.

Lemma health_after_load_witness :
  let checked :=
    perform_health_checks
      (load_plugin_bundle Samples.fresh_manager (MoreSamples.toolless_source "idle")).2 in
  "idle" ∈ failed_plugins checked.2.
Proof.
  cbn zeta.
  refine (proj2 (proj1 (proj2 (proj2 (proj2 (health_after_load Samples.fresh_manager
            (MoreSamples.toolless_source "idle") (Samples.sample_metadata "idle")
            _ _ [] _ eq_refl eq_refl eq_refl))))) eq_refl).
  split; [by right|]. by eexists _, _, _, OpenAIProvider.
Defined.

(** X12: a health check changes neither set at a name that is not the
    name of a loaded bundle (so a directory that failed to load stays
    failed), and in a consistent registry it leaves every loaded name
    in exactly one of the two sets. *)
Theorem health_check_partitions_loaded (pm : PluginManager) (n : string) :
  let checked := (perform_health_checks pm).2 in
  (plugin_bundles pm !! n = None ->
     (n ∈ healthy_plugins checked <-> n ∈ healthy_plugins pm)
     /\ (n ∈ failed_plugins checked <-> n ∈ failed_plugins pm))
  /\ (registry_consistent pm -> is_Some (plugin_bundles pm !! n) ->
      (n ∈ healthy_plugins checked <-> n ∉ failed_plugins checked)).
Proof.
  cbn zeta.
  destruct (perform_health_checks_spec pm n) as (_ & Hh & Hf). split.
  - intros Hnone. rewrite Hnone in Hh, Hf. by split.
  - intros (Hb & _ & _) [b Hk]. rewrite Hk in Hh, Hf.
    cbn [healthy_after failed_after] in Hh, Hf. rewrite Hh, Hf.
    destruct (Hb _ _ Hk) as [(md & ag & bm & ts & Hmd & _ & Hag & _ & _ & Hbm & _ & Hts & _) _].
    assert (is_healthy b = Ok (0 <? length ts)%nat) as ->.
    { unfold is_healthy. rewrite Hag, Hbm, Hts, Hmd. by destruct ts. }
    destruct (0 <? length ts)%nat; tauto.
Qed.

Lemma health_check_partitions_loaded_witness :
  "broken_meta"
  ∈ failed_plugins
      (perform_health_checks
         (load_plugin_bundle Samples.fresh_manager Samples.metadata_raising_source).2).2.
Proof.
  apply (proj1 (health_check_partitions_loaded
                  (load_plugin_bundle Samples.fresh_manager
                     Samples.metadata_raising_source).2 "broken_meta")).
  - reflexivity.
  - cbn. apply elem_of_union_r. by apply elem_of_singleton.
Defined.

(** X13: loading is idempotent for a plugin that loads: loading the
    same directory again (a reload) returns [True] once more and
    leaves the manager exactly as the first load left it; no model is
    constructed the second time. *)
Theorem reload_is_idempotent (pm : PluginManager) (src : PluginSource)
    (md : PluginMetadata) :
  self_sufficient pm src md ->
  let once := load_plugin_bundle pm src in
  load_plugin_bundle once.2 src = (true, once.2)
  /\ constructed (llm_factory (load_plugin_bundle once.2 src).2)
     = constructed (llm_factory once.2).
Proof.
  intros (Hval & m & ag & ts & k & Hm & Hmd & Hag & Hts & Hbf & Hif & Hp & Hpk & Hs).
  cbn zeta.
  assert (forall pm0, validator pm0 = validator pm ->
            validator pm0 && negb (bool_decide (validation_errors src = [])) = false)
    as Hv.
  { intros pm0 ->. destruct Hval as [->| ->]; [done|]. by rewrite andb_false_r. }
  assert (forall pm0 h f,
            validator pm0 = validator pm ->
            create_base_model (llm_factory pm0) (_create_model_config md) = (Ok h, f) ->
            load_plugin_bundle pm0 src
            = (true, register (with_factory pm0 f) md
                       {| metadata := Some md;
                          agent := Some
                            {| agent_metadata := agent_metadata ag;
                               get_tools := get_tools ag;
                               get_system_prompt := get_system_prompt ag;
                               bind_tools_fault := bind_tools_fault ag;
                               initialize_fault := initialize_fault ag;
                               _tools := Some ts;
                               _bound_model := Some {| bound_base := h; bound_tools := ts |};
                               _initialized := true |};
                          bound_model := Some {| bound_base := h; bound_tools := ts |};
                          tools := Some ts |})) as Hload.
  { intros pm0 h f Hv0 Hcreate. unfold load_plugin_bundle, load_plugin_bundle_try.
    rewrite (Hv pm0 Hv0). unfold _load_plugin_module. rewrite Hm, Hmd, Hag, Hcreate.
    rewrite Hts. unfold bind_model. rewrite Hts. cbn [mbind Outcome_bind].
    rewrite Hbf. unfold initialize. cbn [initialize_fault set_bound_model get_tools].
    rewrite Hif, Hts. cbn [mbind Outcome_bind].
    cbn [set_bound_model agent_metadata get_system_prompt bind_tools_fault _bound_model].
    by rewrite ?Hbf. }
  destruct (create_base_model_succeeds (llm_factory pm) (_create_model_config md) k
              eq_refl Hp Hpk Hs) as [h Hh].
  pose proof (create_base_model_caches (llm_factory pm) (_create_model_config md) h Hh)
    as Hcached.
  destruct (create_base_model (llm_factory pm) (_create_model_config md)) as [r f] eqn:Hc.
  cbn [fst snd] in Hh, Hcached. subst r.
  rewrite (Hload pm h f eq_refl Hc). cbn [snd].
  assert (load_plugin_bundle
            (register (with_factory pm f) md
               {| metadata := Some md;
                  agent := Some
                    {| agent_metadata := agent_metadata ag;
                       get_tools := get_tools ag;
                       get_system_prompt := get_system_prompt ag;
                       bind_tools_fault := bind_tools_fault ag;
                       initialize_fault := initialize_fault ag;
                       _tools := Some ts;
                       _bound_model := Some {| bound_base := h; bound_tools := ts |};
                       _initialized := true |};
                  bound_model := Some {| bound_base := h; bound_tools := ts |};
                  tools := Some ts |}) src
          = (true, register (with_factory pm f) md
               {| metadata := Some md;
                  agent := Some
                    {| agent_metadata := agent_metadata ag;
                       get_tools := get_tools ag;
                       get_system_prompt := get_system_prompt ag;
                       bind_tools_fault := bind_tools_fault ag;
                       initialize_fault := initialize_fault ag;
                       _tools := Some ts;
                       _bound_model := Some {| bound_base := h; bound_tools := ts |};
                       _initialized := true |};
                  bound_model := Some {| bound_base := h; bound_tools := ts |};
                  tools := Some ts |})) as ->.
  { erewrite Hload; [|done|].
    2:{ cbn [register with_factory llm_factory].
        by apply create_base_model_hit. }
    f_equal. unfold register, with_factory. cbn.
    f_equal; [by rewrite insert_insert_eq | by rewrite insert_insert_eq | set_solver]. }
  done.
Qed.

Lemma reload_is_idempotent_witness :
  let once := load_plugin_bundle Samples.fresh_manager (Samples.good_source "search") in
  load_plugin_bundle once.2 (Samples.good_source "search") = (true, once.2).
Proof.
  refine (proj1 (reload_is_idempotent Samples.fresh_manager (Samples.good_source "search")
                   (Samples.sample_metadata "search") _)).
  split; [by right|]. by eexists _, _, _, OpenAIProvider.
Defined.

Lemma load_plugin_bundle_size (pm : PluginManager) (src : PluginSource) :
  (size (plugin_bundles (load_plugin_bundle pm src).2)
   <= size (plugin_bundles pm) + if (load_plugin_bundle pm src).1 then 1 else 0)%nat.
Proof.
  unfold load_plugin_bundle.
  destruct (load_plugin_bundle_try_cases pm src)
    as [(f & _ & Hpm & Hno)|(f & md & b & _ & Hout)].
  - destruct (load_plugin_bundle_try pm src) as [[ok|e] pm1]; cbn [fst snd] in *;
      subst pm1; cbn; lia.
  - rewrite Hout. cbn. rewrite map_size_insert.
    destruct (_ !! _); unfold id; lia.
Qed.

(** X14: [load_all_plugin_bundles] never unloads and never unmarks:
    the names of the bundles, the healthy set and the failed set only
    grow; the number of successful loads is at most the number of
    directories, and the registry gains at most one bundle per
    successful load. *)
Theorem load_all_only_adds (srcs : list PluginSource) (pm : PluginManager) :
  let out := load_all_plugin_bundles pm srcs in
  (out.1 <= length srcs)%nat
  /\ (size (plugin_bundles out.2) <= size (plugin_bundles pm) + out.1)%nat
  /\ dom (plugin_bundles pm) ⊆ dom (plugin_bundles out.2)
  /\ healthy_plugins pm ⊆ healthy_plugins out.2
  /\ failed_plugins pm ⊆ failed_plugins out.2.
Proof.
  cbn zeta. revert pm. induction srcs as [|src srcs IH]; intros pm.
  - cbn. repeat split; done || lia.
  - cbn [load_all_plugin_bundles length].
    pose proof (load_plugin_bundle_size pm src) as Hsize.
    pose proof (load_plugin_bundle_grows pm src) as [_ (Hd & Hh & Hf)].
    destruct (load_plugin_bundle pm src) as [ok pm1]. cbn [fst snd] in *.
    specialize (IH pm1). destruct (load_all_plugin_bundles pm1 srcs) as [cnt pm2].
    cbn [fst snd] in *. destruct IH as (I1 & I2 & I3 & I4 & I5).
    repeat split; [destruct ok; lia | destruct ok; lia | set_solver..].
Qed.

(** X15: discovery takes the entries that are directories holding a
    [plugin.py], in the order of the listing: an entry that is a plain
    file, or a directory without [plugin.py], can be removed from the
    listing without any change to what loading does, and a plugins
    directory that does not exist loads nothing and leaves the manager
    as it was. *)
Theorem discovery_skips_non_plugins (pm : PluginManager) (exists_ : bool)
    (l1 l2 : list DirEntry) (e : DirEntry) :
  (is_dir e && has_plugin_py e = false ->
     load_all_from pm (mkPluginsDir exists_ (l1 ++ e :: l2))
     = load_all_from pm (mkPluginsDir exists_ (l1 ++ l2)))
  /\ (is_dir e && has_plugin_py e = true ->
      discover_plugin_directories (mkPluginsDir true (l1 ++ e :: l2))
      = (discover_plugin_directories (mkPluginsDir true l1)
         ++ entry_source e :: discover_plugin_directories (mkPluginsDir true l2))%list)
  /\ load_all_from pm (mkPluginsDir false (l1 ++ e :: l2)) = (0%nat, pm).
Proof.
  unfold load_all_from, discover_plugin_directories. cbn [dir_exists iterdir].
  split; [|split]; [| |done].
  - intros He. destruct exists_; [|done].
    rewrite !filter_app, filter_cons_False; [done|]. by rewrite He.
  - intros He. rewrite filter_app, filter_cons_True by done.
    by rewrite fmap_app.
Qed.

Lemma discovery_skips_non_plugins_witness :
  discover_plugin_directories MoreSamples.sample_dir
  = [Samples.good_source "search"; MoreSamples.toolless_source "idle"].
Proof.
  pose proof (discovery_skips_non_plugins Samples.fresh_manager true
                [mkEntry true true (Samples.good_source "search");
                 mkEntry false false Samples.exec_raising_source;
                 mkEntry true false Samples.metadata_raising_source] []
                (mkEntry true true (MoreSamples.toolless_source "idle"))) as (_ & H & _).
  exact (H eq_refl).
Defined.

End RegistryMoreClaims.

(** ** More about the engine: paths, messages, the current agent *)

Section EngineMoreFacts.
Import Config LLM Plugins Core Factory Engine.

Variables (o : MultiAgentOrchestrator) (w : Models).

Lemma coordinator_update (s : AgentState) (u : Update) :
  _coordinator_node o w s = Ok u ->
  length (u_messages u) = 1%nat /\ u_current_agent u = None
  /\ u_agents_used u = None /\ u_plugin_context u = None.
Proof.
  unfold _coordinator_node. destruct (MAX_HOPS <=? get_hops s)%Z.
  - by intros [= <-].
  - destruct (get_plugin_routing_info _); [|done]. cbn [mbind Outcome_bind].
    destruct (coordinator_invoke w _); [|done]. cbn [mbind Outcome_bind].
    by intros [= <-].
Qed.

Lemma finalizer_update (s : AgentState) (u : Update) :
  _finalizer_node w s = Ok u ->
  length (u_messages u) = 1%nat /\ u_current_agent u = None
  /\ u_agents_used u = None /\ u_plugin_context u = None.
Proof.
  unfold _finalizer_node. destruct (coordinator_invoke w _); [|done].
  cbn [mbind Outcome_bind]. by intros [= <-].
Qed.

Lemma agent_update (self : BasePluginAgent) (s : AgentState) (u : Update) :
  agent_node self w s = Ok u ->
  length (u_messages u) = 1%nat
  /\ u_current_agent u = Some (name (agent_metadata self))
  /\ exists ctx, u_plugin_context u = Some ctx
                 /\ last_plugin ctx = Some (name (agent_metadata self)).
Proof.
  unfold agent_node. destruct (get_system_prompt self); [|done].
  cbn [mbind Outcome_bind]. destruct (_bound_model self); [|done].
  destruct (agent_invoke w _ _); [|done]. cbn [mbind Outcome_bind].
  destruct (default _ (plugin_context s)); [|done].
  intros [= <-]. cbn. split; [done|]. split; [done|]. by eexists.
Qed.

(** A successful step only appends to the messages, and a coordinator
    or agent step appends exactly one. *)
Lemma step_messages (n n' : Node) (s s' : AgentState) :
  step o w n s = Ok (n', s') ->
  exists added,
    messages s' = (messages s ++ added)%list
    /\ ((if counts_hop n then 1 else 0) <= length added)%nat
    /\ session_id s' = session_id s /\ error s' = error s.
Proof.
  destruct n; cbn [step counts_hop].
  - destruct (_coordinator_node o w s) as [u|] eqn:Hu; [|done].
    cbn [mbind Outcome_bind]. destruct (coordinator_edge _); [|done].
    cbn [mbind Outcome_bind]. intros [= _ <-].
    apply coordinator_update in Hu as (Hl & _).
    exists (u_messages u). cbn. by rewrite Hl.
  - destruct (control_tools_node w _) as [ms|]; [|done]. cbn [mbind Outcome_bind].
    destruct (control_tools_edge _ _); [|done]. cbn [mbind Outcome_bind].
    intros [= _ <-]. exists ms. cbn. repeat split; lia.
  - destruct (graph_agents (graph o) !! plugin) as [a|]; [|done].
    destruct (agent_node a w s) as [u|] eqn:Hu; [|done].
    cbn [mbind Outcome_bind]. intros [= _ <-].
    apply agent_update in Hu as (Hl & _).
    exists (u_messages u). cbn. by rewrite Hl.
  - destruct (plugin_tools_node w _ _) as [ms|]; [|done]. cbn [mbind Outcome_bind].
    intros [= _ <-]. exists ms. cbn. repeat split; lia.
  - destruct (_finalizer_node w s) as [u|] eqn:Hu; [|done].
    cbn [mbind Outcome_bind]. intros [= _ <-].
    exists (u_messages u). cbn. repeat split; lia.
  - intros [= _ <-]. exists []. rewrite app_nil_r. cbn. repeat split; lia.
Qed.

(** A successful step leaves along an edge of the graph. *)
Lemma step_edge (n n' : Node) (s s' : AgentState) :
  (forall l t, route_mapping (graph o) !! l = Some t ->
     t = Finalizer \/ exists p, t = PluginAgent p) ->
  n <> END -> step o w n s = Ok (n', s') -> edge n n' = true.
Proof.
  intros Htargets Hn. destruct n; cbn [step]; [| | | | |done].
  - destruct (_coordinator_node o w s) as [u|]; [|done].
    cbn [mbind Outcome_bind]. unfold coordinator_edge.
    destruct (last _) as [m|]; [|done]. cbn [mbind Outcome_bind].
    intros [= <- _]. by destruct (has_tool_calls m).
  - destruct (control_tools_node w _) as [ms|]; [|done]. cbn [mbind Outcome_bind].
    unfold control_tools_edge.
    destruct (route_mapping (graph o) !! _) as [t|] eqn:Ht; [|done].
    cbn [mbind Outcome_bind]. intros [= <- _].
    by destruct (Htargets _ _ Ht) as [->|[p ->]].
  - destruct (graph_agents (graph o) !! plugin) as [a|]; [|done].
    destruct (agent_node a w s) as [u|]; [|done].
    cbn [mbind Outcome_bind]. intros [= <- _]. unfold agent_edge.
    destruct (String.eqb _ _); cbn; [by rewrite String.eqb_refl|done].
  - destruct (plugin_tools_node w _ _) as [ms|]; [|done]. cbn [mbind Outcome_bind].
    intros [= <- _]. cbn. by rewrite String.eqb_refl.
  - destruct (_finalizer_node w s) as [u|]; [|done].
    cbn [mbind Outcome_bind]. by intros [= <- _].
Qed.

(** What a successful step does to [current_agent] and to the plugin
    context: only a plugin agent touches them, and it writes its own
    name. *)
Lemma step_current (n n' : Node) (s s' : AgentState) :
  step o w n s = Ok (n', s') ->
  match last (arrivals (graph o) [n]) with
  | None => current_agent s' = current_agent s /\ plugin_context s' = plugin_context s
  | Some a =>
      current_agent s' = Some a
      /\ exists ctx, plugin_context s' = Some (Some ctx) /\ last_plugin ctx = Some a
  end.
Proof.
  destruct n; cbn [step arrivals omap list_omap last].
  - destruct (_coordinator_node o w s) as [u|] eqn:Hu; [|done].
    cbn [mbind Outcome_bind]. destruct (coordinator_edge _); [|done].
    cbn [mbind Outcome_bind]. intros [= _ <-].
    apply coordinator_update in Hu as (_ & Ha & _ & Hc). cbn. by rewrite Ha, Hc.
  - destruct (control_tools_node w _) as [ms|]; [|done]. cbn [mbind Outcome_bind].
    destruct (control_tools_edge _ _); [|done]. cbn [mbind Outcome_bind].
    by intros [= _ <-].
  - destruct (graph_agents (graph o) !! plugin) as [a|] eqn:Hg; [|done].
    unfold arrivals. cbn [omap list_omap]. rewrite ?Hg.
    cbn [fmap option_fmap option_map last].
    destruct (agent_node a w s) as [u|] eqn:Hu; [|done].
    cbn [mbind Outcome_bind]. intros [= _ <-].
    apply agent_update in Hu as (_ & Ha & ctx & Hc & Hl). cbn.
    rewrite Ha, Hc. split; [done|]. by exists ctx.
  - destruct (plugin_tools_node w _ _) as [ms|]; [|done]. cbn [mbind Outcome_bind].
    by intros [= _ <-].
  - destruct (_finalizer_node w s) as [u|] eqn:Hu; [|done].
    cbn [mbind Outcome_bind]. intros [= _ <-].
    apply finalizer_update in Hu as (_ & Ha & _ & Hc). cbn. by rewrite Ha, Hc.
  - by intros [= _ <-].
Qed.

Lemma is_path_cons (n : Node) (l : list Node) :
  is_path (n :: l) = match l with
                     | [] => true
                     | n' :: _ => edge n n' && is_path l
                     end.
Proof. by destruct l. Qed.

Lemma is_path_app (l1 l2 : list Node) :
  is_path (l1 ++ l2) = true -> is_path l2 = true.
Proof.
  induction l1 as [|n l1 IH]; [done|]. rewrite <- app_comm_cons, is_path_cons.
  destruct (l1 ++ l2)%list eqn:Hl; [|intros [_ H]%andb_prop; by apply IH].
  apply app_eq_nil in Hl as [_ ->]. done.
Qed.

(** The nodes of a run form a path that starts at the node the run
    starts from, does not contain [END], and, when the run returns a
    state, ends at a node with an edge to [END]. *)
Lemma run_is_path (fuel : nat) (n : Node) (s : AgentState) :
  (forall l t, route_mapping (graph o) !! l = Some t ->
     t = Finalizer \/ exists p, t = PluginAgent p) ->
  let visited := (run o w fuel n s).1 in
  (visited = [] \/ head visited = Some n)
  /\ is_path visited = true
  /\ (END ∉ visited)
  /\ (is_ok (run o w fuel n s).2 = true ->
      match last visited with
      | Some l => edge l END = true
      | None => n = END
      end).
Proof.
  intros Htargets. cbn zeta. revert n s.
  induction fuel as [|fuel IH]; intros n s.
  - destruct n; cbn; repeat split; try done; try (by left); apply not_elem_of_nil.
  - destruct (decide (n = END)) as [->|Hn].
    { rewrite run_END. cbn. repeat split; try done; [by left|apply not_elem_of_nil]. }
    rewrite run_step by done.
    destruct (step o w n s) as [[n' s1]|] eqn:Hstep.
    + cbn [fst snd]. apply step_edge in Hstep; [|done..].
      destruct (IH n' s1) as (Hhd & Hpath & Hend & Hlast).
      split; [by right|]. split; [|split].
      * rewrite is_path_cons. destruct (run o w fuel n' s1).1 as [|n0 l] eqn:Hv; [done|].
        destruct Hhd as [|[= ->]]; [done|]. by rewrite Hstep, Hpath.
      * rewrite not_elem_of_cons. by split.
      * intros Hok. specialize (Hlast Hok). rewrite last_cons.
        destruct (last (run o w fuel n' s1).1); [done|]. by subst n'.
    + cbn. repeat split; try done; [by right|].
      rewrite not_elem_of_cons. split; [done|apply not_elem_of_nil].
Qed.

Lemma run_messages (fuel : nat) (n : Node) (s s' : AgentState) (visited : list Node) :
  run o w fuel n s = (visited, Ok s') ->
  exists added,
    messages s' = (messages s ++ added)%list
    /\ (hop_steps visited <= length added)%nat
    /\ session_id s' = session_id s /\ error s' = error s.
Proof.
  revert n s visited. induction fuel as [|fuel IH]; intros n s visited.
  - destruct n; try done. intros [= <- <-]. exists []. by rewrite app_nil_r.
  - destruct (decide (n = END)) as [->|Hn].
    { rewrite run_END. intros [= <- <-]. exists []. by rewrite app_nil_r. }
    rewrite run_step by done.
    destruct (step o w n s) as [[n' s1]|] eqn:Hstep; [|done].
    intros [= <- Hrun]. rewrite hop_steps_cons.
    apply step_messages in Hstep as (a1 & Hm1 & Hl1 & Hs1 & He1).
    destruct (IH n' s1 (run o w fuel n' s1).1) as (a2 & Hm2 & Hl2 & Hs2 & He2).
    { rewrite <- Hrun. by destruct (run o w fuel n' s1). }
    exists (a1 ++ a2)%list. rewrite Hm2, Hm1, Hs2, Hs1, He2, He1, length_app.
    rewrite app_assoc. repeat split; lia.
Qed.

Lemma run_current (fuel : nat) (n : Node) (s s' : AgentState) (visited : list Node) :
  run o w fuel n s = (visited, Ok s') ->
  match last (arrivals (graph o) visited) with
  | None => current_agent s' = current_agent s /\ plugin_context s' = plugin_context s
  | Some a =>
      current_agent s' = Some a
      /\ exists ctx, plugin_context s' = Some (Some ctx) /\ last_plugin ctx = Some a
  end.
Proof.
  revert n s visited. induction fuel as [|fuel IH]; intros n s visited.
  - destruct n; try done. by intros [= <- <-].
  - destruct (decide (n = END)) as [->|Hn].
    { rewrite run_END. by intros [= <- <-]. }
    rewrite run_step by done.
    destruct (step o w n s) as [[n' s1]|] eqn:Hstep; [|done].
    intros [= <- Hrun].
    apply step_current in Hstep.
    specialize (IH n' s1 (run o w fuel n' s1).1).
    rewrite arrivals_cons, last_app.
    destruct (last (arrivals (graph o) (run o w fuel n' s1).1)) as [a|].
    + apply IH. rewrite <- Hrun. by destruct (run o w fuel n' s1).
    + destruct IH as [IHa IHc].
      { rewrite <- Hrun. by destruct (run o w fuel n' s1). }
      rewrite IHa, IHc. exact Hstep.
Qed.

End EngineMoreFacts.

Import Config LLM Plugins Core Factory Engine.

(** X16: the nodes a turn enters follow the edges of the graph
    ([coordinator] to [control_tools] or the end, [control_tools] to a
    plugin agent or the finalizer, an agent to its own tools or back
    to the coordinator, tools back to their agent, the finalizer to
    the end). The first node is the coordinator, the finalizer is
    entered at most once and then is the last node, and a turn that
    returns a state ended at the coordinator or at the finalizer. *)
Theorem visited_nodes_follow_graph (pm : PluginManager) (st : Settings)
    (o : MultiAgentOrchestrator) (w : Models) (s : AgentState)
    (visited : list Node) (r : Outcome AgentState) :
  new_orchestrator pm st = Ok o ->
  graph_invoke o w s = (visited, r) ->
  is_path visited = true
  /\ (forall before a b after,
        visited = (before ++ a :: b :: after)%list -> edge a b = true)
  /\ (visited = [] \/ head visited = Some Coordinator)
  /\ (END ∉ visited)
  /\ (forall before after,
        visited = (before ++ Finalizer :: after)%list -> after = [])
  /\ (forall s', r = Ok s' ->
        last visited = Some Coordinator \/ last visited = Some Finalizer).
Proof.
  intros (_ & Hr & _)%new_orchestrator_inv Hrun.
  assert (forall l t, route_mapping (graph o) !! l = Some t ->
            t = Finalizer \/ exists p, t = PluginAgent p) as Htargets.
  { intros l t. rewrite Hr. apply build_route_mapping_targets. }
  pose proof (run_is_path o w (recursion_limit w) Coordinator s Htargets) as H.
  unfold graph_invoke in Hrun. rewrite Hrun in H. cbn [fst snd] in H.
  destruct H as (Hhd & Hpath & Hend & Hlast).
  assert (forall before a b after,
            visited = (before ++ a :: b :: after)%list -> edge a b = true) as Hedges.
  { intros before a b after ->. apply is_path_app in Hpath.
    by apply andb_prop in Hpath as [? _]. }
  split; [done|]. split; [done|]. split; [done|]. split; [done|]. split.
  - intros before [|b after] ->; [done|].
    specialize (Hedges before Finalizer b after eq_refl).
    destruct b; try done. exfalso. apply Hend.
    apply elem_of_app. right. right. left.
  - intros s' ->. specialize (Hlast eq_refl).
    destruct (last visited) as [[]|]; try done; [by left|by right].
Qed.

Lemma visited_nodes_follow_graph_witness :
  exists o visited r,
    new_orchestrator Samples.two_plugin_manager (Samples.keyed_settings 10) = Ok o
    /\ graph_invoke o Samples.looping_models Samples.first_turn = (visited, r)
    /\ is_path visited = true.
Proof.
  eexists _, _, _.
  match goal with |- ?N /\ _ => assert N as Hnew by (vm_compute; reflexivity) end.
  split; [exact Hnew|].
  match goal with |- ?R /\ _ => assert R as Hrun by (vm_compute; reflexivity) end.
  split; [exact Hrun|].
  exact (proj1 (visited_nodes_follow_graph _ _ _ _ _ _ _ Hnew Hrun)).
Defined.

(** X17: a run that returns a state has only appended to the
    conversation: the messages it started from are a prefix of the
    messages it returns, at least one message was added per
    coordinator step and per agent step, and the session id and the
    error field are those of the input. *)
Theorem run_only_appends (o : MultiAgentOrchestrator) (w : Models) (fuel : nat)
    (n : Node) (s s' : AgentState) (visited : list Node) :
  run o w fuel n s = (visited, Ok s') ->
  exists added,
    messages s' = (messages s ++ added)%list
    /\ (hop_steps visited <= length added)%nat
    /\ session_id s' = session_id s
    /\ error s' = error s.
Proof. apply run_messages. Qed.

Lemma run_only_appends_witness :
  exists o visited s' added,
    new_orchestrator Samples.two_plugin_manager (Samples.keyed_settings 10) = Ok o
    /\ run o Samples.looping_models 25 Coordinator Samples.first_turn = (visited, Ok s')
    /\ messages s' = (messages Samples.first_turn ++ added)%list.
Proof.
  eexists _, _, _.
  match goal with
  | |- exists a, ?N /\ ?R /\ _ =>
      assert N as Hnew by (vm_compute; reflexivity);
      assert R as Hrun by (vm_compute; reflexivity)
  end.
  destruct (run_only_appends _ _ _ _ _ _ _ Hrun) as (added & Hm & _).
  exists added. split; [exact Hnew|]. split; [exact Hrun|exact Hm].
Defined.

(** X18: when the hop ceiling is not reached and the coordinator's
    model answers without a tool call, the turn consists of the
    coordinator step alone: the answer is appended to the conversation,
    [hops] grows by one, and no other key of the state changes. Both
    entry points return that state. *)
Theorem direct_answer_turn (o : MultiAgentOrchestrator) (w : Models) (s : AgentState)
    (info : list (string * string)) (reply : BaseMessage) :
  (0 < recursion_limit w)%nat ->
  (get_hops s < MAX_HOPS)%Z ->
  get_plugin_routing_info (plugin_manager o) = Ok info ->
  coordinator_invoke w (SystemMsg (coordinator_system_content info) :: messages s)
  = Ok reply ->
  get_tool_calls reply = [] ->
  let s' := {| messages := (messages s ++ [reply])%list;
               hops := Some (get_hops s + 1)%Z;
               current_agent := current_agent s;
               session_id := session_id s;
               agents_used := agents_used s;
               plugin_context := plugin_context s;
               error := error s |} in
  graph_invoke o w s = ([Coordinator], Ok s')
  /\ invoke o w s = s'
  /\ ainvoke o w s = s'.
Proof.
  intros Hfuel Hh Hinfo Hreply Hcalls. cbn zeta.
  assert (graph_invoke o w s
          = ([Coordinator],
             Ok {| messages := (messages s ++ [reply])%list;
                   hops := Some (get_hops s + 1)%Z;
                   current_agent := current_agent s;
                   session_id := session_id s;
                   agents_used := agents_used s;
                   plugin_context := plugin_context s;
                   error := error s |})) as Hrun.
  { unfold graph_invoke. destruct (recursion_limit w) as [|fuel]; [lia|].
    rewrite run_step by done. cbn [step]. unfold _coordinator_node.
    rewrite (proj2 (Z.leb_gt _ _) Hh), Hinfo. cbn [mbind Outcome_bind].
    rewrite Hreply. cbn [mbind Outcome_bind]. unfold coordinator_edge.
    cbn [apply_update messages u_messages]. rewrite last_snoc.
    unfold has_tool_calls. rewrite Hcalls. cbn [mbind Outcome_bind].
    rewrite bool_decide_eq_true_2 by done. cbn [negb]. by rewrite run_END. }
  unfold invoke, ainvoke. by rewrite Hrun.
Qed.

Lemma direct_answer_turn_witness :
  exists o,
    new_orchestrator Samples.two_plugin_manager (Samples.keyed_settings 10) = Ok o
    /\ messages (invoke o MoreSamples.answering_models Samples.first_turn)
       = [Samples.user_message "What is the answer?"; AIMsg "The answer is 42."].
Proof.
  eexists.
  match goal with |- ?N /\ _ => assert N as Hnew by (vm_compute; reflexivity) end.
  split; [exact Hnew|].
  refine (f_equal messages
            (proj1 (proj2 (direct_answer_turn _ MoreSamples.answering_models
                             Samples.first_turn _ (AIMsg "The answer is 42.")
                             _ _ _ eq_refl eq_refl)))).
  - vm_compute. lia.
  - vm_compute. reflexivity.
  - vm_compute. reflexivity.
Defined.

(** X19: when the coordinator's model asks for a tool and the last
    message the control tools return holds a token that routes to the
    finalizer (such as [final]), the turn is coordinator, control
    tools, finalizer: the finalizer's model sees the summary prompt
    followed by the whole conversation, its answer is the last message
    of the result, [hops] has grown by one only, and the record of
    agents is untouched. *)
Theorem finalize_turn (pm : PluginManager) (st : Settings)
    (o : MultiAgentOrchestrator) (w : Models) (s : AgentState)
    (info : list (string * string)) (request token answer : BaseMessage)
    (results : list BaseMessage) :
  new_orchestrator pm st = Ok o ->
  (3 <= recursion_limit w)%nat ->
  (get_hops s < MAX_HOPS)%Z ->
  get_plugin_routing_info (plugin_manager o) = Ok info ->
  coordinator_invoke w (SystemMsg (coordinator_system_content info) :: messages s)
  = Ok request ->
  get_tool_calls request <> [] ->
  control_tools_node w (messages s ++ [request]) = Ok (results ++ [token])%list ->
  routing_token_destination (dom (plugin_bundles pm)) (Some (content token))
  = Finalizer ->
  coordinator_invoke w
    (summary_prompt :: ((messages s ++ [request]) ++ results ++ [token]))%list
  = Ok answer ->
  graph_invoke o w s
  = ([Coordinator; ControlTools; Finalizer],
     Ok {| messages :=
             (((messages s ++ [request]) ++ results ++ [token]) ++ [answer])%list;
           hops := Some (get_hops s + 1)%Z;
           current_agent := current_agent s;
           session_id := session_id s;
           agents_used := agents_used s;
           plugin_context := plugin_context s;
           error := error s |}).
Proof.
  intros Hnew Hfuel Hh Hinfo Hreq Hcalls Hctl Htok Hans.
  set (u1 := {| u_messages := [request]; u_hops := Some (_inc_hops s);
                u_current_agent := None; u_agents_used := None;
                u_plugin_context := None |}).
  set (s1 := apply_update s u1).
  set (s2 := apply_update s1 (messages_only (results ++ [token])%list)).
  assert (step o w Coordinator s = Ok (ControlTools, s1)) as Hstep1.
  { cbn [step]. unfold _coordinator_node.
    rewrite (proj2 (Z.leb_gt _ _) Hh), Hinfo. cbn [mbind Outcome_bind].
    rewrite Hreq. cbn [mbind Outcome_bind]. fold u1. fold s1.
    unfold coordinator_edge. subst s1. cbn [apply_update messages u_messages u1].
    rewrite last_snoc. unfold has_tool_calls.
    by rewrite bool_decide_eq_false_2 by done. }
  assert (step o w ControlTools s1 = Ok (Finalizer, s2)) as Hstep2.
  { cbn [step]. subst s1. cbn [apply_update messages u_messages u1].
    rewrite Hctl. cbn [mbind Outcome_bind].
    rewrite (control_tools_edge_destination pm st o _ Hnew).
    cbn [apply_update messages messages_only u_messages].
    rewrite (app_assoc _ results [token]), last_snoc.
    cbn [fmap option_fmap option_map]. by rewrite Htok. }
  assert (step o w Finalizer s2
          = Ok (END, apply_update s2
                       {| u_messages := [answer]; u_hops := Some (get_hops s2);
                          u_current_agent := None; u_agents_used := None;
                          u_plugin_context := None |})) as Hstep3.
  { cbn [step]. unfold _finalizer_node.
    assert (messages s2 = ((messages s ++ [request]) ++ results ++ [token])%list)
      as -> by done.
    by rewrite Hans. }
  unfold graph_invoke.
  destruct (recursion_limit w) as [|[|[|fuel]]]; [lia..|].
  rewrite run_step, Hstep1 by done. rewrite run_step, Hstep2 by done.
  rewrite run_step, Hstep3 by done. rewrite run_END. reflexivity.
Qed.

Lemma finalize_turn_witness :
  exists o,
    new_orchestrator Samples.two_plugin_manager (Samples.keyed_settings 10) = Ok o
    /\ (graph_invoke o MoreSamples.finalizing_models Samples.first_turn).1
       = [Coordinator; ControlTools; Finalizer].
Proof.
  eexists.
  match goal with |- ?N /\ _ => assert N as Hnew by (vm_compute; reflexivity) end.
  split; [exact Hnew|].
  refine (f_equal fst
            (finalize_turn Samples.two_plugin_manager (Samples.keyed_settings 10) _
               MoreSamples.finalizing_models Samples.first_turn _
               (Samples.tool_request "finalize") (Samples.tool_result "final")
               (AIMsg "The answer is 42.") [] Hnew _ _ _ eq_refl _ eq_refl eq_refl
               eq_refl)).
  - vm_compute. lia.
  - vm_compute. reflexivity.
  - vm_compute. reflexivity.
  - discriminate.
Defined.

(** X20: after a run that returns a state, [current_agent] and the
    [last_plugin] entry of the plugin context both hold the name of
    the agent that ran last; a run in which no agent ran leaves
    [current_agent] and the plugin context as they were. *)
Theorem current_agent_is_last_arrival (o : MultiAgentOrchestrator) (w : Models)
    (fuel : nat) (n : Node) (s s' : AgentState) (visited : list Node) :
  run o w fuel n s = (visited, Ok s') ->
  let names := arrivals (graph o) visited in
  (forall a, last names = Some a ->
     current_agent s' = Some a
     /\ exists ctx, plugin_context s' = Some (Some ctx) /\ last_plugin ctx = Some a)
  /\ (names = [] ->
      current_agent s' = current_agent s /\ plugin_context s' = plugin_context s).
Proof.
  intros Hrun. cbn zeta. pose proof (run_current o w fuel n s s' visited Hrun) as H.
  split.
  - intros a Ha. by rewrite Ha in H.
  - intros Hnil. by rewrite Hnil in H.
Qed.

Lemma current_agent_is_last_arrival_witness :
  exists o visited s',
    new_orchestrator Samples.two_plugin_manager (Samples.keyed_settings 10) = Ok o
    /\ run o Samples.looping_models 25 Coordinator Samples.first_turn = (visited, Ok s')
    /\ current_agent s' = Some "search".
Proof.
  eexists _, _, _. split; [vm_compute; reflexivity|].
  match goal with |- ?R /\ _ => assert R as Hrun by (vm_compute; reflexivity) end.
  split; [exact Hrun|].
  refine (proj1 (proj1 (current_agent_is_last_arrival _ _ _ _ _ _ _ Hrun) "search" _)).
  vm_compute. reflexivity.
Defined.

Lemma newest_tool_call_None (l : list BaseMessage) :
  newest_tool_call l = None <-> forall m, m ∈ l -> get_tool_calls m = [].
Proof.
  induction l as [|m l IH]; cbn [newest_tool_call].
  - split; [|done]. intros _ m Hm. by apply elem_of_nil in Hm.
  - destruct (get_tool_calls m) as [|c cs] eqn:Hc.
    + rewrite IH. split.
      * intros H m' [->|Hm']%elem_of_cons; [done|by apply H].
      * intros H m' Hm'. apply H. by right.
    + split.
      * intros Hl. apply last_None in Hl. done.
      * intros H. specialize (H m ltac:(left)). congruence.
Qed.

Lemma newest_tool_call_skip (l1 l2 : list BaseMessage) :
  (forall m, m ∈ l1 -> get_tool_calls m = []) ->
  newest_tool_call (l1 ++ l2) = newest_tool_call l2.
Proof.
  induction l1 as [|m l1 IH]; intros H; [done|].
  rewrite <- app_comm_cons. cbn [newest_tool_call].
  rewrite (H m) by left. apply IH. intros m' Hm'. apply H. by right.
Qed.

(** X21: [_last_assistant_tool_call_name] is [None] exactly when no
    message of the conversation carries a tool call; otherwise it is
    the name of the last call of the newest message that carries one.
    When the coordinator has just asked for a tool (so that the run
    goes on to the control tools), it is the last call of the last
    message. *)
Theorem last_tool_call_name_spec (s : AgentState) :
  (_last_assistant_tool_call_name s = None
   <-> forall m, m ∈ messages s -> get_tool_calls m = [])
  /\ (forall before m after,
        messages s = (before ++ m :: after)%list ->
        get_tool_calls m <> [] ->
        (forall m', m' ∈ after -> get_tool_calls m' = []) ->
        _last_assistant_tool_call_name s = last (get_tool_calls m)
        /\ is_Some (_last_assistant_tool_call_name s))
  /\ (coordinator_edge s = Ok ControlTools ->
      exists m, last (messages s) = Some m
                /\ _last_assistant_tool_call_name s = last (get_tool_calls m)
                /\ is_Some (_last_assistant_tool_call_name s)).
Proof.
  unfold _last_assistant_tool_call_name.
  assert (forall before m after,
            messages s = (before ++ m :: after)%list ->
            get_tool_calls m <> [] ->
            (forall m', m' ∈ after -> get_tool_calls m' = []) ->
            newest_tool_call (reverse (messages s)) = last (get_tool_calls m)
            /\ is_Some (newest_tool_call (reverse (messages s)))) as Hnewest.
  { intros before m after -> Hm Hafter.
    rewrite reverse_app, reverse_cons, <- app_assoc.
    rewrite newest_tool_call_skip;
      [|intros m' Hm'; apply Hafter; by rewrite elem_of_reverse in Hm'].
    cbn [app newest_tool_call].
    destruct (get_tool_calls m) as [|c cs] eqn:Hc; [done|].
    split; [done|]. apply last_is_Some. done. }
  split; [|split; [exact Hnewest|]].
  - rewrite newest_tool_call_None. split.
    + intros H m Hm. apply H. by rewrite elem_of_reverse.
    + intros H m Hm. rewrite elem_of_reverse in Hm. by apply H.
  - unfold coordinator_edge. destruct (last (messages s)) as [m|] eqn:Hl; [|done].
    unfold has_tool_calls. case_bool_decide as Hc; [done|]. intros _.
    exists m. split; [done|].
    apply last_Some in Hl as [before Hl].
    apply (Hnewest before m []); [done|done|].
    intros m' Hm'. by apply elem_of_nil in Hm'.
Qed.

Lemma last_tool_call_name_spec_witness :
  _last_assistant_tool_call_name
    (Samples.turn_state [Samples.user_message "hi"; Samples.tool_request "goto_search";
                         Samples.tool_result "search"] 1)
  = Some "goto_search".
Proof.
  exact (proj1 (proj1 (proj2 (last_tool_call_name_spec
                  (Samples.turn_state
                     [Samples.user_message "hi"; Samples.tool_request "goto_search";
                      Samples.tool_result "search"] 1)))
                  [Samples.user_message "hi"] (Samples.tool_request "goto_search")
                  [Samples.tool_result "search"] eq_refl
                  ltac:(discriminate)
                  ltac:(intros m' [->|[]%elem_of_nil]%elem_of_cons; reflexivity))).
Defined.

(** X22: [PluginMetadata.__post_init__] accepts a metadata exactly
    when its name and its version hold a character that is not white
    space and its agent type is one of [specialized], [general] and
    [utility]; for an accepted metadata exactly one of the three
    [is_..._agent] properties holds. A blank name is reported first,
    whatever the version and the type are. *)
Theorem post_init_accepts (md : PluginMetadata) :
  (__post_init__ md = Ok tt
   <-> blank (name md) = false /\ blank (version md) = false
       /\ agent_type md ∈ ["specialized"; "general"; "utility"])
  /\ (__post_init__ md = Ok tt ->
      (is_specialized_agent md = true /\ is_general_agent md = false
       /\ is_utility_agent md = false)
      \/ (is_specialized_agent md = false /\ is_general_agent md = true
          /\ is_utility_agent md = false)
      \/ (is_specialized_agent md = false /\ is_general_agent md = false
          /\ is_utility_agent md = true))
  /\ (blank (name md) = true ->
      __post_init__ md = Raise (mkExn "ValueError" "Plugin name cannot be empty"))
  /\ (blank (name md) = false -> blank (version md) = true ->
      __post_init__ md = Raise (mkExn "ValueError" "Plugin version cannot be empty")).
Proof.
  assert (__post_init__ md = Ok tt
          <-> blank (name md) = false /\ blank (version md) = false
              /\ agent_type md ∈ ["specialized"; "general"; "utility"]) as Hiff.
  { unfold __post_init__.
    destruct (blank (name md)); [by split; [|intros (? & _)]|].
    destruct (blank (version md)); [by split; [|intros (_ & ? & _)]|].
    case_bool_decide as Ht; cbn [negb]; [done|]. split; [done|]. by intros (_ & _ & ?). }
  split; [exact Hiff|]. split; [|split].
  - intros (_ & _ & Ht)%Hiff.
    unfold is_specialized_agent, is_general_agent, is_utility_agent.
    rewrite !elem_of_cons in Ht.
    destruct Ht as [->|[->|[->|Ht]]]; [by left|by right; left|by right; right|].
    by apply elem_of_nil in Ht.
  - unfold __post_init__. by intros ->.
  - unfold __post_init__. by intros -> ->.
Qed.

Lemma post_init_accepts_witness :
  __post_init__ (Samples.sample_metadata "search") = Ok tt.
Proof.
  apply (proj2 (proj1 (post_init_accepts (Samples.sample_metadata "search")))).
  split; [reflexivity|]. split; [reflexivity|]. left.
Defined.

(** ** The HTTP routes: sessions, chat and the plugin listing *)

Section RoutesFacts.
Import Config LLM Plugins Registry Core Engine Routes.

Lemma add_message_lookup (sm : SessionManager) (sid : string) (h : list BaseMessage)
    (m : BaseMessage) :
  sm !! sid = Some h ->
  add_message_to_session sm sid m = <[sid := (h ++ [m])%list]> sm.
Proof. unfold add_message_to_session. by intros ->. Qed.

Lemma add_messages_lookup (ms : list BaseMessage) (sm : SessionManager) (sid : string)
    (h : list BaseMessage) :
  sm !! sid = Some h ->
  foldl (fun sm msg => add_message_to_session sm sid msg) sm ms
  = <[sid := (h ++ ms)%list]> sm.
Proof.
  revert sm h. induction ms as [|m ms IH]; intros sm h Hh.
  - cbn [foldl]. rewrite app_nil_r. by rewrite insert_id.
  - cbn [foldl]. rewrite (add_message_lookup sm sid h m Hh).
    rewrite (IH _ (h ++ [m])%list) by by rewrite lookup_insert_eq.
    by rewrite insert_insert_eq, <- app_assoc.
Qed.

Lemma get_or_create_session_eq (sm : SessionManager) (session_id : option string)
    (uuid4 : string) :
  let sid := default uuid4 session_id in
  let history := default [] (sm !! sid) in
  get_or_create_session sm session_id uuid4 = ((sid, history), <[sid := history]> sm).
Proof.
  cbn zeta. unfold get_or_create_session.
  destruct (sm !! default uuid4 session_id) as [h|] eqn:Hh; cbn [default]; [|done].
  by rewrite insert_id.
Qed.

(** The store [chat] leaves behind, and its response, in terms of the
    result of the engine. *)
Lemma chat_store (orch : MultiAgentOrchestrator) (w : Models) (sm : SessionManager)
    (uuid4 : string) (request : ChatRequest) :
  let sid := default uuid4 (request_session_id request) in
  let history := default [] (sm !! sid) in
  let user_msg := HumanMsg (message request) in
  let result := ainvoke orch w (chat_state sid (history ++ [user_msg])%list) in
  (chat orch w sm uuid4 request).2
  = <[sid := (history ++ [user_msg] ++ messages result)%list]> sm.
Proof.
  cbn zeta. unfold chat. rewrite get_or_create_session_eq.
  rewrite (add_message_lookup _ _ (default [] (sm !! default uuid4 (request_session_id request))))
    by by rewrite lookup_insert_eq.
  rewrite insert_insert_eq.
  rewrite (add_messages_lookup _ _ _ _ (lookup_insert_eq _ _ _)).
  rewrite insert_insert_eq, <- app_assoc.
  by destruct (default _ (plugin_context _)).
Qed.

Lemma chat_response (orch : MultiAgentOrchestrator) (w : Models) (sm : SessionManager)
    (uuid4 : string) (request : ChatRequest) (ctx : PluginContext) :
  let sid := default uuid4 (request_session_id request) in
  let history := default [] (sm !! sid) in
  let user_msg := HumanMsg (message request) in
  let result := ainvoke orch w (chat_state sid (history ++ [user_msg])%list) in
  default (Some (mkContext None None)) (plugin_context result) = Some ctx ->
  (chat orch w sm uuid4 request).1
  = {| response := find_response (reverse (messages result));
       response_session_id := sid;
       plugin_used := last_plugin ctx;
       response_agents_used :=
         match last_plugin ctx with
         | Some p => if String.eqb p "" then None else Some [p]
         | None => None
         end;
       response_hops := default 0%Z (hops result);
       metadata_of :=
         {| message_count := length (messages result);
            meta_routing_history := default [] (routing_history ctx);
            multi_agent := false; meta_error := None; error_type := None |} |}.
Proof.
  cbn zeta. intros Hctx. unfold chat. rewrite get_or_create_session_eq.
  by rewrite Hctx.
Qed.

Lemma list_plugins_fold (pm : PluginManager) (names : list string)
    (acc : list PluginInfo) :
  (forall p, p ∈ names ->
     exists b md, plugin_bundles pm !! p = Some b /\ metadata b = Some md /\ name md = p) ->
  exists infos,
    foldl (fun plugins plugin_name =>
             plugins ← plugins;
             match get_plugin_bundle pm plugin_name with
             | Some bundle =>
                 info ← plugin_info pm plugin_name bundle;
                 Ok (plugins ++ [info])%list
             | None => Ok plugins
             end) (Ok acc) names = Ok (acc ++ infos)%list
    /\ info_name <$> infos = names
    /\ Forall2 (fun p info => get_plugin pm p = Ok info) names infos.
Proof.
  unfold get_plugin, get_plugin_bundle, plugin_info.
  revert acc. induction names as [|p names IH]; intros acc Hall.
  - exists []. by rewrite app_nil_r.
  - destruct (Hall p ltac:(left)) as (b & md & Hb & Hmd & Hn).
    cbn [foldl mbind Outcome_bind]. rewrite Hb, Hmd. cbn [mbind Outcome_bind].
    destruct (IH (acc ++ [{| info_name := name md; info_version := version md;
                             info_description := description md;
                             info_capabilities := capabilities md;
                             status := if bool_decide (p ∈ healthy_plugins pm)
                                       then "healthy" else "failed" |}])%list)
      as (infos & Hfold & Hnames & Hget).
    { intros q Hq. apply Hall. by right. }
    eexists (_ :: infos). rewrite Hfold, <- app_assoc. split; [done|].
    split; [cbn; by rewrite Hn, Hnames|].
    constructor; [|done]. by rewrite Hb, Hmd.
Qed.

End RoutesFacts.

Import Config LLM Plugins Registry Core Engine Routes.

(** X23: the session store. Opening a session by id returns the
    stored history, or an empty one that is stored from then on, and
    opening it again changes nothing; without an id the fresh
    identifier is used in the same way. A message added to an open
    session is the last of its history, a message for an unknown
    session is dropped without notice, and clearing removes the
    history and reports whether there was one. *)
Theorem session_store_laws (sm : SessionManager) (session_id uuid4 : string)
    (m : BaseMessage) :
  let history := default [] (sm !! session_id) in
  let opened := get_or_create_session sm (Some session_id) uuid4 in
  opened.1 = (session_id, history)
  /\ opened.2 !! session_id = Some history
  /\ (forall k, k <> session_id -> opened.2 !! k = sm !! k)
  /\ get_or_create_session opened.2 (Some session_id) uuid4 = opened
  /\ get_or_create_session sm None uuid4 = get_or_create_session sm (Some uuid4) uuid4
  /\ get_total_sessions opened.2
     = (get_total_sessions sm
        + match sm !! session_id with Some _ => 0 | None => 1 end)%nat
  /\ add_message_to_session opened.2 session_id m !! session_id
     = Some (history ++ [m])%list
  /\ (sm !! session_id = None -> add_message_to_session sm session_id m = sm)
  /\ (clear_session opened.2 session_id).1 = true
  /\ (clear_session opened.2 session_id).2 !! session_id = None
  /\ (sm !! session_id = None -> clear_session sm session_id = (false, sm)).
Proof.
  cbn zeta. rewrite !get_or_create_session_eq. cbn [default from_option id fst snd].
  rewrite !lookup_insert_eq. cbn [default from_option id]. rewrite insert_insert_eq.
  split; [done|]. split; [done|]. split; [by intros k Hk; rewrite lookup_insert_ne|].
  split; [done|]. split; [done|]. split.
  { unfold get_total_sessions. destruct (sm !! session_id) as [h|] eqn:Hh; cbn [default].
    - rewrite insert_id by done. lia.
    - rewrite map_size_insert, Hh. unfold id. lia. }
  split.
  { rewrite (add_message_lookup _ _ _ _ (lookup_insert_eq _ _ _)).
    by rewrite lookup_insert_eq. }
  split; [unfold add_message_to_session; by intros ->|].
  unfold clear_session. rewrite lookup_insert_eq. cbn [fst snd].
  split; [done|]. split; [by rewrite lookup_delete_eq|]. by intros ->.
Qed.

Lemma session_store_laws_witness :
  add_message_to_session new_session_manager "nobody" (HumanMsg "hello")
  = new_session_manager.
Proof.
  refine (proj1 (proj2 (proj2 (proj2 (proj2 (proj2 (proj2 (proj2
            (session_store_laws new_session_manager "nobody" "id-1"
               (HumanMsg "hello"))))))))) _).
  reflexivity.
Defined.

(** X24: what a chat request leaves in the session store. The
    response carries the id of the request, or the fresh id when the
    request has none; the history of that session is the old history,
    then the user's message, then every message of the engine's
    result; no other session changes. When the engine returns a state,
    its messages begin with the history and the user's message, so
    these are stored a second time. *)
Theorem chat_records_turn (orch : MultiAgentOrchestrator) (w : Models)
    (sm : SessionManager) (uuid4 : string) (request : ChatRequest) :
  let sid := default uuid4 (request_session_id request) in
  let history := default [] (sm !! sid) in
  let user_msg := HumanMsg (message request) in
  let state := chat_state sid (history ++ [user_msg])%list in
  let out := chat orch w sm uuid4 request in
  response_session_id out.1 = sid
  /\ out.2 !! sid = Some (history ++ [user_msg] ++ messages (ainvoke orch w state))%list
  /\ (forall k, k <> sid -> out.2 !! k = sm !! k)
  /\ get_total_sessions out.2
     = (get_total_sessions sm + match sm !! sid with Some _ => 0 | None => 1 end)%nat
  /\ (forall visited s',
        sm !! sid = None ->
        graph_invoke orch w state = (visited, Ok s') ->
        exists added,
          messages s' = user_msg :: added
          /\ out.2 !! sid = Some (user_msg :: user_msg :: added)).
Proof.
  cbn zeta. rewrite chat_store.
  split.
  { unfold chat. rewrite get_or_create_session_eq.
    by destruct (default _ (plugin_context _)). }
  split; [by rewrite lookup_insert_eq|].
  split; [by intros k Hk; rewrite lookup_insert_ne|].
  split.
  { unfold get_total_sessions. rewrite map_size_insert.
    destruct (sm !! default uuid4 (request_session_id request)); unfold id; lia. }
  intros visited s' Hnone Hrun. rewrite Hnone in *. cbn [default app] in *.
  unfold ainvoke. rewrite Hrun. cbn [snd].
  destruct (run_messages _ _ _ _ _ _ _ Hrun) as (added & Hm & _).
  exists added. cbn [chat_state messages app] in Hm.
  split; [done|]. by rewrite lookup_insert_eq, Hm.
Qed.

Lemma chat_records_turn_witness :
  exists orch visited s',
    new_orchestrator Samples.two_plugin_manager (Samples.keyed_settings 10) = Ok orch
    /\ graph_invoke orch MoreSamples.answering_models
         (chat_state "id-1" [HumanMsg "What is the answer?"]) = (visited, Ok s')
    /\ exists added,
         messages s' = HumanMsg "What is the answer?" :: added
         /\ (chat orch MoreSamples.answering_models new_session_manager "id-1"
               MoreSamples.hello).2 !! "id-1"
            = Some (HumanMsg "What is the answer?" :: HumanMsg "What is the answer?"
                      :: added).
Proof.
  eexists _, _, _.
  match goal with
  | |- ?N /\ ?R /\ _ =>
      assert N as Hnew by (vm_compute; reflexivity);
      assert R as Hrun by (vm_compute; reflexivity)
  end.
  split; [exact Hnew|]. split; [exact Hrun|].
  exact (proj2 (proj2 (proj2 (proj2
           (chat_records_turn _ MoreSamples.answering_models new_session_manager
              "id-1" MoreSamples.hello)))) _ _ eq_refl Hrun).
Defined.

(** X25: what a chat response reports after a turn in which the
    engine returned a state, on a state built by [chat]: [hops] is the
    number of coordinator and agent steps of the turn, [plugin_used]
    is the name of the agent that ran last (none when no agent ran),
    the routing history lists the agents in the order they ran, and
    the message count is the length of the returned conversation. The
    keys [error] and [error_type] are absent. *)
Theorem chat_reports_turn (orch : MultiAgentOrchestrator) (w : Models)
    (sm : SessionManager) (uuid4 : string) (request : ChatRequest)
    (visited : list Node) (s' : AgentState) :
  let sid := default uuid4 (request_session_id request) in
  let history := default [] (sm !! sid) in
  let state := chat_state sid (history ++ [HumanMsg (message request)])%list in
  let out := (chat orch w sm uuid4 request).1 in
  graph_invoke orch w state = (visited, Ok s') ->
  response out = find_response (reverse (messages s'))
  /\ response_hops out = Z.of_nat (hop_steps visited)
  /\ plugin_used out = last (arrivals (graph orch) visited)
  /\ (response_agents_used out
      = match last (arrivals (graph orch) visited) with
        | Some p => if String.eqb p "" then None else Some [p]
        | None => None
        end)
  /\ meta_routing_history (metadata_of out) = arrivals (graph orch) visited
  /\ message_count (metadata_of out) = length (messages s')
  /\ meta_error (metadata_of out) = None
  /\ error_type (metadata_of out) = None.
Proof.
  cbn zeta. intros Hrun.
  pose proof (run_current _ _ _ _ _ _ _ Hrun) as Hcur.
  pose proof (run_tracking _ _ _ _ _ _ _ Hrun) as [_ Hhist].
  pose proof (run_hops _ _ _ _ _ _ _ Hrun) as Hhops.
  assert (exists ctx, plugin_context s' = Some (Some ctx)
                      /\ last_plugin ctx = last (arrivals (graph orch) visited)
                      /\ default [] (routing_history ctx) = arrivals (graph orch) visited)
    as (ctx & Hctx & Hlast & Hrh).
  { unfold routing_history_of in Hhist. cbn [chat_state plugin_context app] in Hhist, Hcur.
    destruct (last (arrivals (graph orch) visited)) as [a|].
    - destruct Hcur as (_ & ctx & Hctx & Hl). exists ctx. by rewrite Hctx in Hhist.
    - destruct Hcur as [_ Hctx]. rewrite Hctx in Hhist. by eexists. }
  rewrite (chat_response orch w sm uuid4 request ctx);
    unfold ainvoke; rewrite Hrun; cbn [snd]; [|by rewrite Hctx].
  cbn [response response_hops plugin_used response_agents_used metadata_of
         meta_routing_history message_count meta_error error_type].
  rewrite Hlast, Hrh. repeat split.
  change (default 0%Z (hops s')) with (get_hops s'). rewrite Hhops.
  unfold get_hops. cbn. lia.
Qed.

Lemma chat_reports_turn_witness :
  exists orch visited s',
    new_orchestrator Samples.two_plugin_manager (Samples.keyed_settings 10) = Ok orch
    /\ graph_invoke orch Samples.looping_models
         (chat_state "id-1" [HumanMsg "What is the answer?"]) = (visited, Ok s')
    /\ response_hops (chat orch Samples.looping_models new_session_manager "id-1"
                        MoreSamples.hello).1 = Z.of_nat (hop_steps visited).
Proof.
  eexists _, _, _.
  match goal with
  | |- ?N /\ ?R /\ _ =>
      assert N as Hnew by (vm_compute; reflexivity);
      assert R as Hrun by (vm_compute; reflexivity)
  end.
  split; [exact Hnew|]. split; [exact Hrun|].
  exact (proj1 (proj2
           (chat_reports_turn _ Samples.looping_models new_session_manager "id-1"
              MoreSamples.hello _ _ Hrun))).
Defined.

(** X26: when the engine's run fails, the chat response is not the
    one of the handler's own error branch: the text is the apology
    followed by the text of the exception, [hops] is 1, no plugin and
    no agents are reported, the message count is 1, and the metadata
    has no [error] and no [error_type]. The session keeps the user's
    message, followed by the apology. *)
Theorem chat_hides_failure_in_text (orch : MultiAgentOrchestrator) (w : Models)
    (sm : SessionManager) (uuid4 : string) (request : ChatRequest)
    (visited : list Node) (e : Exn) :
  let sid := default uuid4 (request_session_id request) in
  let history := default [] (sm !! sid) in
  let user_msg := HumanMsg (message request) in
  let state := chat_state sid (history ++ [user_msg])%list in
  let out := chat orch w sm uuid4 request in
  let text := apology ++ " Error: " ++ str e in
  graph_invoke orch w state = (visited, Raise e) ->
  out.1 = {| response := text;
             response_session_id := sid;
             plugin_used := None;
             response_agents_used := None;
             response_hops := 1%Z;
             metadata_of :=
               {| message_count := 1; meta_routing_history := [];
                  multi_agent := false; meta_error := None; error_type := None |} |}
  /\ out.2 !! sid = Some (history ++ [user_msg; AIMsg text])%list.
Proof.
  cbn zeta. intros Hrun. split.
  - rewrite (chat_response orch w sm uuid4 request (mkContext None None));
      unfold ainvoke; rewrite Hrun; cbn [snd]; [|done].
    cbn [messages reverse hops plugin_context last_plugin routing_history default
           length get_hops chat_state].
    f_equal.
  - rewrite chat_store, lookup_insert_eq. unfold ainvoke. rewrite Hrun. done.
Qed.

Lemma chat_hides_failure_in_text_witness :
  exists orch,
    new_orchestrator Samples.two_plugin_manager (Samples.keyed_settings 10) = Ok orch
    /\ response_hops (chat orch Samples.failing_models new_session_manager "id-1"
                        MoreSamples.hello).1 = 1%Z.
Proof.
  eexists.
  match goal with |- ?N /\ _ => assert N as Hnew by (vm_compute; reflexivity) end.
  split; [exact Hnew|].
  refine (f_equal response_hops
            (proj1 (chat_hides_failure_in_text _ Samples.failing_models
                      new_session_manager "id-1" MoreSamples.hello _ _ _))).
  vm_compute. reflexivity.
Defined.

(** X27: over a consistent registry the plugin listing cannot fail:
    it has one entry per loaded plugin, in the order of
    [get_available_plugins], each under the plugin's name and equal to
    what the single-plugin route returns for that name, with status
    [healthy] exactly for the names of the healthy set. A name that is
    not loaded gets the 404 answer. *)
Theorem plugin_listing_of_registry (pm : PluginManager) :
  registry_consistent pm ->
  (exists infos,
     list_plugins pm = Ok infos
     /\ info_name <$> infos = get_available_plugins pm
     /\ Forall2 (fun p info => get_plugin pm p = Ok info)
          (get_available_plugins pm) infos)
  /\ (forall p info, get_plugin pm p = Ok info ->
        info_name info = p
        /\ is_Some (plugin_bundles pm !! p)
        /\ (status info = "healthy" <-> p ∈ healthy_plugins pm)
        /\ (status info = "failed" <-> p ∉ healthy_plugins pm))
  /\ (forall p, plugin_bundles pm !! p = None ->
        get_plugin pm p
        = Raise (mkExn "HTTPException" ("404: Plugin " ++ p ++ " not found"))).
Proof.
  intros (Hb & _ & _). split; [|split].
  - destruct (list_plugins_fold pm (get_available_plugins pm) []) as (infos & H).
    { intros p Hp%elem_of_get_available_plugins. apply elem_of_dom in Hp as [b Hp].
      destruct (Hb _ _ Hp) as [(md & ? & ? & ? & Hmd & Hn & _) _]. by exists b, md. }
    by exists infos.
  - intros p info. unfold get_plugin, get_plugin_bundle.
    destruct (plugin_bundles pm !! p) as [b|] eqn:Hp; [|done].
    destruct (Hb _ _ Hp) as [(md & ? & ? & ? & Hmd & Hn & _) _].
    unfold plugin_info. rewrite Hmd. intros [= <-]. cbn.
    split; [done|]. split; [by eexists|].
    case_bool_decide; split; split; done.
  - intros p Hp. unfold get_plugin, get_plugin_bundle. by rewrite Hp.
Qed.

Lemma plugin_listing_of_registry_witness :
  get_plugin Samples.two_plugin_manager "missing"
  = Raise (mkExn "HTTPException" "404: Plugin missing not found").
Proof.
  exact (proj2 (proj2 (plugin_listing_of_registry Samples.two_plugin_manager
           (registry_consistent_load_all
              [Samples.good_source "search"; Samples.good_source "final"] _
              (new_manager_consistent Samples.keyed_factory true))))
           "missing" eq_refl).
Defined.
